(** * Video forensics backend: scoring, JSON extraction, retries, fact-checking

    A shallow embedding of [backend.py] and [detector.py].  Python values that
    come back from external services are JSON values; exceptions are explicit
    results; calls to external services and [time.sleep] are events of a small
    state-and-exception monad.  Arithmetic on Python floats is IEEE 754
    binary64, embedded with Rocq's primitive floats. *)

From Stdlib Require Import ZArith List String Ascii Bool Lia QArith Qabs Floats.
From Stdlib Require DecimalString.
Import ListNotations.

Local Open Scope string_scope.
Local Open Scope Z_scope.

Set Implicit Arguments.
Set Warnings "-register-all,-inexact-float".

(* ================================================================== *)
(** * Python values and exceptions *)
(* ================================================================== *)

(** The exception classes the two modules raise or catch.  All of them are
    subclasses of [Exception]; [JSONDecodeError] is what [json.loads] raises,
    [ServiceError] stands for any exception class of a client library
    (network, rate limit, HTTP status). *)
Inductive exn_class :=
| TypeError | ValueError | AttributeError | OverflowError | NameError
| RuntimeError | JSONDecodeError | ServiceError.

Record exn := Exn { exn_class_of : exn_class; exn_msg : string }.

Definition exn_class_eqb (a b : exn_class) : bool :=
  match a, b with
  | TypeError, TypeError | ValueError, ValueError
  | AttributeError, AttributeError | OverflowError, OverflowError
  | NameError, NameError | RuntimeError, RuntimeError
  | JSONDecodeError, JSONDecodeError | ServiceError, ServiceError => true
  | _, _ => false
  end.

(** Pure code that may raise. *)
Definition result (A : Type) : Type := (exn + A)%type.

Definition ok {A} (a : A) : result A := inr a.
Definition raise {A} (c : exn_class) (msg : string) : result A := inl (Exn c msg).

Definition rbind {A B} (r : result A) (k : A -> result B) : result B :=
  match r with inl e => inl e | inr a => k a end.

Declare Scope result_scope.
Delimit Scope result_scope with result.
Notation "x <- r ;; k" := (rbind r (fun x => k))
  (at level 61, r at next level, right associativity) : result_scope.

(** JSON values as [json.loads] builds them.  An object keeps its keys in
    insertion order, as a Python dict does.  Numbers are the integers; JSON
    numbers with a fraction or an exponent are outside this type. *)
Inductive json :=
| JNull
| JBool (b : bool)
| JInt (n : Z)
| JStr (s : string)
| JArr (items : list json)
| JObj (fields : list (string * json)).

Definition dict := list (string * json).

(** [d.get(k)]: [None] when the key is absent. *)
Fixpoint dict_get (d : dict) (k : string) : option json :=
  match d with
  | [] => None
  | (k', v) :: rest => if String.eqb k' k then Some v else dict_get rest k
  end.

(** [d.get(k, default)]. *)
Definition dict_get_default (d : dict) (k : string) (default : json) : json :=
  match dict_get d k with Some v => v | None => default end.

(** [d[k] = v]: an existing key keeps its position. *)
Fixpoint dict_set (d : dict) (k : string) (v : json) : dict :=
  match d with
  | [] => [(k, v)]
  | (k', v') :: rest =>
      if String.eqb k' k then (k', v) :: rest else (k', v') :: dict_set rest k v
  end.

(** [d.setdefault(k, v)], for its effect on [d]. *)
Definition dict_setdefault (d : dict) (k : string) (v : json) : dict :=
  match dict_get d k with Some _ => d | None => dict_set d k v end.

(** Python truthiness, [bool(v)]. *)
Definition truthy (v : json) : bool :=
  match v with
  | JNull => false
  | JBool b => b
  | JInt n => negb (n =? 0)
  | JStr s => negb (String.eqb s "")
  | JArr l => match l with [] => false | _ => true end
  | JObj f => match f with [] => false | _ => true end
  end.

(** [a or b]. *)
Definition py_or (a b : json) : json := if truthy a then a else b.

(** Equality of a JSON value with a string literal, [v == "lit"]. *)
Definition json_is_str (v : option json) (lit : string) : bool :=
  match v with Some (JStr s) => String.eqb s lit | _ => false end.

(* ================================================================== *)
(** * Strings *)
(* ================================================================== *)

(** Characters are the code points below 256. *)

Definition nat_of_char (c : ascii) : nat := nat_of_ascii c.

(** [str.isspace] on one character. *)
Definition is_space (c : ascii) : bool :=
  let n := nat_of_char c in
  ((9 <=? n) && (n <=? 13) || (28 <=? n) && (n <=? 32)
   || (n =? 133) || (n =? 160))%nat.

Fixpoint lstrip (s : string) : string :=
  match s with
  | String c rest => if is_space c then lstrip rest else s
  | EmptyString => EmptyString
  end.

Fixpoint rev_string_onto (s acc : string) : string :=
  match s with
  | EmptyString => acc
  | String c rest => rev_string_onto rest (String c acc)
  end.

Definition rev_string (s : string) : string := rev_string_onto s "".

Definition rstrip (s : string) : string := rev_string (lstrip (rev_string s)).

(** [s.strip()]. *)
Definition strip (s : string) : string := rstrip (lstrip s).

(** [s.startswith(p)]. *)
Fixpoint starts_with (p s : string) : bool :=
  match p, s with
  | EmptyString, _ => true
  | String a p', String b s' => Ascii.eqb a b && starts_with p' s'
  | String _ _, EmptyString => false
  end.

(** [s.find(sub)]: the lowest index where [sub] occurs, [None] for [-1]. *)
Fixpoint find (sub s : string) : option nat :=
  if starts_with sub s then Some O
  else match s with
       | EmptyString => None
       | String _ rest => option_map S (find sub rest)
       end.

(** [s.rfind(sub)]: the highest index where [sub] occurs. *)
Fixpoint rfind (sub s : string) : option nat :=
  match s with
  | EmptyString => if starts_with sub s then Some O else None
  | String _ rest =>
      match rfind sub rest with
      | Some i => Some (S i)
      | None => if starts_with sub s then Some O else None
      end
  end.

(** [sub in s]. *)
Definition contains (sub s : string) : bool :=
  match find sub s with Some _ => true | None => false end.

(** [s[:n]]. *)
Fixpoint take (n : nat) (s : string) : string :=
  match n, s with
  | O, _ => EmptyString
  | S n', String c rest => String c (take n' rest)
  | S _, EmptyString => EmptyString
  end.

(** [s[n:]]. *)
Fixpoint drop (n : nat) (s : string) : string :=
  match n, s with
  | O, _ => s
  | S n', String _ rest => drop n' rest
  | S _, EmptyString => EmptyString
  end.

(** [s[i:j]] for [0 <= i], [0 <= j]. *)
Definition slice (i j : nat) (s : string) : string := take (j - i) (drop i s).

(** [s.replace(old, new, 1)]: the first occurrence only. *)
Definition replace_first (old new s : string) : string :=
  match find old s with
  | Some i => take i s ++ new ++ drop (i + String.length old) s
  | None => s
  end.

(** [s.split(sep)] for a non-empty separator.  [fuel] bounds the number of
    characters looked at; [String.length s] is always enough. *)
Fixpoint split_fuel (fuel : nat) (sep s : string) : list string :=
  match fuel with
  | O => [s]
  | S fuel' =>
      match find sep s with
      | None => [s]
      | Some i => take i s :: split_fuel fuel' sep (drop (i + String.length sep) s)
      end
  end.

Definition split (sep s : string) : list string :=
  split_fuel (String.length s) sep s.

(** [str.lower] on one character of the ASCII range. *)
Definition lower_char (c : ascii) : ascii :=
  let n := nat_of_char c in
  if ((65 <=? n) && (n <=? 90))%nat then ascii_of_nat (n + 32) else c.

Fixpoint lower (s : string) : string :=
  match s with
  | EmptyString => EmptyString
  | String c rest => String (lower_char c) (lower rest)
  end.

(** [c * n] for a one-character string. *)
Fixpoint repeat_char (c : ascii) (n : nat) : string :=
  match n with O => EmptyString | S n' => String c (repeat_char c n') end.

(** The newline, as a one-character string. *)
Definition nl : string := String (ascii_of_nat 10) EmptyString.

(** [str(n)] for an [int]. *)
Definition str_of_int (n : Z) : string :=
  DecimalString.NilZero.string_of_int (Z.to_int n).

(* ================================================================== *)
(** * Python numbers *)
(* ================================================================== *)

(** [int(s)] for a string: optional surrounding whitespace, an optional sign,
    then decimal digits, single underscores allowed between digits. *)
Definition digit_of_char (c : ascii) : option Z :=
  let n := nat_of_char c in
  if ((48 <=? n) && (n <=? 57))%nat then Some (Z.of_nat (n - 48)) else None.

(** [after_digit] tells that the previous character was a digit, so that an
    underscore or the end of the string may follow. *)
Fixpoint parse_digits (s : string) (acc : Z) (after_digit : bool) : option Z :=
  match s with
  | EmptyString => if after_digit then Some acc else None
  | String c rest =>
      match digit_of_char c with
      | Some d => parse_digits rest (10 * acc + d) true
      | None =>
          if Ascii.eqb c "_"%char && after_digit
          then parse_digits rest acc false
          else None
      end
  end.

Definition int_of_string (s : string) : result Z :=
  let body := strip s in
  let '(neg, digits) :=
    match body with
    | String "-"%char rest => (true, rest)
    | String "+"%char rest => (false, rest)
    | _ => (false, body)
    end in
  match parse_digits digits 0 false with
  | Some n => ok (if neg then - n else n)
  | None => raise ValueError "invalid literal for int() with base 10"
  end.

(** [int(v)]. *)
Definition py_int (v : json) : result Z :=
  match v with
  | JInt n => ok n
  | JBool b => ok (if b then 1 else 0)
  | JStr s => int_of_string s
  | JNull | JArr _ | JObj _ =>
      raise TypeError "int() argument must be a string, a bytes-like object or a real number"
  end.

(** A number in an arithmetic context ([0 + v]): only [int] and [bool]. *)
Definition py_number (v : json) : result Z :=
  match v with
  | JInt n => ok n
  | JBool b => ok (if b then 1 else 0)
  | _ => raise TypeError "unsupported operand type(s) for +"
  end.

(** The conversion of an [int] operand to [float] in a mixed operation:
    correctly rounded to binary64, [OverflowError] when out of range.  Below
    [2^62] the primitive conversion of a 63-bit integer does the rounding. *)
Definition float_of_int (z : Z) : result float :=
  let f :=
    if Z.abs z <? 4611686018427387904 then
      let a := of_uint63 (Uint63.of_Z (Z.abs z)) in
      if z <? 0 then (- a)%float else a
    else SF2Prim (binary_normalize prec emax z 0 false) in
  if is_infinity f then raise OverflowError "int too large to convert to float"
  else ok f.

(** Round-half-to-even of [m * 2^e] for [0 <= m]. *)
Definition round_half_even_scaled (m e : Z) : Z :=
  match e with
  | Zneg p =>
      let q := Z.shiftr m (Z.pos p) in
      let r := m - Z.shiftl q (Z.pos p) in
      match 2 * r ?= Z.shiftl 1 (Z.pos p) with
      | Lt => q
      | Gt => q + 1
      | Eq => if Z.even q then q else q + 1
      end
  | _ => Z.shiftl m e
  end.

(** A finite float as mantissa and exponent: [|x| = m * 2^e] with [m] the
    53-bit integer mantissa. *)
Definition float_decompose (x : float) : Z * Z :=
  let (m, e) := Z.frexp (abs x) in
  (Uint63.to_Z (normfr_mantissa m), e - prec).

(** [round(x)] with one argument on a float: an [int], ties to even. *)
Definition py_round (x : float) : result Z :=
  if is_nan x then raise ValueError "cannot convert float NaN to integer"
  else if is_infinity x then raise OverflowError "cannot convert float infinity to integer"
  else
    let (m, e) := float_decompose x in
    let n := round_half_even_scaled m e in
    ok (if get_sign x then - n else n).

(** [float * int], [float + int], [int - float] as Python evaluates them. *)
Definition int_mul_float (z : Z) (c : float) : result float :=
  (x <- float_of_int z ;; ok (x * c)%float)%result.

Definition float_add_int (x : float) (z : Z) : result float :=
  (y <- float_of_int z ;; ok (x + y)%float)%result.

(** An [int] below [2^53] in magnitude as the float of the same value. *)
Definition exact_float (z : Z) : float :=
  let a := of_uint63 (Uint63.of_Z (Z.abs z)) in
  if z <? 0 then (- a)%float else a.

(** [a / b] for two [int]s, [0 < b]: the quotient correctly rounded to
    binary64, [OverflowError] when it is out of range.  When both operands
    are below [2^53] they are floats exactly and the float division does the
    rounding; otherwise the quotient is taken with more than 64 bits and a
    sticky bit for the remainder, and rounded once. *)
Definition int_true_div (a : Z) (b : positive) : result float :=
  if (Z.abs a <? 9007199254740992) && (Z.pos b <? 9007199254740992) then
    ok (exact_float a / exact_float (Z.pos b))%float
  else
    let k := Z.max 0 (66 + Z.log2 (Z.pos b) - Z.log2 (Z.abs a)) in
    let num := Z.shiftl (Z.abs a) k in
    let q := num / Z.pos b in
    let sticky := if num mod Z.pos b =? 0 then 0 else 1 in
    let m := 2 * q + sticky in
    let f := SF2Prim (binary_normalize prec emax (if a <? 0 then - m else m)
                                       (- k - 1) false) in
    if is_infinity f
    then raise OverflowError "integer division result too large for a float"
    else ok f.

(* ================================================================== *)
(** * Final scoring: [compute_final] *)
(* ================================================================== *)

(** [for r in v]: a list yields its items, a dict its keys, a string its
    characters; anything else is not iterable. *)
Fixpoint chars_of (s : string) : list json :=
  match s with
  | EmptyString => []
  | String c rest => JStr (String c EmptyString) :: chars_of rest
  end.

Definition py_iter (v : json) : result (list json) :=
  match v with
  | JArr l => ok l
  | JObj f => ok (map (fun kv => JStr (fst kv)) f)
  | JStr s => ok (chars_of s)
  | _ => raise TypeError "object is not iterable"
  end.

(** [r.get(k)] on a value that has to be a dict. *)
Definition obj_get (r : json) (k : string) : result (option json) :=
  match r with
  | JObj f => ok (dict_get f k)
  | _ => raise AttributeError "object has no attribute 'get'"
  end.

(** [sum(1 for r in results if r.get("verdict") in lits)]. *)
Fixpoint count_verdicts (lits : list string) (results : list json) : result Z :=
  match results with
  | [] => ok 0
  | r :: rest =>
      (v <- obj_get r "verdict" ;;
       n <- count_verdicts lits rest ;;
       ok (if existsb (json_is_str v) lits then 1 + n else n))%result
  end.

(** [sum(r.get("confidence", 0) for r in results)]. *)
Fixpoint sum_confidence (acc : Z) (results : list json) : result Z :=
  match results with
  | [] => ok acc
  | r :: rest =>
      (v <- obj_get r "confidence" ;;
       c <- py_number (match v with Some x => x | None => JInt 0 end) ;;
       sum_confidence (acc + c) rest)%result
  end.

(** [int(d.get(k, 0) or 0)]. *)
Definition score_field (d : dict) (k : string) : result Z :=
  py_int (py_or (dict_get_default d k (JInt 0)) (JInt 0)).

Definition clamp (lo hi n : Z) : Z := Z.max lo (Z.min hi n).

(** Lines 520-524: the accumulation of [risk], a float from line 521 on. *)
Definition risk_sum (splice_score time_score false_or_mixed unclear : Z)
    : result float :=
  (a <- int_mul_float splice_score 0.25 ;;
   r1 <- (z <- float_of_int 0 ;; ok (z + a)%float) ;;
   b <- int_mul_float time_score 0.35 ;;
   let r2 := (r1 + b)%float in
   r3 <- float_add_int r2 (false_or_mixed * 14) ;;
   float_add_int r3 (unclear * 5))%result.

(** Line 525: [round(risk)]. *)
Definition risk_round (splice_score time_score false_or_mixed unclear : Z) : result Z :=
  (r4 <- risk_sum splice_score time_score false_or_mixed unclear ;;
   py_round r4)%result.

(** Line 525: [int(max(0, min(100, round(risk))))]. *)
Definition risk_of (splice_score time_score false_or_mixed unclear : Z) : result Z :=
  (n <- risk_round splice_score time_score false_or_mixed unclear ;;
   ok (clamp 0 100 n))%result.

(** Lines 527-536. *)
Definition verdict_of (false_or_mixed time_score risk : Z) : string :=
  if (false_or_mixed =? 0) && (time_score <? 60) then
    if risk <? 70 then "REAL" else "MISLEADING"
  else if (2 <=? false_or_mixed) || (75 <=? risk) then "FAKE"
  else if (1 <=? false_or_mixed) || (50 <=? risk) || (60 <=? time_score)
       then "MISLEADING"
  else "REAL".

(** Line 538. *)
Definition confidence_of (risk : Z) : result Z :=
  (x <- int_mul_float risk 0.6 ;;
   n <- float_of_int 90 ;;
   c <- py_round (n - x)%float ;;
   ok (clamp 50 95 c))%result.

(** Line 515: [sum(...) / max(1, len(results))].  The sum is an [int]; the
    division is the true division of two [int]s and raises [OverflowError]
    when the average is beyond the binary64 range. *)
Definition average_confidence (results : list json) : result float :=
  (total <- sum_confidence 0 results ;;
   int_true_div total (Z.to_pos (Z.max 1 (Z.of_nat (List.length results)))))%result.

(** The dict [compute_final] returns.  [avg_factcheck_confidence], the average
    of line 515 rounded to one decimal, is left out of the record; the average
    itself is evaluated, since it can raise. *)
Record final_verdict := {
  verdict : string;
  confidence_percent : Z;
  misinformation_risk_score : Z;
  false_or_mixed_claims : Z;
  unclear_claims : Z;
  splice_risk_score : Z;
  timeline_mismatch_risk_score : Z;
  likely_event_year : option json;
  posted_date : option json
}.

Definition compute_final (factcheck splice timing : dict) : result final_verdict :=
  (results <- py_iter (dict_get_default factcheck "results" (JArr [])) ;;
   false_or_mixed <- count_verdicts ["false"; "mixed"] results ;;
   unclear <- count_verdicts ["unclear"] results ;;
   _ <- average_confidence results ;;
   splice_score <- score_field splice "splice_risk_score" ;;
   time_score <- score_field timing "timeline_mismatch_risk_score" ;;
   risk <- risk_of splice_score time_score false_or_mixed unclear ;;
   let verdict := verdict_of false_or_mixed time_score risk in
   confidence <- confidence_of risk ;;
   ok {| verdict := verdict;
         confidence_percent := confidence;
         misinformation_risk_score := risk;
         false_or_mixed_claims := false_or_mixed;
         unclear_claims := unclear;
         splice_risk_score := splice_score;
         timeline_mismatch_risk_score := time_score;
         likely_event_year := dict_get timing "likely_event_year";
         posted_date := dict_get timing "posted_date" |})%result.

(** ** The scoring formula in exact arithmetic *)

(** [0.25 s + 0.35 t + 14 f + 5 u] over the rationals. *)
Definition risk_exact (s t f u : Z) : Q :=
  ((25 # 100) * inject_Z s + (35 # 100) * inject_Z t
   + inject_Z 14 * inject_Z f + inject_Z 5 * inject_Z u)%Q.

(** [90 - 0.6 risk] over the rationals. *)
Definition confidence_exact (risk : Z) : Q :=
  (inject_Z 90 - (6 # 10) * inject_Z risk)%Q.

(** [n] is the rational [q] rounded to a nearest integer. *)
Definition is_round (n : Z) (q : Q) : Prop :=
  (Qabs (inject_Z n - q) <= 1 # 2)%Q.

(** [q] lies half-way between two integers. *)
Definition is_tie (q : Q) : Prop :=
  exists k : Z, (q == inject_Z k + (1 # 2))%Q.

(** Round-half-to-even of a rational. *)
Definition round_half_even (q : Q) : Z :=
  let d := Z.pos (Qden q) in
  let k := Qnum q / d in
  let r := Qnum q mod d in
  match 2 * r ?= d with
  | Lt => k
  | Gt => k + 1
  | Eq => if Z.even k then k else k + 1
  end.

(** The exact value of a finite float. *)
Definition float_value (x : float) : Q :=
  let (m, e) := float_decompose x in
  let v := match e with
           | Zneg p => m # (2 ^ p)
           | _ => inject_Z (m * 2 ^ e)
           end in
  if get_sign x then (- v)%Q else v.

(** ** Well-formed inputs *)

(** The list under ["results"]: absent counts as empty. *)
Definition results_list (factcheck : dict) : option (list json) :=
  match dict_get factcheck "results" with
  | None => Some []
  | Some (JArr l) => Some l
  | Some _ => None
  end.

(** A claim verdict: an object whose confidence, when present, is a number. *)
Definition wf_result (r : json) : bool :=
  match r with
  | JObj f =>
      match dict_get f "confidence" with
      | None | Some (JInt _) | Some (JBool _) => true
      | Some _ => false
      end
  | _ => false
  end.

(** The confidence one well-formed result adds to the sum of line 515. *)
Definition confidence_value (r : json) : Z :=
  match r with
  | JObj f =>
      match dict_get f "confidence" with
      | Some (JInt n) => n
      | Some (JBool true) => 1
      | _ => 0
      end
  | _ => 0
  end.

Definition confidence_total (results : list json) : Z :=
  fold_right (fun r total => confidence_value r + total) 0 results.

(** The sum and the number of results are below [2^53], as they are for any
    list of percentages that fits in memory: the average of line 515 is then
    the quotient of two exact floats. *)
Definition average_in_range (results : list json) : bool :=
  (Z.abs (confidence_total results) <? 9007199254740992)
  && (Z.of_nat (List.length results) <? 9007199254740992).

(** An integer score field, [0] when missing or null. *)
Definition int_field (d : dict) (k : string) : option Z :=
  match dict_get d k with
  | None | Some JNull => Some 0
  | Some (JInt n) => Some n
  | Some _ => None
  end.

(** The verdict of one result is one of [lits]. *)
Definition verdict_in (lits : list string) (r : json) : bool :=
  match r with
  | JObj f => existsb (json_is_str (dict_get f "verdict")) lits
  | _ => false
  end.

Definition count_where (p : json -> bool) (results : list json) : Z :=
  Z.of_nat (List.length (filter p results)).

Definition countFalseOrMixed : list json -> Z :=
  count_where (verdict_in ["false"; "mixed"]).

Definition countUnclear : list json -> Z :=
  count_where (verdict_in ["unclear"]).

(* ================================================================== *)
(** * Effects: external services, sleeping, module globals *)
(* ================================================================== *)

(** What a run does to the outside world, oldest event first. *)
Inductive event :=
| Slept (seconds : Q)            (* time.sleep *)
| Searched (query : string)      (* tavily_client.search *)
| Generated (prompt : string)    (* gemini_text_model.generate_content *)
| Uploaded (path : string)       (* genai.upload_file *)
| Polled                         (* genai.get_file *)
| VideoGenerated (prompt : string). (* video_model.generate_content *)

Definition trace := list event.
Bind Scope list_scope with trace.

(** A computation reads the events so far, may add some, and returns or
    raises. *)
Definition M (A : Type) : Type := trace -> result A * trace.

Definition ret {A} (a : A) : M A := fun tr => (inr a, tr).

Definition throw {A} (c : exn_class) (msg : string) : M A :=
  fun tr => (inl (Exn c msg), tr).

Definition rethrow {A} (e : exn) : M A := fun tr => (inl e, tr).

Definition bind {A B} (m : M A) (k : A -> M B) : M B :=
  fun tr => match m tr with
            | (inr a, tr') => k a tr'
            | (inl e, tr') => (inl e, tr')
            end.

Definition lift {A} (r : result A) : M A := fun tr => (r, tr).

Definition emit (e : event) : M unit := fun tr => (inr tt, (tr ++ [e])%list).

Declare Scope M_scope.
Delimit Scope M_scope with M.
Notation "x <- m ;; k" := (bind m (fun x => k))
  (at level 61, m at next level, right associativity) : M_scope.

(** The remote services and the standard library's JSON codec.  What a
    service answers may depend on everything that happened before. *)
Record services := {
  tavily_search : trace -> string -> result json;
  gemini_generate : trace -> string -> result (option string);
  genai_upload_file : trace -> string -> result string;
  genai_get_file : trace -> result string;
  video_generate : trace -> string -> result (option string);
  json_loads : string -> result json;
  json_dumps : json -> string
}.

(** A call to a service: the event is recorded, then the answer returned. *)
Definition call {A} (answer : trace -> result A) (e : event) : M A :=
  fun tr => (answer tr, (tr ++ [e])%list).

(** [time.sleep(seconds)]. *)
Definition sleep (seconds : Q) : M unit :=
  if Qlt_le_dec seconds 0
  then throw ValueError "sleep length must be non-negative"
  else emit (Slept seconds).

(** A call of a module-level name that is looked up when the call runs: an
    unbound name raises [NameError]. *)
Definition call_global (name : string) (binding : option (string -> M unit))
    (arg : string) : M unit :=
  match binding with
  | Some f => f arg
  | None => throw NameError ("name '" ++ name ++ "' is not defined")
  end.

(** [backend.py] calls [debug] on lines 93 and 299; the module neither
    defines nor imports that name. *)
Definition backend_debug : option (string -> M unit) := None.

(** A logger that returns without any effect, for comparison. *)
Definition silent_debug : option (string -> M unit) := Some (fun _ => ret tt).

Definition WEB_MAX_RESULTS : Z := 5.
Definition WEB_CONTENT_TRIM_CHARS : nat := 3500.

Section Backend.

Variable debug : option (string -> M unit).
Variable svc : services.

(* ------------------------------------------------------------------ *)
(** ** [with_retries] *)

(** [str(last_err)]. *)
Definition str_of_last_err (last_err : option exn) : string :=
  match last_err with Some e => exn_msg e | None => "None" end.

(** [base_sleep * (2 ** (attempt - 1))]. *)
Definition backoff (base_sleep : Q) (attempt : nat) : Q :=
  (base_sleep * inject_Z (2 ^ Z.of_nat (attempt - 1)))%Q.

(** The [for attempt in range(1, retries + 1)] loop from [attempt] on, with
    [remaining] iterations left, and the [raise] after it. *)
Fixpoint retry_loop {A} (fn : M A) (base_sleep : Q) (attempt remaining : nat)
    (last_err : option exn) : M A :=
  match remaining with
  | O => throw RuntimeError ("Failed after retries: " ++ str_of_last_err last_err)
  | S remaining' =>
      fun tr =>
        match fn tr with
        | (inr v, tr') => (inr v, tr')
        | (inl e, tr') =>
            if exn_class_eqb (exn_class_of e) TypeError then (inl e, tr')
            else
              (_ <- call_global "debug" debug ("Retry error details: " ++ exn_msg e) ;;
               _ <- sleep (backoff base_sleep attempt) ;;
               retry_loop fn base_sleep (S attempt) remaining' (Some e))%M tr'
        end
  end.

Definition with_retries {A} (fn : M A) (retries : nat) (base_sleep : Q) : M A :=
  retry_loop fn base_sleep 1 retries None.

(* ------------------------------------------------------------------ *)
(** ** [gemini_json] *)

Definition text_or_empty (t : option string) : string :=
  match t with Some s => s | None => "" end.

Definition fence : string := "```".

(** Lines 304-307 (and 216-219): the text between the first two fence
    markers, without its first ["json"], stripped. *)
Definition unfence (text : string) : string :=
  if contains fence text then
    match split fence text with
    | _ :: inner :: _ => strip (replace_first "json" "" inner)
    | _ => text
    end
  else text.

(** Lines 309-311 (and 221-223): from the first ["{"] to the last ["}"]. *)
Definition json_span (text : string) : option string :=
  match find "{" text, rfind "}" text with
  | Some start, Some stop =>
      if (start <? stop)%nat then Some (slice start (stop + 1) text) else None
  | _, _ => None
  end.

(** Lines 302-314: what [gemini_json] does with the text of the response. *)
Definition extract_json (response_text : option string) : result json :=
  let text := unfence (strip (text_or_empty response_text)) in
  match json_span text with
  | Some raw_json => json_loads svc raw_json
  | None => raise ValueError ("Gemini did not return valid JSON." ++ nl
                              ++ "Raw:" ++ nl ++ take 1200 text)
  end.

Definition gemini_json (prompt : string) : M json :=
  (_ <- call_global "debug" debug "gemini_json() prompt length" ;;
   resp <- call (fun tr => gemini_generate svc tr prompt) (Generated prompt) ;;
   lift (extract_json resp))%M.

(* ------------------------------------------------------------------ *)
(** ** Web evidence *)

(** [len(content)]. *)
Definition py_len (v : json) : result nat :=
  match v with
  | JStr s => ok (String.length s)
  | JArr l => ok (List.length l)
  | JObj f => ok (List.length f)
  | _ => raise TypeError "object has no len()"
  end.

(** A list or a dict cannot be the key of a dict. *)
Definition hashable (k : json) : bool :=
  match k with JArr _ | JObj _ => false | _ => true end.

(** [a == b] for two hashable keys: [True] is [1] and [False] is [0]. *)
Definition key_eqb (a b : json) : bool :=
  match a, b with
  | JStr s, JStr t => String.eqb s t
  | JNull, JNull => true
  | JInt n, JInt m => n =? m
  | JInt n, JBool c | JBool c, JInt n => n =? (if c then 1 else 0)
  | JBool c, JBool d => Bool.eqb c d
  | _, _ => false
  end.

(** [d[k] = v] on the pairs of a dict in insertion order. *)
Fixpoint pairs_set (pairs : list (json * json)) (k v : json) : list (json * json) :=
  match pairs with
  | [] => [(k, v)]
  | (k', v') :: rest =>
      if key_eqb k' k then (k', v) :: rest else (k', v') :: pairs_set rest k v
  end.

(** The dict of a sequence of key-value pairs: each element has to be an
    iterable of length two with a hashable first item; [i] numbers the
    elements for the messages. *)
Fixpoint dict_of_pairs (i : Z) (items : list json) (acc : list (json * json))
    : result (list (json * json)) :=
  match items with
  | [] => ok acc
  | item :: rest =>
      match py_iter item with
      | inl _ =>
          raise TypeError ("cannot convert dictionary update sequence element #"
                           ++ str_of_int i ++ " to a sequence")
      | inr [k; v] =>
          if hashable k then dict_of_pairs (i + 1) rest (pairs_set acc k v)
          else raise TypeError ("unhashable type: "
                                ++ match k with
                                   | JArr _ => "'list'"
                                   | _ => "'dict'"
                                   end)
      | inr kv =>
          raise ValueError ("dictionary update sequence element #" ++ str_of_int i
                            ++ " has length "
                            ++ str_of_int (Z.of_nat (List.length kv))
                            ++ "; 2 is required")
      end
  end.

(** The keys of a JSON object are strings.  A pair whose key is an [int], a
    [bool] or [None] makes a dict that is not a JSON object; its key is kept
    here as the text [json.dumps] writes for it, which is all that line 406
    shows of it, and [r2.get("content")] never meets such a key. *)
Definition key_text (k : json) : string :=
  match k with
  | JStr s => s
  | JInt n => str_of_int n
  | JBool true => "true"
  | JBool false => "false"
  | _ => "null"
  end.

(** [dict(r)], line 374.  A dict is copied.  Any other iterable is read as
    a sequence of key-value pairs, in which a key that comes again keeps its
    place and takes the later value.  So [dict([])] and [dict("")] are
    empty, and a non-empty string, whose elements have length one, raises
    [ValueError]; what is not iterable raises [TypeError]. *)
Definition dict_copy (r : json) : result dict :=
  match r with
  | JObj f => ok f
  | JArr items =>
      (pairs <- dict_of_pairs 0 items [] ;;
       ok (map (fun kv => (key_text (fst kv), snd kv)) pairs))%result
  | JStr s =>
      (pairs <- dict_of_pairs 0 (chars_of s) [] ;;
       ok (map (fun kv => (key_text (fst kv), snd kv)) pairs))%result
  | JNull | JInt _ | JBool _ => raise TypeError "object is not iterable"
  end.

(** The body of the loop on lines 373-378 for one search result. *)
Definition trim_result (r : json) : result json :=
  (r2 <- dict_copy r ;;
   let content := py_or (dict_get_default r2 "content" JNull) (JStr "") in
   n <- py_len content ;;
   if (WEB_CONTENT_TRIM_CHARS <? n)%nat then
     match content with
     | JStr s => ok (JObj (dict_set r2 "content"
                             (JStr (take WEB_CONTENT_TRIM_CHARS s ++ "..."))))
     | _ => raise TypeError "unsupported operand type(s) for +"
     end
   else ok (JObj r2))%result.

Fixpoint trim_results (results : list json) : result (list json) :=
  match results with
  | [] => ok []
  | r :: rest =>
      (r2 <- trim_result r ;;
       rest2 <- trim_results rest ;;
       ok (r2 :: rest2))%result
  end.

(** [res.get("results", []) if isinstance(res, dict) else []]. *)
Definition search_results (res : json) : json :=
  match res with
  | JObj f => dict_get_default f "results" (JArr [])
  | _ => JArr []
  end.

Definition web_evidence_for_claim (claim : string) : M dict :=
  (res <- with_retries
            (call (fun tr => tavily_search svc tr claim) (Searched claim)) 3 1 ;;
   lift (results <- py_iter (search_results res) ;;
         trimmed <- trim_results results ;;
         ok [("results", JArr trimmed)])%result)%M.

(* ------------------------------------------------------------------ *)
(** ** Fact-checking *)

(** The prompt of [gemini_factcheck_one_claim]; the fixed instructions are
    abbreviated, the three interpolated parts are kept. *)
Definition factcheck_prompt (claim claim_source : string) (sources : dict) : string :=
  "Return ONLY JSON. claim: " ++ claim ++ " claim_source: " ++ claim_source
  ++ " SOURCES: " ++ json_dumps svc (JObj sources).

Definition gemini_factcheck_one_claim (claim claim_source : string)
    (sources : dict) : M json :=
  gemini_json (factcheck_prompt claim claim_source sources).

(** [(v or default).strip()]. *)
Definition stripped_or (v : option json) (default : string) : result string :=
  match py_or (match v with Some x => x | None => JNull end) (JStr default) with
  | JStr s => ok (strip s)
  | _ => raise AttributeError "object has no attribute 'strip'"
  end.

(** The verdict emitted when the search found nothing, lines 428-436. *)
Definition no_sources_verdict (claim claim_source : string) : json :=
  JObj [("claim", JStr claim);
        ("claim_source", JStr claim_source);
        ("verdict", JStr "unclear");
        ("confidence", JInt 0);
        ("correct_information", JStr "");
        ("explanation", JStr "No web sources found for this claim.");
        ("citations", JArr [])].

(** Lines 440-446: the seven [setdefault] calls. *)
Definition backfill (claim claim_source : string) (verdict : json) : result json :=
  match verdict with
  | JObj d =>
      let d := dict_setdefault d "claim" (JStr claim) in
      let d := dict_setdefault d "claim_source" (JStr claim_source) in
      let d := dict_setdefault d "verdict" (JStr "unclear") in
      let d := dict_setdefault d "confidence" (JInt 0) in
      let d := dict_setdefault d "correct_information" (JStr "") in
      let d := dict_setdefault d "explanation" (JStr "") in
      let d := dict_setdefault d "citations" (JArr []) in
      ok (JObj d)
  | _ => raise AttributeError "object has no attribute 'setdefault'"
  end.

(** One iteration of the loop of [gemini_factcheck]: [None] for [continue]
    without a verdict. *)
Definition factcheck_claim (c : json) : M (option json) :=
  (claim <- lift (v <- obj_get c "claim" ;; stripped_or v "")%result ;;
   claim_source <- lift (v <- obj_get c "claim_source" ;; stripped_or v "video")%result ;;
   if String.eqb claim "" then ret None
   else
     sources <- web_evidence_for_claim claim ;;
     if negb (truthy (dict_get_default sources "results" JNull))
     then ret (Some (no_sources_verdict claim claim_source))
     else
       verdict <- gemini_factcheck_one_claim claim claim_source sources ;;
       filled <- lift (backfill claim claim_source verdict) ;;
       ret (Some filled))%M.

Fixpoint factcheck_loop (claims : list json) (out : list json) : M (list json) :=
  match claims with
  | [] => ret out
  | c :: rest =>
      (v <- factcheck_claim c ;;
       factcheck_loop rest (match v with Some x => (out ++ [x])%list | None => out end))%M
  end.

Definition gemini_factcheck (structured : dict) : M dict :=
  (claims <- lift (py_iter (py_or (dict_get_default structured "claims" (JArr []))
                                  (JArr []))) ;;
   out <- factcheck_loop claims [] ;;
   ret [("results", JArr out)])%M.

(* ------------------------------------------------------------------ *)
(** ** AI-generation detector: [check_video_synthid] *)

(** The neutral result, with its note. *)
Definition neutral (note : string) : json :=
  JObj [("is_ai", JBool false); ("trust_score", JInt 50);
        ("confidence", JInt 50); ("note", JStr note)].

(** Lines 183-184: one round of the polling loop. *)
Definition poll_file : M string :=
  (_ <- sleep 2 ;; call (genai_get_file svc) Polled)%M.

(** Lines 182-184: poll while the upload is being processed.  The loop has
    no bound of its own; [fuel] bounds the number of polls, and [None] says
    that the state was still ["PROCESSING"] when it ran out. *)
Fixpoint wait_while_processing (fuel : nat) (state : string) (tr : trace)
    : option (result string * trace) :=
  if String.eqb state "PROCESSING" then
    match fuel with
    | O => None
    | S fuel' =>
        match poll_file tr with
        | (inr state', tr') => wait_while_processing fuel' state' tr'
        | (inl e, tr') => Some (inl e, tr')
        end
    end
  else Some (inr state, tr).

(** The prompt of the detector; the fixed instructions are abbreviated. *)
Definition synthid_prompt (video_metadata : json) (twelvelabs_analysis : string)
    : string :=
  "METADATA: " ++ json_dumps svc video_metadata
  ++ " Video Analysis Context: " ++ take 2000 twelvelabs_analysis.

(** Lines 186-225: what follows the polling loop inside the [try]. *)
Definition synthid_after_upload (state : string) (video_metadata : json)
    (twelvelabs_analysis : string) : M json :=
  (if String.eqb state "FAILED"
   then throw RuntimeError "Video upload failed: FAILED"
   else
     let prompt := synthid_prompt video_metadata twelvelabs_analysis in
     response <- call (fun tr => video_generate svc tr prompt) (VideoGenerated prompt) ;;
     let text := unfence (strip (text_or_empty response)) in
     match json_span text with
     | Some raw_json => lift (json_loads svc raw_json)
     | None => ret (neutral "Unable to parse response")
     end)%M.

(** The body of the [try], lines 176-225. *)
Definition synthid_try (fuel : nat) (video_path : string) (video_metadata : json)
    (twelvelabs_analysis : string) (tr : trace) : option (result json * trace) :=
  match call (fun tr => genai_upload_file svc tr video_path) (Uploaded video_path) tr with
  | (inl e, tr') => Some (inl e, tr')
  | (inr state, tr') =>
      match wait_while_processing fuel state tr' with
      | None => None
      | Some (inl e, tr'') => Some (inl e, tr'')
      | Some (inr state', tr'') =>
          Some (synthid_after_upload state' video_metadata twelvelabs_analysis tr'')
      end
  end.

(** [try: ... except Exception as e: return {...}]. *)
Definition check_video_synthid (fuel : nat) (video_path : string)
    (video_metadata : json) (twelvelabs_analysis : string) (tr : trace)
    : option (json * trace) :=
  match synthid_try fuel video_path video_metadata twelvelabs_analysis tr with
  | None => None
  | Some (inr v, tr') => Some (v, tr')
  | Some (inl e, tr') => Some (neutral ("Error: " ++ exn_msg e), tr')
  end.

End Backend.

(* ================================================================== *)
(** * The standalone detector, [detector.py] *)
(* ================================================================== *)

(** The metadata object as the detector looks at it: [bool(metadata)] and
    [str(metadata)]. *)
Record pyobj := { py_bool : bool; py_str : string }.

Definition py_None : pyobj := {| py_bool := false; py_str := "None" |}.

(** [get_video_metadata]: the probe's answer, [None] when it raises. *)
Definition get_video_metadata (probe : result pyobj) : pyobj :=
  match probe with
  | inr metadata => metadata
  | inl _ => py_None
  end.

Definition is_metadata_real (metadata : pyobj) : bool :=
  if negb (py_bool metadata) then false
  else
    let real_indicators :=
      [contains "device" (lower (py_str metadata));
       contains "camera" (lower (py_str metadata));
       contains "recording" (lower (py_str metadata))] in
    existsb (fun b => b) real_indicators.

(** [check_with_twelvelabs]: a placeholder that returns [None] whether the
    client can be built or not. *)
Definition check_with_twelvelabs (client : result unit) : option json :=
  match client with
  | inr _ => None
  | inl _ => None
  end.

(** The dict [detect_ai_video] returns; [api_result] is [None] when the key
    is absent and [Some None] when it is present and holds [None]. *)
Record detection := {
  is_ai : bool;
  reason : string;
  metadata : pyobj;
  api_result : option (option json)
}.

Definition detect_ai_video (probe : result pyobj) (client : result unit) : detection :=
  let metadata := get_video_metadata probe in
  if is_metadata_real metadata then
    {| is_ai := false;
       reason := "Metadata proves authenticity";
       metadata := metadata;
       api_result := None |}
  else
    let api_result := check_with_twelvelabs client in
    {| is_ai := true;
       reason := "Could not verify authenticity";
       metadata := metadata;
       api_result := Some api_result |}.

(* ================================================================== *)
(** * Stand-ins for the services, used in examples *)
(* ================================================================== *)

(** Services that answer the same thing at every call. *)
Definition constant_services (search : result json)
    (generated : result (option string)) (loads : string -> result json)
    : services :=
  {| tavily_search := fun _ _ => search;
     gemini_generate := fun _ _ => generated;
     genai_upload_file := fun _ _ => raise ServiceError "unavailable";
     genai_get_file := fun _ => raise ServiceError "unavailable";
     video_generate := fun _ _ => generated;
     json_loads := loads;
     json_dumps := fun _ => "" |}.

(** Every remote service is down; [loads] rejects everything. *)
Definition down_services : services :=
  constant_services (raise ServiceError "unavailable")
                    (raise ServiceError "unavailable")
                    (fun _ => raise JSONDecodeError "Expecting value").

Definition is_search (e : event) : bool :=
  match e with Searched _ => true | _ => false end.

Definition count_searches (tr : trace) : nat :=
  List.length (filter is_search tr).

(** A function that fails with [err] on its first [k] calls and returns [v]
    from then on; a call is counted by the search it records. *)
Definition flaky {A} (query : string) (k : nat) (err : exn) (v : A) : M A :=
  call (fun tr => if (count_searches tr <? k)%nat then inl err else inr v)
       (Searched query).

(** The events of [k] failed attempts, each followed by its sleep, and of
    the attempt after them; attempts are numbered from [attempt]. *)
Definition retry_events (query : string) (base_sleep : Q) (attempt k : nat) : trace :=
  (flat_map (fun i => [Searched query; Slept (backoff base_sleep i)]) (seq attempt k)
   ++ [Searched query])%list.

(** The durations slept in a trace, in order. *)
Fixpoint sleeps_of (tr : trace) : list Q :=
  match tr with
  | [] => []
  | Slept q :: rest => q :: sleeps_of rest
  | _ :: rest => sleeps_of rest
  end.

(** The double quote, as a one-character string. *)
Definition dq : string := String (ascii_of_nat 34) EmptyString.

(* ================================================================== *)
(** * Evaluating the scoring formula over the score range *)
(* ================================================================== *)

(** The integers [0 .. n-1]. *)
Definition zrange (n : nat) : list Z := map Z.of_nat (seq 0 n).

(** Lines 520-522 of [compute_final]: the two weighted scores. *)
Definition risk_head (s t : Z) : result float :=
  (a <- int_mul_float s 0.25 ;;
   r1 <- (z <- float_of_int 0 ;; ok (z + a)%float) ;;
   b <- int_mul_float t 0.35 ;;
   ok (r1 + b)%float)%result.

(** Lines 523-525: the two counts are added, the sum is rounded. *)
Definition risk_tail (r2 : float) (f u : Z) : result Z :=
  (r3 <- float_add_int r2 (f * 14) ;;
   r4 <- float_add_int r3 (u * 5) ;;
   py_round r4)%result.

(** Twenty times the exact value of [0.25 s + 0.35 t + 14 f + 5 u]. *)
Definition exact20 (s t f u : Z) : Z := 5 * s + 7 * t + 280 * f + 100 * u.

(** A float reached by [risk_head], with twenty times the exact value it
    stands for. *)
Definition head_entry (s t : Z) : option (float * Z) :=
  match risk_head s t with
  | inr x => Some (x, 5 * s + 7 * t)
  | inl _ => None
  end.

Definition same_entry (a b : float * Z) : bool :=
  PrimFloat.Leibniz.eqb (fst a) (fst b) && (snd a =? snd b).

Fixpoint add_entry (a : float * Z) (l : list (float * Z)) : list (float * Z) :=
  match l with
  | [] => [a]
  | b :: rest => if same_entry a b then l else b :: add_entry a rest
  end.

Definition score_pairs : list (Z * Z) :=
  flat_map (fun s => map (fun t => (s, t)) (zrange 101)) (zrange 101).

(** The distinct floats [risk_head] reaches for scores in [0 .. 100]. *)
Definition head_table : list (float * Z) :=
  Eval vm_compute in
    fold_left (fun acc st =>
                 match head_entry (fst st) (snd st) with
                 | Some e => add_entry e acc
                 | None => acc
                 end) score_pairs [].

(** The float [risk_head] reaches for one pair of scores is in the table. *)
Definition head_ok (st : Z * Z) : bool :=
  match head_entry (fst st) (snd st) with
  | Some e => existsb (same_entry e) head_table
  | None => false
  end.

(** The largest number of false, mixed and unclear verdicts for which the
    rounded sum is evaluated; from 21 on the exact value is above 100. *)
Definition COUNT_RANGE : nat := 20.

(** The pairs of counts [(f, u)] with [f + u <= COUNT_RANGE]. *)
Definition count_pairs : list (Z * Z) :=
  flat_map (fun f => map (fun u => (f, u))
                         (zrange (S COUNT_RANGE - Z.to_nat f)))
           (zrange (S COUNT_RANGE)).

(** [round] of the sum is an integer nearest to the exact value. *)
Definition tail_ok (e : float * Z) (fu : Z * Z) : bool :=
  match risk_tail (fst e) (fst fu) (snd fu) with
  | inr n => Z.abs (20 * n - (snd e + 280 * fst fu + 100 * snd fu)) <=? 10
  | inl _ => false
  end.

Definition tail_entry_ok (e : float * Z) : bool :=
  forallb (tail_ok e) count_pairs.

(** Without a timeline score every term of the sum is a float exactly:
    [round] of the sum is round-half-even of the exact value, ties
    included. *)
Definition splice_only_ok (s : Z) : bool :=
  forallb (fun fu =>
             match risk_round s 0 (fst fu) (snd fu) with
             | inr n => n =? round_half_even (risk_exact s 0 (fst fu) (snd fu))
             | inl _ => false
             end) count_pairs.

(** [confidence_of] agrees with exact arithmetic on one risk score. *)
Definition confidence_ok (risk : Z) : bool :=
  match confidence_of risk with
  | inr c => c =? clamp 50 95 (round_half_even (confidence_exact risk))
  | inl _ => false
  end.

(** A fact-check result list for examples: one false, one unclear and one
    true verdict. *)
Definition example_results : list json :=
  [JObj [("verdict", JStr "false"); ("confidence", JInt 80)];
   JObj [("verdict", JStr "unclear")];
   JObj [("verdict", JStr "true"); ("confidence", JInt 95)]].

Definition example_factcheck : dict := [("results", JArr example_results)].

(* ================================================================== *)
(** * Balanced spans, for the JSON extraction *)
(* ================================================================== *)

Definition lbrace : ascii := "{"%char.
Definition rbrace : ascii := "}"%char.

(** Braces that nest properly, among any other characters. *)
Inductive balanced : string -> Prop :=
| balanced_nil : balanced ""
| balanced_char (c : ascii) (s : string) :
    c <> lbrace -> c <> rbrace -> balanced s -> balanced (String c s)
| balanced_nest (a b : string) :
    balanced a -> balanced b -> balanced ("{" ++ a ++ "}" ++ b).

(** The text holds a span [{...}] whose inside is balanced. *)
Definition has_balanced_span (text : string) : Prop :=
  exists pre mid post, text = pre ++ "{" ++ mid ++ "}" ++ post /\ balanced mid.

(** A JSON object whose only string value is a code fence:
    [{"code": "```"}]. *)
Definition json_with_fence : string :=
  "{" ++ dq ++ "code" ++ dq ++ ": " ++ dq ++ fence ++ dq ++ "}".

(** The JSON object [{"a": 1}]. *)
Definition small_json : string := "{" ++ dq ++ "a" ++ dq ++ ": 1}".

(** Prose that shows a fenced code block before its result. *)
Definition fenced_prose : string :=
  "I ran " ++ fence ++ "python print(1)" ++ fence ++ " and the result is ".

(* ================================================================== *)
(** * Web evidence: what trimming does to one item *)
(* ================================================================== *)

(** [(r2.get("content") or "")]. *)
Definition content_of (d : dict) : json :=
  py_or (dict_get_default d "content" JNull) (JStr "").

(** [r'] is [r] with its content cut to the first [WEB_CONTENT_TRIM_CHARS]
    characters followed by ["..."] when it was longer, and [r] itself
    otherwise. *)
Definition trimmed_item (r r' : json) : Prop :=
  exists d, r = JObj d
    /\ match content_of d with
       | JStr s =>
           if (String.length s <=? WEB_CONTENT_TRIM_CHARS)%nat
           then r' = JObj d
           else r' = JObj (dict_set d "content"
                             (JStr (take WEB_CONTENT_TRIM_CHARS s ++ "...")))
       | _ => r' = JObj d
       end.

(** A search result whose content has 3501 characters, and a search service
    that returns it. *)
Definition long_item : json :=
  JObj [("url", JStr "https://example.org");
        ("content", JStr (repeat_char "a" 3501))].

Definition long_item_services : services :=
  constant_services (ok (JObj [("results", JArr [long_item])]))
                    (raise ServiceError "unavailable")
                    (fun _ => raise JSONDecodeError "Expecting value").

(** A search result as the search service documents it: an object whose
    content is a string (or is missing, null or otherwise falsy). *)
Definition wf_item (r : json) : bool :=
  match r with
  | JObj d => match content_of d with JStr _ => true | _ => false end
  | _ => false
  end.

(** The content of an item, when it is a string, has at most [n]
    characters. *)
Definition content_within (n : nat) (r : json) : Prop :=
  forall d s, r = JObj d -> dict_get d "content" = Some (JStr s) ->
              (String.length s <= n)%nat.

(* ================================================================== *)
(** * Fact-checking: claims and the verdicts they yield *)
(* ================================================================== *)

(** [(c.get("claim") or "").strip()]. *)
Definition claim_text (c : json) : result string :=
  (v <- obj_get c "claim" ;; stripped_or v "")%result.

(** [(c.get("claim_source") or "video").strip()]. *)
Definition claim_source_of (c : json) : result string :=
  (v <- obj_get c "claim_source" ;; stripped_or v "video")%result.

(** The claims that the loop does not skip, each with its source, in claim
    order: those whose text is not empty once stripped. *)
Fixpoint nonblank_claims (claims : list json) : list (string * string) :=
  match claims with
  | [] => []
  | c :: rest =>
      match claim_text c, claim_source_of c with
      | inr claim, inr claim_source =>
          if String.eqb claim "" then nonblank_claims rest
          else (claim, claim_source) :: nonblank_claims rest
      | _, _ => nonblank_claims rest
      end
  end.

(** A claim is an object whose text and source are strings, when present. *)
Definition wf_claim (c : json) : bool :=
  match claim_text c, claim_source_of c with
  | inr _, inr _ => true
  | _, _ => false
  end.

(** [v] is the verdict of one claim, given by its text and its source:
    either the search for the text of this claim found nothing and [v] is
    the verdict for that case, or the search found sources, the reasoning
    stage answered the prompt made of this claim, its source and these
    sources, and [v] is that answer with its missing fields filled in. *)
Definition verdict_for (debug : option (string -> M unit)) (svc : services)
    (cs : string * string) (v : json) : Prop :=
  (exists tr tr1 sources,
      web_evidence_for_claim debug svc (fst cs) tr = (inr sources, tr1)
      /\ truthy (dict_get_default sources "results" JNull) = false
      /\ v = no_sources_verdict (fst cs) (snd cs))
  \/ (exists tr tr1 tr2 sources answer,
        web_evidence_for_claim debug svc (fst cs) tr = (inr sources, tr1)
        /\ truthy (dict_get_default sources "results" JNull) = true
        /\ gemini_factcheck_one_claim debug svc (fst cs) (snd cs) sources tr1
           = (inr answer, tr2)
        /\ backfill (fst cs) (snd cs) answer = inr v).

(** [v] shows under ["claim"] the text of the claim it was made for, unless
    the reasoning stage, asked about this claim, answered with a ["claim"]
    of its own, which the verdict then shows. *)
Definition names_claim (debug : option (string -> M unit)) (svc : services)
    (cs : string * string) (v : json) : Prop :=
  exists d,
    v = JObj d
    /\ (dict_get d "claim" = Some (JStr (fst cs))
        \/ exists sources tr tr' d0 x,
             gemini_factcheck_one_claim debug svc (fst cs) (snd cs) sources tr
             = (inr (JObj d0), tr')
             /\ dict_get d0 "claim" = Some x
             /\ dict_get d "claim" = Some x).

(** The claims are checked one after the other, in claim order:
    [factcheck_run debug svc claims tr verdicts tr'] tells that, from the
    trace [tr], a claim with a blank text is passed over; a claim whose
    search finds nothing yields the verdict for that case, and the next
    claim starts where the search ended; any other claim yields the filled
    answer of the reasoning stage, asked after the search; and that
    [verdicts] are the verdicts so yielded, in this order, with the trace
    [tr'] at the end. *)
Inductive factcheck_run (debug : option (string -> M unit)) (svc : services)
    : list json -> trace -> list json -> trace -> Prop :=
| run_done (tr : trace) : factcheck_run debug svc [] tr [] tr
| run_blank (c : json) (claim_source : string) (rest : list json)
    (tr : trace) (verdicts : list json) (tr' : trace) :
    claim_text c = inr "" ->
    claim_source_of c = inr claim_source ->
    factcheck_run debug svc rest tr verdicts tr' ->
    factcheck_run debug svc (c :: rest) tr verdicts tr'
| run_no_sources (c : json) (claim claim_source : string) (sources : dict)
    (rest : list json) (tr tr1 : trace) (verdicts : list json) (tr' : trace) :
    claim_text c = inr claim -> claim <> "" ->
    claim_source_of c = inr claim_source ->
    web_evidence_for_claim debug svc claim tr = (inr sources, tr1) ->
    truthy (dict_get_default sources "results" JNull) = false ->
    factcheck_run debug svc rest tr1 verdicts tr' ->
    factcheck_run debug svc (c :: rest) tr
                  (no_sources_verdict claim claim_source :: verdicts) tr'
| run_reasoned (c : json) (claim claim_source : string) (sources : dict)
    (answer v : json) (rest : list json) (tr tr1 tr2 : trace)
    (verdicts : list json) (tr' : trace) :
    claim_text c = inr claim -> claim <> "" ->
    claim_source_of c = inr claim_source ->
    web_evidence_for_claim debug svc claim tr = (inr sources, tr1) ->
    truthy (dict_get_default sources "results" JNull) = true ->
    gemini_factcheck_one_claim debug svc claim claim_source sources tr1
    = (inr answer, tr2) ->
    backfill claim claim_source answer = inr v ->
    factcheck_run debug svc rest tr2 verdicts tr' ->
    factcheck_run debug svc (c :: rest) tr (v :: verdicts) tr'.

(** The claims as the claim counts them: those whose text is not the empty
    string. *)
Definition nonempty_text (c : json) : bool :=
  match c with
  | JObj d => match dict_get d "claim" with
              | Some (JStr s) => negb (String.eqb s "")
              | _ => false
              end
  | _ => false
  end.

(** A search service that finds nothing. *)
Definition no_results : json := JObj [("results", JArr [])].

Definition no_results_services : services :=
  constant_services (ok no_results)
                    (raise ServiceError "unavailable")
                    (fun _ => raise JSONDecodeError "Expecting value").

(** A search service that finds one source, and a reasoning stage that
    answers without any JSON. *)
Definition one_source : json :=
  JObj [("results", JArr [JObj [("url", JStr "https://example.org");
                                ("content", JStr "The sky is blue.")]])].

Definition chatty_services : services :=
  constant_services (ok one_source)
                    (ok (Some "I cannot verify this claim."))
                    (fun _ => raise JSONDecodeError "Expecting value").

(** Structured content with one claim, and with one claim of spaces only. *)
Definition one_claim : dict :=
  [("claims", JArr [JObj [("claim", JStr "The sky is green")]])].

Definition blank_claim : dict :=
  [("claims", JArr [JObj [("claim", JStr "   ")]])].


(** Structured content with three claims: the second is blank, the third
    names its source and has spaces around its text. *)
Definition three_claims : dict :=
  [("claims", JArr [JObj [("claim", JStr "The sky is green")];
                    JObj [("claim", JStr "   ")];
                    JObj [("claim", JStr " Water is dry ");
                          ("claim_source", JStr "caption")]])].


(* ================================================================== *)
(** * Evaluating the confidence over the risk range *)
(* ================================================================== *)

(** The confidence of a risk score lies in [50, 90] and is 50 exactly from
    risk 66 on. *)
Definition confidence_range_ok (risk : Z) : bool :=
  match confidence_of risk with
  | inr c => (50 <=? c) && (c <=? 90) && Bool.eqb (c =? 50) (66 <=? risk)
  | inl _ => false
  end.

(** The confidence of [risk + 1] is not above that of [risk]. *)
Definition confidence_step_ok (risk : Z) : bool :=
  match confidence_of risk, confidence_of (risk + 1) with
  | inr c, inr c' => c' <=? c
  | _, _ => false
  end.


(* ================================================================== *)
(** * The user report, [make_user_report] *)
(* ================================================================== *)

(** [d.get(k)] as a value: [None] is [JNull]. *)
Definition get_or_null (d : dict) (k : string) : json :=
  dict_get_default d k JNull.

Definition json_of_option (v : option json) : json :=
  match v with Some x => x | None => JNull end.

(** [v[:n]]: a string and a list are cut; a number and [None] cannot be
    subscripted.  A dict raises too ([TypeError], and [KeyError] from
    Python 3.12 on, where a slice can be hashed). *)
Definition py_slice_to (n : nat) (v : json) : result json :=
  match v with
  | JStr s => ok (JStr (take n s))
  | JArr l => ok (JArr (firstn n l))
  | JNull | JBool _ | JInt _ => raise TypeError "object is not subscriptable"
  | JObj _ => raise TypeError "unhashable type: 'slice'"
  end.

(** Lines 585-591: the correction built from one result. *)
Definition correction_of (r : dict) : json :=
  JObj [("incorrect_claim", dict_get_default r "claim" (JStr ""));
        ("correct_information", dict_get_default r "correct_information" (JStr ""));
        ("confidence", dict_get_default r "confidence" (JInt 0));
        ("explanation", dict_get_default r "explanation" (JStr ""));
        ("citations", dict_get_default r "citations" (JArr []))].

(** Lines 582-591: the loop that collects the corrections. *)
Fixpoint corrections_loop (results : list json) (corrections : list json)
    : result (list json) :=
  match results with
  | [] => ok corrections
  | JObj d :: rest =>
      if existsb (json_is_str (dict_get d "verdict")) ["false"; "mixed"]
      then corrections_loop rest (corrections ++ [correction_of d])
      else corrections_loop rest corrections
  | _ :: _ => raise AttributeError "object has no attribute 'get'"
  end.

(** Lines 565-580: the reasons, in the order they are appended. *)
Definition reasons_of (s t f u : Z) (metadata synthid : dict) : list string :=
  (if truthy (get_or_null metadata "c2pa_ai")
   then ["C2PA metadata indicates AI-generated content."] else [])
  ++ (if truthy (get_or_null synthid "is_ai")
      then ["SynthID analysis detected AI generation patterns."] else [])
  ++ [if 30 <=? s
      then "Normal editing/jump cuts detected (common in tutorials)."
      else "Little to no abrupt editing detected."]
  ++ [if t <? 30 then "Timeline looks consistent with posted date."
      else if t <? 60 then "Some timeline uncertainty."
      else "Posted date and event timing look inconsistent."]
  ++ [if (f =? 0) && (u =? 0) then "Key claims look consistent with web sources."
      else if f =? 0 then "Some claims could not be confirmed from web sources."
      else "One or more claims appear false or misleading based on web sources."].

(** The ["details"] of the report: the five inputs, as they are. *)
Record report_details := {
  details_structured : dict;
  details_splice : dict;
  details_timing : dict;
  details_factcheck : dict;
  details_final : final_verdict
}.

(** The dict [make_user_report] returns. *)
Record user_report := {
  report_verdict : string;
  report_confidence_percent : Z;
  risk_score : Z;
  top_reasons : list string;
  summary : json;
  corrections : list json;
  signals : dict;
  report_metadata : dict;
  report_synthid : dict;
  details : report_details
}.

(** [final] is the dict that [compute_final] returns, the record here; its
    keys are read by subscript. *)
Definition make_user_report (final : final_verdict)
    (structured splice timing factcheck metadata synthid : dict)
    : result user_report :=
  let s := splice_risk_score final in
  let t := timeline_mismatch_risk_score final in
  let f := false_or_mixed_claims final in
  let u := unclear_claims final in
  let reasons := reasons_of s t f u metadata synthid in
  (results <- py_iter (dict_get_default factcheck "results" (JArr [])) ;;
   found <- corrections_loop results [] ;;
   let whole := py_or (py_or (get_or_null structured "combined_summary")
                             (get_or_null structured "video_summary"))
                      (JStr "") in
   cut <- py_slice_to 900 whole ;;
   ok {| report_verdict := verdict final;
         report_confidence_percent := confidence_percent final;
         risk_score := misinformation_risk_score final;
         top_reasons := firstn 5 reasons;
         summary := cut;
         corrections := firstn 5 found;
         signals :=
           [("splice_risk_score", JInt s);
            ("timeline_mismatch_risk_score", JInt t);
            ("likely_event_year", json_of_option (likely_event_year final));
            ("c2pa_ai_detected", dict_get_default metadata "c2pa_ai" (JBool false));
            ("synthid_ai_detected", dict_get_default synthid "is_ai" (JBool false));
            ("synthid_trust_score", dict_get_default synthid "trust_score" (JInt 50))];
         report_metadata :=
           [("format", get_or_null metadata "format");
            ("duration", get_or_null metadata "duration");
            ("encoder", get_or_null metadata "encoder");
            ("c2pa_data", dict_get_default metadata "c2pa_data" (JObj []))];
         report_synthid := synthid;
         details := {| details_structured := structured;
                       details_splice := splice;
                       details_timing := timing;
                       details_factcheck := factcheck;
                       details_final := final |} |})%result.

(** The false or mixed results of a list, as corrections. *)
Definition corrections_for (results : list json) : list json :=
  flat_map (fun r => match r with
                     | JObj d => if verdict_in ["false"; "mixed"] r
                                 then [correction_of d] else []
                     | _ => []
                     end) results.

(** Structured content with both summaries, and its inputs for a report. *)
Definition example_structured : dict :=
  [("video_summary", JStr "A clip of a flood.");
   ("combined_summary", JStr "");
   ("claims", JArr [])].


(** The final verdict for [example_factcheck] with a splice score of 40,
    and the report made from it. *)
Definition example_splice : dict := [("splice_risk_score", JInt 40)].

Definition example_metadata : dict := [("c2pa_ai", JBool true)].

(** Seven results, six of them false or mixed. *)
Definition many_false : list json :=
  [JObj [("verdict", JStr "false"); ("claim", JStr "one")];
   JObj [("verdict", JStr "mixed"); ("claim", JStr "two")];
   JObj [("verdict", JStr "true"); ("claim", JStr "three")];
   JObj [("verdict", JStr "false"); ("claim", JStr "four")];
   JObj [("verdict", JStr "false"); ("claim", JStr "five")];
   JObj [("verdict", JStr "mixed"); ("claim", JStr "six")];
   JObj [("verdict", JStr "false"); ("claim", JStr "seven")]].


(** What [compute_final] returns for [many_false] and no scores. *)
Definition fake_final : final_verdict :=
  {| verdict := "FAKE"; confidence_percent := 50;
     misinformation_risk_score := 84; false_or_mixed_claims := 6;
     unclear_claims := 0; splice_risk_score := 0;
     timeline_mismatch_risk_score := 0;
     likely_event_year := None; posted_date := None |}.


(* ================================================================== *)
(** * Metadata of a video file: [check_c2pa], [check_metadata],
      [summarize_metadata] *)
(* ================================================================== *)

(** What the interpreter raises inside the [try] of [check_c2pa]; the
    handler looks only at [str(e)]. *)
Inductive interp_error :=
| KeyMissing (key : json)          (* KeyError of [d[key]] *)
| BadSubscript (v index : json)    (* TypeError or IndexError of [v[index]] *)
| NoGet (v : json)                 (* AttributeError of [v.get] *)
| NotIterable (v : json)           (* TypeError of [for ... in v] *)
| NotContainer (v : json).         (* TypeError of [... in v] *)

(** The failures of the [try]: the [c2pa] library (its import, the reader or
    [reader.json()]) with its message, [json.loads], the interpreter. *)
Inductive c2pa_error :=
| ReaderFailed (msg : string)
| LoadsFailed (e : exn)
| Interp (err : interp_error).

Definition sbind {E A B} (r : E + A) (k : A -> E + B) : E + B :=
  match r with inl e => inl e | inr a => k a end.

Declare Scope sum_scope.
Delimit Scope sum_scope with sum.
Notation "x <- r ;; k" := (sbind r (fun x => k))
  (at level 61, r at next level, right associativity) : sum_scope.

(** [l[n]] for a list: a negative index counts from the end. *)
Definition list_index (l : list json) (n : Z) : option json :=
  let len := Z.of_nat (List.length l) in
  if (0 <=? n) && (n <? len) then nth_error l (Z.to_nat n)
  else if (- len <=? n) && (n <? 0) then nth_error l (Z.to_nat (n + len))
  else None.

(** [s[n]] for a string: the string of one character. *)
Definition string_index (s : string) (n : Z) : option json :=
  let len := Z.of_nat (String.length s) in
  let at_ (i : Z) := option_map (fun c => JStr (String c EmptyString))
                                (String.get (Z.to_nat i) s) in
  if (0 <=? n) && (n <? len) then at_ n
  else if (- len <=? n) && (n <? 0) then at_ (n + len)
  else None.

(** The index a value stands for, [True] being 1 and [False] 0. *)
Definition as_index (index : json) : option Z :=
  match index with
  | JInt n => Some n
  | JBool b => Some (if b then 1 else 0)
  | _ => None
  end.

(** [v[index]]. *)
Definition py_getitem (v index : json) : c2pa_error + json :=
  match v with
  | JObj d =>
      match index with
      | JStr k => match dict_get d k with
                  | Some x => inr x
                  | None => inl (Interp (KeyMissing index))
                  end
      | JNull | JBool _ | JInt _ => inl (Interp (KeyMissing index))
      | JArr _ | JObj _ => inl (Interp (BadSubscript v index))
      end
  | JArr l =>
      match as_index index with
      | Some n => match list_index l n with
                  | Some x => inr x
                  | None => inl (Interp (BadSubscript v index))
                  end
      | None => inl (Interp (BadSubscript v index))
      end
  | JStr s =>
      match as_index index with
      | Some n => match string_index s n with
                  | Some x => inr x
                  | None => inl (Interp (BadSubscript v index))
                  end
      | None => inl (Interp (BadSubscript v index))
      end
  | JNull | JBool _ | JInt _ => inl (Interp (BadSubscript v index))
  end.

(** [v.get(k, default)]. *)
Definition get_of (v : json) (k : string) (default : json) : c2pa_error + json :=
  match v with
  | JObj d => inr (dict_get_default d k default)
  | _ => inl (Interp (NoGet v))
  end.

(** The items of [for x in v]. *)
Definition iter_of (v : json) : c2pa_error + list json :=
  match py_iter v with
  | inr l => inr l
  | inl _ => inl (Interp (NotIterable v))
  end.

(** Lines 115-118: the inner loop, left at the first ["c2pa.created"]
    action with its [digitalSourceType]; [None] when the loop runs to its
    end. *)
Fixpoint first_created (actions : list json) : c2pa_error + option json :=
  match actions with
  | [] => inr None
  | action :: rest =>
      (a <- get_of action "action" JNull ;;
       if json_is_str (Some a) "c2pa.created"
       then (d <- get_of action "digitalSourceType" JNull ;; inr (Some d))
       else first_created rest)%sum
  end.

(** Lines 112-118: the outer loop; [digital_source_type] is what the loop
    has assigned so far.  The [break] leaves the inner loop only. *)
Fixpoint scan_assertions (assertions : list json) (digital_source_type : json)
    : c2pa_error + json :=
  match assertions with
  | [] => inr digital_source_type
  | assertion :: rest =>
      (label <- get_of assertion "label" JNull ;;
       if json_is_str (Some label) "c2pa.actions.v2" then
         data <- get_of assertion "data" (JObj []) ;;
         actions <- get_of data "actions" (JArr []) ;;
         items <- iter_of actions ;;
         found <- first_created items ;;
         scan_assertions rest (match found with
                               | Some d => d
                               | None => digital_source_type
                               end)
       else scan_assertions rest digital_source_type)%sum
  end.

Definition AI_SOURCE : string := "trainedAlgorithmicMedia".

(** Line 120:
    [bool(digital_source_type and "trainedAlgorithmicMedia" in digital_source_type)]. *)
Definition names_ai (digital_source_type : json) : c2pa_error + bool :=
  if truthy digital_source_type then
    match digital_source_type with
    | JStr s => inr (contains AI_SOURCE s)
    | JArr l => inr (existsb (fun x => json_is_str (Some x) AI_SOURCE) l)
    | JObj d => inr (existsb (fun kv => String.eqb (fst kv) AI_SOURCE) d)
    | JNull | JBool _ | JInt _ => inl (Interp (NotContainer digital_source_type))
    end
  else inr false.

(** The outcome of running [ffprobe]. *)
Inductive ffprobe_run :=
| ProbeFailed                  (* subprocess.CalledProcessError *)
| ProbeRaised (e : exn)        (* any other exception of subprocess.run *)
| ProbeOutput (stdout : string).

(** The machine the backend runs on, as the three functions see it. *)
Record host := {
  path_exists : string -> bool;                 (* os.path.exists *)
  c2pa_reader : string -> string + string;      (* c2pa.Reader(path).json(),
                                                   or str(e) of what it raised *)
  ffprobe : string -> option ffprobe_run        (* None: no ffprobe on the PATH *)
}.

Section Metadata.

Variable svc : services.
Variable h : host.

(** [str(e)] for an exception of the interpreter. *)
Variable message_of : interp_error -> string.

Definition str_of_c2pa_error (e : c2pa_error) : string :=
  match e with
  | ReaderFailed msg => msg
  | LoadsFailed e => exn_msg e
  | Interp err => message_of err
  end.

(** The body of the [try] of [check_c2pa], lines 104-121. *)
Definition c2pa_try (path : string) : c2pa_error + (bool * json) :=
  match c2pa_reader h path with
  | inl msg => inl (ReaderFailed msg)
  | inr text =>
      match json_loads svc text with
      | inl e => inl (LoadsFailed e)
      | inr manifest_store =>
          (active_manifest_id <- py_getitem manifest_store (JStr "active_manifest") ;;
           manifests <- py_getitem manifest_store (JStr "manifests") ;;
           active_manifest <- py_getitem manifests active_manifest_id ;;
           assertions <- get_of active_manifest "assertions" (JArr []) ;;
           items <- iter_of assertions ;;
           digital_source_type <- scan_assertions items JNull ;;
           is_ai <- names_ai digital_source_type ;;
           inr (is_ai, manifest_store))%sum
      end
  end.

Definition check_c2pa (path : string) : bool * json :=
  match c2pa_try path with
  | inr r => r
  | inl e =>
      let msg := str_of_c2pa_error e in
      if contains "ManifestNotFound" msg || contains "no JUMBF data" msg
      then (false, JObj [("status", JStr "No C2PA Manifest Found")])
      else (false, JObj [("error", JStr msg)])
  end.

Definition check_metadata (path : string) : result json :=
  match ffprobe h path with
  | None => ok (JObj [])
  | Some ProbeFailed => ok (JObj [])
  | Some (ProbeRaised e) => inl e
  | Some (ProbeOutput stdout) => json_loads svc stdout
  end.

(** [d.get(k, default)] on a value that has to be a dict. *)
Definition obj_get_default (r : json) (k : string) (default : json) : result json :=
  (v <- obj_get r k ;;
   ok (match v with Some x => x | None => default end))%result.

Definition summarize_metadata (path : string) : result dict :=
  if negb (path_exists h path) then ok [("error", JStr "File not found")]
  else
    let '(c2pa_ai, c2pa_data) := check_c2pa path in
    (probe <- check_metadata path ;;
     fmt <- obj_get_default probe "format" (JObj []) ;;
     format_name <- obj_get_default fmt "format_name" JNull ;;
     duration <- obj_get_default fmt "duration" (JStr "unknown") ;;
     tags1 <- obj_get_default fmt "tags" (JObj []) ;;
     creation_time <- obj_get_default tags1 "creation_time" (JStr "missing") ;;
     tags2 <- obj_get_default fmt "tags" (JObj []) ;;
     encoder <- obj_get_default tags2 "encoder" (JStr "unknown") ;;
     tags3 <- obj_get_default fmt "tags" (JObj []) ;;
     device <- obj_get_default tags3 "com.apple.quicktime.make" (JStr "unknown") ;;
     ok [("format", format_name);
         ("duration", duration);
         ("creation_time", creation_time);
         ("encoder", encoder);
         ("device", device);
         ("c2pa_ai", JBool c2pa_ai);
         ("c2pa_data", c2pa_data)])%result.

End Metadata.

(** A manifest store whose active manifest has the given assertions. *)
Definition manifest_with (assertions : list json) : json :=
  JObj [("active_manifest", JStr "urn:m1");
        ("manifests", JObj [("urn:m1", JObj [("assertions", JArr assertions)])])].

(** An actions assertion with one created action of the given source type. *)
Definition created_with (source_type : string) : json :=
  JObj [("label", JStr "c2pa.actions.v2");
        ("data", JObj [("actions",
                        JArr [JObj [("action", JStr "c2pa.opened")];
                              JObj [("action", JStr "c2pa.created");
                                    ("digitalSourceType", JStr source_type)]])])].

Definition AI_TYPE : string :=
  "http://cv.iptc.org/newscodes/digitalsourcetype/trainedAlgorithmicMedia".

Definition CAMERA_TYPE : string :=
  "http://cv.iptc.org/newscodes/digitalsourcetype/digitalCapture".

(** An assertion that is well formed for the loop: an object whose data,
    when it is an actions assertion, is an object with a list of action
    objects. *)
Definition wf_action (a : json) : bool :=
  match a with JObj _ => true | _ => false end.

Definition wf_assertion (a : json) : bool :=
  match a with
  | JObj d =>
      if json_is_str (Some (dict_get_default d "label" JNull)) "c2pa.actions.v2"
      then match dict_get_default d "data" (JObj []) with
           | JObj data =>
               match dict_get_default data "actions" (JArr []) with
               | JArr actions => forallb wf_action actions
               | _ => false
               end
           | _ => false
           end
      else true
  | _ => false
  end.

(** The source type that one assertion assigns: that of its first created
    action, [None] when it assigns nothing. *)
Definition assigned_by (a : json) : option json :=
  match a with
  | JObj d =>
      if json_is_str (Some (dict_get_default d "label" JNull)) "c2pa.actions.v2"
      then match dict_get_default d "data" (JObj []) with
           | JObj data =>
               match dict_get_default data "actions" (JArr []) with
               | JArr actions =>
                   match first_created actions with
                   | inr found => found
                   | inl _ => None
                   end
               | _ => None
               end
           | _ => None
           end
      else None
  | _ => None
  end.

(** The last assignment of a list of assertions, [dst] when there is
    none. *)
Definition last_assigned (assertions : list json) (dst : json) : json :=
  fold_left (fun acc a => match assigned_by a with Some d => d | None => acc end)
            assertions dst.

(** A host with a file that carries the given manifest store as text, and a
    codec that reads that text. *)
Definition host_with (reader : string + string) (probe : option ffprobe_run) : host :=
  {| path_exists := fun _ => true;
     c2pa_reader := fun _ => reader;
     ffprobe := fun _ => probe |}.

Definition loads_as (store : json) : services :=
  constant_services (raise ServiceError "unavailable")
                    (raise ServiceError "unavailable")
                    (fun _ => ok store).

Definition plain_message (err : interp_error) : string := "error".


(** A probe with a format, a duration and an encoder tag. *)
Definition example_probe : json :=
  JObj [("format", JObj [("format_name", JStr "mov,mp4");
                         ("duration", JStr "12.5");
                         ("tags", JObj [("encoder", JStr "Lavf58")])])].


(* ================================================================== *)
(** * The AI-detection endpoint, [analyze_ai] *)
(* ================================================================== *)

(** A response of the server: the HTTP status and the JSON body. *)
Record response := { status : Z; body : json }.

Definition error_response (code : Z) (msg : string) : response :=
  {| status := code; body := JObj [("error", JStr msg)] |}.

(** Lines 773-791: the report; [synthid] is what the detector returned. *)
Definition ai_report (metadata : dict) (synthid : json) : result dict :=
  (is_ai <- obj_get_default synthid "is_ai" (JBool false) ;;
   trust_score <- obj_get_default synthid "trust_score" (JInt 50) ;;
   confidence <- obj_get_default synthid "confidence" (JInt 50) ;;
   note <- obj_get_default synthid "note" (JStr "Analysis complete") ;;
   ok [("is_ai_generated",
        py_or is_ai (dict_get_default metadata "c2pa_ai" (JBool false)));
       ("trust_score", trust_score);
       ("confidence", confidence);
       ("detection_methods",
        JObj [("c2pa_metadata",
               JObj [("detected", dict_get_default metadata "c2pa_ai" (JBool false));
                     ("data", dict_get_default metadata "c2pa_data" (JObj []))]);
              ("synthid_analysis", synthid)]);
       ("metadata",
        JObj [("format", get_or_null metadata "format");
              ("duration", get_or_null metadata "duration");
              ("encoder", get_or_null metadata "encoder");
              ("device", get_or_null metadata "device")]);
       ("note", note)])%result.

(** Lines 766-802 of [analyze_ai]: the [try] with its handler, for the
    uploaded file saved at [video_path].  [None] when the polling of the
    detector has not ended within [fuel] polls. *)
Definition analyze_ai_saved (svc : services) (h : host)
    (message_of : interp_error -> string) (fuel : nat) (video_path : string)
    (tr : trace) : option (response * trace) :=
  match summarize_metadata svc h message_of video_path with
  | inl e => Some (error_response 500 (exn_msg e), tr)
  | inr metadata =>
      match check_video_synthid svc fuel video_path (JObj metadata) "" tr with
      | None => None
      | Some (synthid, tr') =>
          match ai_report metadata synthid with
          | inl e => Some (error_response 500 (exn_msg e), tr')
          | inr report => Some ({| status := 200; body := JObj report |}, tr')
          end
      end
  end.


(* ================================================================== *)
(** * The fact-checking endpoint, [analyze_factcheck], and its stages *)
(* ================================================================== *)

(** The TwelveLabs client.  Its calls leave no event of their own; what a
    call answers may depend on the events so far, the sleeps between two
    polls among them. *)
Record twelvelabs := {
  indexes_create : trace -> result string;                   (* idx.id *)
  assets_create : trace -> string -> result string;          (* asset.id *)
  assets_retrieve : trace -> string -> result string;        (* st.status *)
  indexed_assets_create : trace -> string -> string -> result string;
  indexed_assets_retrieve : trace -> string -> string -> result string;
  analyze : trace -> string -> string -> result (option string)  (* r.data *)
}.

Definition ASSET_POLL_SEC : Q := 3 # 2.
Definition INDEX_POLL_SEC : Q := 2.
Definition MAX_VIDEO_TEXT_CHARS : nat := 3200.

(** A call that leaves no event. *)
Definition ask {A} (answer : trace -> result A) : M A :=
  fun tr => (answer tr, tr).

(** A computation that may not end: [None] when it is still running after
    the polls it was given. *)
Definition P (A : Type) : Type := trace -> option (result A * trace).

Definition pbind {A B} (m : P A) (k : A -> P B) : P B :=
  fun tr => match m tr with
            | None => None
            | Some (inr a, tr') => k a tr'
            | Some (inl e, tr') => Some (inl e, tr')
            end.

Definition of_M {A} (m : M A) : P A := fun tr => Some (m tr).

Declare Scope P_scope.
Delimit Scope P_scope with P.
Notation "x <- m ;; k" := (pbind m (fun x => k))
  (at level 61, m at next level, right associativity) : P_scope.

(** Lines 257-265 and 273-281: poll until the status is ["ready"]; the
    status ["failed"] raises, any other status sleeps and polls again.
    [fuel] bounds the number of polls. *)
Fixpoint poll_until_ready (fuel : nat) (retrieve : trace -> result string)
    (failed_msg : string) (pause : Q) (tr : trace) : option (result unit * trace) :=
  match fuel with
  | O => None
  | S fuel' =>
      match retrieve tr with
      | inl e => Some (inl e, tr)
      | inr st =>
          if String.eqb st "ready" then Some (inr tt, tr)
          else if String.eqb st "failed"
               then Some (inl (Exn RuntimeError failed_msg), tr)
               else match sleep pause tr with
                    | (inr _, tr') =>
                        poll_until_ready fuel' retrieve failed_msg pause tr'
                    | (inl e, tr') => Some (inl e, tr')
                    end
      end
  end.

Section Pipeline.

Variable debug : option (string -> M unit).
Variable svc : services.
Variable tl : twelvelabs.

Definition create_index : M string := ask (indexes_create tl).

Definition upload_and_index (fuel : nat) (index_id video_path : string) : P string :=
  (asset_id <- of_M (with_retries debug
                       (ask (fun tr => assets_create tl tr video_path)) 4 (3 # 2)) ;;
   _ <- poll_until_ready fuel (fun tr => assets_retrieve tl tr asset_id)
                         "Asset processing failed" ASSET_POLL_SEC ;;
   indexed_id <- of_M (ask (fun tr => indexed_assets_create tl tr index_id asset_id)) ;;
   _ <- poll_until_ready fuel
          (fun tr => indexed_assets_retrieve tl tr index_id indexed_id)
          "Indexing failed" INDEX_POLL_SEC ;;
   of_M (ret indexed_id))%P.

Definition analyze_video (video_id prompt : string) : M string :=
  (r <- ask (fun tr => analyze tl tr video_id prompt) ;;
   ret (strip (text_or_empty r)))%M.

(** The prompts; the fixed instructions are abbreviated, the interpolated
    parts are kept. *)
Definition structure_prompt (video_text caption : string) : string :=
  "Return ONLY JSON. CAPTION: " ++ caption ++ " VIDEO_TEXT: " ++ video_text.

Definition splice_prompt : string :=
  "Return ONLY JSON: has_sudden_shifts, splice_risk_score, summary".

Definition timeline_prompt (structured : json) (posted_date : string) : string :=
  "Return ONLY JSON. posted_date: " ++ posted_date
  ++ " STRUCTURED: " ++ json_dumps svc structured.

Definition base_prompt : string :=
  "Return under EXACT headings: TRANSCRIPT: VISIBLE_TEXT: SCENE_SUMMARY:".

Definition gemini_structure (video_text caption : string) : M json :=
  gemini_json debug svc (structure_prompt video_text caption).

Definition gemini_timeline (structured : json) (posted_date : string) : M json :=
  gemini_json debug svc (timeline_prompt structured posted_date).

(** [try: return json.loads(raw)] with its bare [except]. *)
Definition gemini_splice (video_id : string) : M json :=
  (raw <- analyze_video video_id splice_prompt ;;
   match json_loads svc raw with
   | inr v => ret v
   | inl _ =>
       gemini_json debug svc
         ("Convert to JSON with keys has_sudden_shifts, splice_risk_score, summary:"
          ++ nl ++ nl ++ raw)
   end)%M.

(** [gemini_factcheck] on what [gemini_structure] returned: its
    [structured.get] needs a dict. *)
Definition gemini_factcheck_on (structured : json) : M dict :=
  match structured with
  | JObj d => gemini_factcheck debug svc d
  | _ => throw AttributeError "object has no attribute 'get'"
  end.

(** [compute_final] on what the stages returned: [splice] and [timing] are
    any JSON values, read with [.get] where [compute_final] reads them. *)
Definition compute_final_on (factcheck : dict) (splice timing : json)
    : result final_verdict :=
  (results <- py_iter (dict_get_default factcheck "results" (JArr [])) ;;
   false_or_mixed <- count_verdicts ["false"; "mixed"] results ;;
   unclear <- count_verdicts ["unclear"] results ;;
   _ <- average_confidence results ;;
   s <- obj_get_default splice "splice_risk_score" (JInt 0) ;;
   splice_score <- py_int (py_or s (JInt 0)) ;;
   t <- obj_get_default timing "timeline_mismatch_risk_score" (JInt 0) ;;
   time_score <- py_int (py_or t (JInt 0)) ;;
   risk <- risk_of splice_score time_score false_or_mixed unclear ;;
   let verdict := verdict_of false_or_mixed time_score risk in
   confidence <- confidence_of risk ;;
   year <- obj_get timing "likely_event_year" ;;
   posted <- obj_get timing "posted_date" ;;
   ok {| verdict := verdict;
         confidence_percent := confidence;
         misinformation_risk_score := risk;
         false_or_mixed_claims := false_or_mixed;
         unclear_claims := unclear;
         splice_risk_score := splice_score;
         timeline_mismatch_risk_score := time_score;
         likely_event_year := year;
         posted_date := posted |})%result.

(** The report of [analyze_factcheck], lines 705-725; [details] repeats
    [structured], [splice], [timing], [factcheck] and [final]. *)
Record factcheck_report := {
  fr_final : final_verdict;
  fr_one_line_label : string;
  fr_structured : json;
  fr_claims : json;
  fr_factcheck : dict;
  fr_splice : json;
  fr_timing : json;
  fr_signals : dict
}.

(** What the endpoint answers: the report with status 200, or an error. *)
Inductive factcheck_response :=
| Report (report : factcheck_report)
| Failed (code : Z) (msg : string).

(** Lines 663-725: the body of the [try]. *)
Definition analyze_factcheck_try (fuel : nat) (video_path caption posted_date : string)
    : P factcheck_report :=
  (idx_id <- of_M create_index ;;
   video_id <- upload_and_index fuel idx_id video_path ;;
   result_text <- of_M (analyze_video video_id base_prompt) ;;
   let video_text_trim := take MAX_VIDEO_TEXT_CHARS result_text in
   structured <- of_M (gemini_structure video_text_trim caption) ;;
   factcheck <- of_M (gemini_factcheck_on structured) ;;
   splice <- of_M (gemini_splice video_id) ;;
   timing <- of_M (gemini_timeline structured posted_date) ;;
   final <- of_M (lift (compute_final_on factcheck splice timing)) ;;
   claims <- of_M (lift (obj_get_default structured "claims" (JArr []))) ;;
   of_M (ret {| fr_final := final;
                fr_one_line_label :=
                  verdict final ++ " - " ++ str_of_int (confidence_percent final)
                  ++ "% Confidence";
                fr_structured := structured;
                fr_claims := JObj [("claims", claims)];
                fr_factcheck := factcheck;
                fr_splice := splice;
                fr_timing := timing;
                fr_signals :=
                  [("splice_risk_score", JInt (splice_risk_score final));
                   ("timeline_mismatch_risk_score",
                    JInt (timeline_mismatch_risk_score final))] |}))%P.

(** Lines 662-736 of [analyze_factcheck]: the [try] with its handler, for
    the uploaded file saved at [video_path]. *)
Definition analyze_factcheck_saved (fuel : nat) (video_path caption posted_date : string)
    (tr : trace) : option (factcheck_response * trace) :=
  match analyze_factcheck_try fuel video_path caption posted_date tr with
  | None => None
  | Some (inr report, tr') => Some (Report report, tr')
  | Some (inl e, tr') => Some (Failed 500 (exn_msg e), tr')
  end.

End Pipeline.


(** A TwelveLabs client whose calls all succeed, with the given statuses
    of the asset and of the indexed asset. *)
Definition steady_twelvelabs (asset_status index_status : trace -> string)
    (analysis : option string) : twelvelabs :=
  {| indexes_create := fun _ => ok "idx1";
     assets_create := fun _ _ => ok "asset1";
     assets_retrieve := fun tr _ => ok (asset_status tr);
     indexed_assets_create := fun _ _ _ => ok "vid1";
     indexed_assets_retrieve := fun tr _ _ => ok (index_status tr);
     analyze := fun _ _ _ => ok analysis |}.

(** A status that is ["ready"] once [k] sleeps have passed, and the given
    status before. *)
Definition ready_after (k : nat) (before : string) (tr : trace) : string :=
  if (List.length (sleeps_of tr) <? k)%nat then before else "ready".

(** Services for a run of the whole pipeline: the search finds nothing, the
    text model answers an empty object, and [json.loads] reads every text
    as the given object. *)
Definition pipeline_services (store : json) : services :=
  constant_services (ok no_results) (ok (Some "{}")) (fun _ => ok store).

Definition example_store : json :=
  JObj [("claims", JArr [JObj [("claim", JStr "The sky is green")]]);
        ("splice_risk_score", JInt 40)].


(** The keys of a claim verdict. *)
Definition VERDICT_KEYS : list string :=
  ["claim"; "claim_source"; "verdict"; "confidence"; "correct_information";
   "explanation"; "citations"].

(** A verdict that has every key of [VERDICT_KEYS]. *)
Definition verdict_complete (v : json) : bool :=
  match v with
  | JObj d => forallb (fun k => match dict_get d k with
                                | Some _ => true
                                | None => false
                                end) VERDICT_KEYS
  | _ => false
  end.

(** A detector whose upload stays in the state ["PROCESSING"]. *)
Definition processing_services : services :=
  {| tavily_search := fun _ _ => raise ServiceError "unavailable";
     gemini_generate := fun _ _ => raise ServiceError "unavailable";
     genai_upload_file := fun _ _ => ok "PROCESSING";
     genai_get_file := fun _ => ok "PROCESSING";
     video_generate := fun _ _ => raise ServiceError "unavailable";
     json_loads := fun _ => raise JSONDecodeError "Expecting value";
     json_dumps := fun _ => "" |}.

(* ================================================================== *)
(** * Properties *)
(* ================================================================== *)

Local Open Scope list_scope.

(** ** The standalone detector *)

Lemma existsb_id3 (a b c : bool) :
  existsb (fun x => x) [a; b; c] = true <-> a = true \/ b = true \/ c = true.
Proof.
  simpl. destruct a, b, c; simpl; intuition congruence.
Qed.

(** The metadata check is positive exactly for a truthy metadata object
    whose lowercased [str()] contains one of the three indicator words. *)
Lemma is_metadata_real_iff (m : pyobj) :
  is_metadata_real m = true <->
  py_bool m = true
  /\ (contains "device" (lower (py_str m)) = true
      \/ contains "camera" (lower (py_str m)) = true
      \/ contains "recording" (lower (py_str m)) = true).
Proof.
  unfold is_metadata_real. destruct (py_bool m); simpl negb; cbv iota.
  - rewrite existsb_id3. intuition.
  - split; [discriminate | intros [H _]; discriminate].
Qed.

(** C10: [detect_ai_video] answers [is_ai = False], with the reason
    "Metadata proves authenticity", exactly when the extracted metadata is
    non-empty (truthy) and its lowercased string form contains "device",
    "camera" or "recording"; in every other case, also when the extraction
    raised and [get_video_metadata] returned [None], it answers
    [is_ai = True] with the reason "Could not verify authenticity". *)
Theorem detect_ai_video_defaults_to_ai (probe : result pyobj) (client : result unit) :
  let m := get_video_metadata probe in
  let d := detect_ai_video probe client in
  (is_ai d = false <->
     py_bool m = true
     /\ (contains "device" (lower (py_str m)) = true
         \/ contains "camera" (lower (py_str m)) = true
         \/ contains "recording" (lower (py_str m)) = true))
  /\ (is_ai d = false -> reason d = "Metadata proves authenticity")
  /\ (is_ai d = true -> reason d = "Could not verify authenticity")
  /\ ((exists e, probe = inl e) ->
      is_ai d = true /\ reason d = "Could not verify authenticity")
  /\ metadata d = m.
Proof.
  intros m d. subst d. unfold detect_ai_video. fold m.
  pose proof (is_metadata_real_iff m) as Hreal.
  assert (Hfail : (exists e, probe = inl e) -> is_metadata_real m = false).
  { intros [e ->]. reflexivity. }
  destruct (is_metadata_real m) eqn:E; simpl.
  - split; [| split; [| split; [| split]]]; try reflexivity; try discriminate.
    + split; [intros _; apply Hreal; reflexivity | reflexivity].
    + intros H. apply Hfail in H. discriminate.
  - split; [| split; [| split; [| split]]]; try reflexivity; try discriminate.
    + split; [discriminate | intros H; apply Hreal in H; discriminate].
    + intros _. split; reflexivity.
Qed.

(** ** The AI-generation detector *)

Section SynthId.

Variable svc : services.

Lemma wait_unfold (fuel : nat) (state : string) (tr : trace) :
  wait_while_processing svc fuel state tr =
  if String.eqb state "PROCESSING" then
    match fuel with
    | O => None
    | S fuel' =>
        match poll_file svc tr with
        | (inr state', tr') => wait_while_processing svc fuel' state' tr'
        | (inl e, tr') => Some (inl e, tr')
        end
    end
  else Some (inr state, tr).
Proof. destruct fuel; reflexivity. Qed.

Lemma wait_not_processing (fuel : nat) (state : string) (tr : trace) :
  state <> "PROCESSING" ->
  wait_while_processing svc fuel state tr = Some (inr state, tr).
Proof.
  intros H. apply String.eqb_neq in H.
  rewrite wait_unfold, H. reflexivity.
Qed.

(** The polling loop only ends on a state other than ["PROCESSING"]. *)
Lemma wait_ends_not_processing (fuel : nat) :
  forall state tr state' tr',
    wait_while_processing svc fuel state tr = Some (inr state', tr') ->
    state' <> "PROCESSING".
Proof.
  induction fuel as [| fuel IH]; intros state tr state' tr';
    rewrite wait_unfold;
    destruct (String.eqb state "PROCESSING") eqn:E;
    try discriminate;
    try (intros H; inversion H; subst; apply String.eqb_neq; exact E).
  destruct (poll_file svc tr) as [[e | st] tr1]; [discriminate | apply IH].
Qed.

(** More fuel does not change the outcome of a loop that has ended. *)
Lemma wait_fuel_mono (fuel : nat) :
  forall state tr r,
    wait_while_processing svc fuel state tr = Some r ->
    wait_while_processing svc (S fuel) state tr = Some r.
Proof.
  induction fuel as [| fuel IH]; intros state tr r.
  - rewrite (wait_unfold 1), (wait_unfold 0).
    destruct (String.eqb state "PROCESSING"); [discriminate | tauto].
  - rewrite (wait_unfold (S (S fuel))), (wait_unfold (S fuel)).
    destruct (String.eqb state "PROCESSING"); [| tauto].
    destruct (poll_file svc tr) as [[e | st] tr1]; [tauto | apply IH].
Qed.

Lemma neutral_fields (note : string) :
  exists d, neutral note = JObj d
            /\ dict_get d "is_ai" = Some (JBool false)
            /\ dict_get d "trust_score" = Some (JInt 50)
            /\ dict_get d "confidence" = Some (JInt 50)
            /\ dict_get d "note" = Some (JStr note).
Proof.
  eexists. split; [reflexivity |]. repeat split.
Qed.

(** C9: [check_video_synthid] never raises (its result type holds no
    exception), and every failure of its run ends in the neutral result
    [{"is_ai": False, "trust_score": 50, "confidence": 50, "note": ...}],
    written out below as [fallback note]: a
    failing upload, a failing poll, an upload that reaches the state
    ["FAILED"], a failing model call, a response without a [{...}] span,
    and a span that [json.loads] rejects.  Whatever it returns is either
    that neutral result or the parsed response of the model. *)
Theorem check_video_synthid_neutral_on_failure
    (video_path : string) (video_metadata : json) (analysis : string) :
  let run := fun fuel tr =>
    check_video_synthid svc fuel video_path video_metadata analysis tr in
  let uploaded := fun tr : trace => (tr ++ [Uploaded video_path])%list in
  let prompt := synthid_prompt svc video_metadata analysis in
  let asked := fun tr : trace => (tr ++ [VideoGenerated prompt])%list in
  let fallback := fun note : string =>
    JObj [("is_ai", JBool false); ("trust_score", JInt 50);
          ("confidence", JInt 50); ("note", JStr note)] in
  (forall fuel tr e,
      genai_upload_file svc tr video_path = inl e ->
      run fuel tr = Some (fallback ("Error: " ++ exn_msg e)%string, uploaded tr))
  /\ (forall fuel tr state e tr',
      genai_upload_file svc tr video_path = inr state ->
      wait_while_processing svc fuel state (uploaded tr) = Some (inl e, tr') ->
      run fuel tr = Some (fallback ("Error: " ++ exn_msg e)%string, tr'))
  /\ (forall fuel tr state tr',
      genai_upload_file svc tr video_path = inr state ->
      wait_while_processing svc fuel state (uploaded tr) = Some (inr "FAILED", tr') ->
      run fuel tr = Some (fallback "Error: Video upload failed: FAILED", tr'))
  /\ (forall fuel tr state state' tr' e,
      genai_upload_file svc tr video_path = inr state ->
      wait_while_processing svc fuel state (uploaded tr) = Some (inr state', tr') ->
      state' <> "FAILED" ->
      video_generate svc tr' prompt = inl e ->
      run fuel tr = Some (fallback ("Error: " ++ exn_msg e)%string, asked tr'))
  /\ (forall fuel tr state state' tr' response,
      genai_upload_file svc tr video_path = inr state ->
      wait_while_processing svc fuel state (uploaded tr) = Some (inr state', tr') ->
      state' <> "FAILED" ->
      video_generate svc tr' prompt = inr response ->
      json_span (unfence (strip (text_or_empty response))) = None ->
      run fuel tr = Some (fallback "Unable to parse response", asked tr'))
  /\ (forall fuel tr state state' tr' response raw_json e,
      genai_upload_file svc tr video_path = inr state ->
      wait_while_processing svc fuel state (uploaded tr) = Some (inr state', tr') ->
      state' <> "FAILED" ->
      video_generate svc tr' prompt = inr response ->
      json_span (unfence (strip (text_or_empty response))) = Some raw_json ->
      json_loads svc raw_json = inl e ->
      run fuel tr = Some (fallback ("Error: " ++ exn_msg e)%string, asked tr'))
  /\ (forall fuel tr r tr',
      run fuel tr = Some (r, tr') ->
      (exists note, r = fallback note)
      \/ (exists state0 state tr1 response raw_json,
            genai_upload_file svc tr video_path = inr state0
            /\ wait_while_processing svc fuel state0 (uploaded tr) = Some (inr state, tr1)
            /\ state <> "FAILED"
            /\ video_generate svc tr1 prompt = inr response
            /\ json_span (unfence (strip (text_or_empty response))) = Some raw_json
            /\ json_loads svc raw_json = inr r)).
Proof.
  intros run uploaded prompt asked fallback. subst run uploaded asked fallback.
  unfold check_video_synthid, synthid_try, call.
  repeat match goal with |- _ /\ _ => split end.
  - intros fuel tr e Hup. rewrite Hup. reflexivity.
  - intros fuel tr state e tr' Hup Hwait. rewrite Hup, Hwait. reflexivity.
  - intros fuel tr state tr' Hup Hwait. rewrite Hup, Hwait. reflexivity.
  - intros fuel tr state state' tr' e Hup Hwait Hst Hgen.
    rewrite Hup, Hwait. unfold synthid_after_upload.
    apply String.eqb_neq in Hst. rewrite Hst.
    unfold bind, call. fold prompt. rewrite Hgen. reflexivity.
  - intros fuel tr state state' tr' response Hup Hwait Hst Hgen Hspan.
    rewrite Hup, Hwait. unfold synthid_after_upload.
    apply String.eqb_neq in Hst. rewrite Hst.
    unfold bind, call. fold prompt. rewrite Hgen, Hspan. reflexivity.
  - intros fuel tr state state' tr' response raw e Hup Hwait Hst Hgen Hspan Hload.
    rewrite Hup, Hwait. unfold synthid_after_upload.
    apply String.eqb_neq in Hst. rewrite Hst.
    unfold bind, call. fold prompt. rewrite Hgen, Hspan.
    unfold lift. rewrite Hload. reflexivity.
  - intros fuel tr r tr'.
    destruct (genai_upload_file svc tr video_path) as [e | state] eqn:Hup.
    { intros H. inversion H. left. eexists. reflexivity. }
    destruct (wait_while_processing svc fuel state (tr ++ [Uploaded video_path])%list)
      as [[[e | state'] tr1] |] eqn:Hwait; [| | discriminate].
    { intros H. inversion H. left. eexists. reflexivity. }
    unfold synthid_after_upload.
    destruct (String.eqb state' "FAILED") eqn:Hst.
    { intros H. inversion H. left. eexists. reflexivity. }
    unfold bind, call. fold prompt.
    destruct (video_generate svc tr1 prompt) as [e | response] eqn:Hgen.
    { intros H. inversion H. left. eexists. reflexivity. }
    destruct (json_span (unfence (strip (text_or_empty response))))
      as [raw |] eqn:Hspan.
    2: { intros H. inversion H. left. eexists. reflexivity. }
    unfold lift.
    destruct (json_loads svc raw) as [e | v] eqn:Hload.
    { intros H. inversion H. left. eexists. reflexivity. }
    intros H. inversion H; subst. right.
    exists state, state', tr1, response, raw.
    repeat split; try assumption.
    apply String.eqb_neq. exact Hst.
Qed.

End SynthId.

(** ** The retry helper *)

Section Retries.

Context {A : Type}.

Lemma retry_loop_returns (debug : option (string -> M unit)) (fn : M A)
    (base_sleep : Q) (attempt remaining : nat) (last_err : option exn)
    (tr tr' : trace) (v : A) :
  fn tr = (inr v, tr') ->
  retry_loop debug fn base_sleep attempt (S remaining) last_err tr = (inr v, tr').
Proof. intros H. simpl. rewrite H. reflexivity. Qed.

(** A [TypeError] is raised again at once: one call, no sleep, no retry. *)
Lemma with_retries_reraises_TypeError (debug : option (string -> M unit))
    (fn : M A) (retries : nat) (base_sleep : Q) (tr tr' : trace) (e : exn) :
  fn tr = (inl e, tr') ->
  exn_class_of e = TypeError ->
  with_retries debug fn (S retries) base_sleep tr = (inl e, tr').
Proof.
  intros H Hc. unfold with_retries. simpl. rewrite H, Hc. reflexivity.
Qed.

(** With no iteration to run, the helper raises its [RuntimeError]. *)
Lemma with_retries_zero (debug : option (string -> M unit)) (fn : M A)
    (base_sleep : Q) (tr : trace) :
  with_retries debug fn 0 base_sleep tr
  = (inl (Exn RuntimeError "Failed after retries: None"), tr).
Proof. reflexivity. Qed.

(** C6, the code as written: the first failure that is not a [TypeError]
    enters the handler, whose call of the unbound name [debug] raises
    [NameError] before [time.sleep] is reached.  The helper has called [fn]
    once, has not slept and does not retry. *)
Theorem with_retries_unbound_debug (fn : M A) (retries : nat) (base_sleep : Q)
    (tr tr' : trace) (e : exn) :
  fn tr = (inl e, tr') ->
  exn_class_of e <> TypeError ->
  with_retries backend_debug fn (S retries) base_sleep tr
  = (inl (Exn NameError "name 'debug' is not defined"), tr').
Proof.
  intros H Hc. unfold with_retries. simpl. rewrite H.
  destruct (exn_class_of e); try reflexivity. contradiction Hc. reflexivity.
Qed.

End Retries.

Lemma count_searches_app (tr1 tr2 : trace) :
  count_searches (tr1 ++ tr2) = (count_searches tr1 + count_searches tr2)%nat.
Proof.
  unfold count_searches. rewrite filter_app, length_app. reflexivity.
Qed.

Lemma backoff_nonneg (base_sleep : Q) (attempt : nat) :
  (0 <= base_sleep)%Q -> (0 <= backoff base_sleep attempt)%Q.
Proof.
  intros H. unfold backoff. apply Qmult_le_0_compat; [exact H |].
  unfold Qle. simpl. rewrite Z.mul_1_r.
  apply Z.pow_nonneg. lia.
Qed.

(** The backoff doubles from one attempt to the next. *)
Lemma backoff_doubles (base_sleep : Q) (attempt : nat) :
  (1 <= attempt)%nat ->
  (backoff base_sleep (S attempt) == 2 * backoff base_sleep attempt)%Q.
Proof.
  intros H. unfold backoff.
  replace (Z.of_nat (S attempt - 1)) with (Z.succ (Z.of_nat (attempt - 1))) by lia.
  rewrite Z.pow_succ_r by lia.
  rewrite inject_Z_mult. ring.
Qed.

Lemma backoff_increasing (base_sleep : Q) (attempt : nat) :
  (0 < base_sleep)%Q -> (1 <= attempt)%nat ->
  (backoff base_sleep attempt < backoff base_sleep (S attempt))%Q.
Proof.
  intros Hb Ha. rewrite backoff_doubles by exact Ha.
  assert (Hpos : (0 < backoff base_sleep attempt)%Q).
  { unfold backoff. apply Qmult_lt_0_compat; [exact Hb |].
    unfold Qlt. simpl. rewrite Z.mul_1_r. apply Z.pow_pos_nonneg; lia. }
  setoid_replace (backoff base_sleep attempt)
    with (1 * backoff base_sleep attempt)%Q at 1 by ring.
  apply Qmult_lt_compat_r; [exact Hpos | reflexivity].
Qed.

Section RetriesWithLogger.

Context {A : Type}.
Variables (query : string) (k : nat) (err : exn) (v : A) (base_sleep : Q).
Hypothesis err_retriable : exn_class_of err <> TypeError.
Hypothesis base_nonneg : (0 <= base_sleep)%Q.

Lemma err_not_TypeError : exn_class_eqb (exn_class_of err) TypeError = false.
Proof. destruct (exn_class_of err); try reflexivity. contradiction err_retriable. reflexivity. Qed.

Lemma sleep_backoff (attempt : nat) (tr : trace) :
  sleep (backoff base_sleep attempt) tr
  = (inr tt, tr ++ [Slept (backoff base_sleep attempt)]).
Proof.
  unfold sleep. destruct (Qlt_le_dec (backoff base_sleep attempt) 0) as [Hlt | Hle].
  - exfalso. apply (Qlt_not_le _ _ Hlt). apply backoff_nonneg. exact base_nonneg.
  - reflexivity.
Qed.

(** One failed attempt of the flaky function under a logger that returns:
    the search, then the sleep, then the next attempt. *)
Lemma retry_loop_flaky_step (attempt remaining : nat) (last_err : option exn)
    (tr : trace) :
  (count_searches tr < k)%nat ->
  retry_loop silent_debug (flaky query k err v) base_sleep attempt (S remaining)
             last_err tr
  = retry_loop silent_debug (flaky query k err v) base_sleep (S attempt) remaining
               (Some err)
               (tr ++ [Searched query; Slept (backoff base_sleep attempt)]).
Proof.
  intros Hc. simpl. unfold flaky at 1, call.
  apply Nat.ltb_lt in Hc. rewrite Hc, err_not_TypeError.
  unfold bind, call_global, silent_debug, ret.
  rewrite sleep_backoff. rewrite <- app_assoc. reflexivity.
Qed.

Lemma count_searches_step (attempt : nat) (tr : trace) :
  count_searches (tr ++ [Searched query; Slept (backoff base_sleep attempt)])
  = S (count_searches tr).
Proof.
  rewrite count_searches_app.
  change (count_searches [Searched query; Slept (backoff base_sleep attempt)])
    with 1%nat.
  lia.
Qed.

(** With [m] failures still to come and more than [m] iterations left, the
    loop returns [v] after [m] sleeps. *)
Lemma retry_loop_flaky_returns (m : nat) :
  forall attempt remaining last_err tr,
    (count_searches tr + m = k)%nat ->
    (m < remaining)%nat ->
    retry_loop silent_debug (flaky query k err v) base_sleep attempt remaining
               last_err tr
    = (inr v, tr ++ retry_events query base_sleep attempt m).
Proof.
  induction m as [| m IH]; intros attempt remaining last_err tr Hc Hm.
  - destruct remaining as [| remaining]; [lia |].
    simpl. unfold flaky, call.
    replace (count_searches tr <? k)%nat with false
      by (symmetry; apply Nat.ltb_ge; lia).
    reflexivity.
  - destruct remaining as [| remaining]; [lia |].
    rewrite retry_loop_flaky_step by lia.
    rewrite IH; [| rewrite count_searches_step; lia | lia].
    unfold retry_events. simpl. rewrite <- !app_assoc. reflexivity.
Qed.

(** With at least as many failures to come as iterations left, the loop
    ends in the [RuntimeError] that quotes the last failure. *)
Lemma retry_loop_flaky_exhausts (remaining : nat) :
  forall attempt last_err tr,
    (count_searches tr + remaining <= k)%nat ->
    retry_loop silent_debug (flaky query k err v) base_sleep attempt remaining
               last_err tr
    = (inl (Exn RuntimeError
              ("Failed after retries: "
               ++ str_of_last_err (match remaining with O => last_err | S _ => Some err end))),
       tr ++ flat_map (fun i => [Searched query; Slept (backoff base_sleep i)])
                      (seq attempt remaining)).
Proof.
  induction remaining as [| remaining IH]; intros attempt last_err tr Hc.
  - simpl. rewrite app_nil_r. reflexivity.
  - rewrite retry_loop_flaky_step by lia.
    rewrite IH by (rewrite count_searches_step; lia).
    simpl. rewrite <- !app_assoc. simpl.
    destruct remaining; reflexivity.
Qed.

Lemma sleeps_of_app (tr1 tr2 : trace) :
  sleeps_of (tr1 ++ tr2) = (sleeps_of tr1 ++ sleeps_of tr2)%list.
Proof.
  induction tr1 as [| e tr1 IH]; [reflexivity |].
  destruct e; simpl; rewrite IH; reflexivity.
Qed.

Lemma sleeps_of_retry_events (m : nat) :
  forall attempt,
    sleeps_of (retry_events query base_sleep attempt m)
    = map (backoff base_sleep) (seq attempt m).
Proof.
  unfold retry_events.
  induction m as [| m IH]; intros attempt; [reflexivity |].
  simpl. f_equal. apply IH.
Qed.

(** What the helper does once [debug] is bound to a logger that returns:
    a function that fails [k] times, [k] below the ceiling, and then
    succeeds yields its value after exactly [k] sleeps of
    [base_sleep * 2^(attempt-1)]; at the ceiling the helper raises
    [RuntimeError]. *)
Lemma with_retries_with_logger (retries : nat) (tr : trace) :
  count_searches tr = O ->
  ((k < retries)%nat ->
     with_retries silent_debug (flaky query k err v) retries base_sleep tr
     = (inr v, tr ++ retry_events query base_sleep 1 k)
     /\ sleeps_of (retry_events query base_sleep 1 k)
        = map (backoff base_sleep) (seq 1 k))
  /\ ((1 <= retries <= k)%nat ->
     with_retries silent_debug (flaky query k err v) retries base_sleep tr
     = (inl (Exn RuntimeError ("Failed after retries: " ++ exn_msg err)),
        tr ++ flat_map (fun i => [Searched query; Slept (backoff base_sleep i)])
                       (seq 1 retries))).
Proof.
  intros H0. split.
  - intros Hk. split.
    + unfold with_retries. apply retry_loop_flaky_returns; lia.
    + apply sleeps_of_retry_events.
  - intros [H1 Hk]. unfold with_retries.
    rewrite retry_loop_flaky_exhausts by lia.
    destruct retries; [lia | reflexivity].
Qed.

End RetriesWithLogger.

(** ** Final scoring *)

Lemma in_zrange (n : nat) (z : Z) : 0 <= z < Z.of_nat n -> In z (zrange n).
Proof.
  intros H. unfold zrange. apply in_map_iff.
  exists (Z.to_nat z). split; [lia |]. apply in_seq. lia.
Qed.

Lemma in_score_pairs (s t : Z) :
  0 <= s <= 100 -> 0 <= t <= 100 -> In (s, t) score_pairs.
Proof.
  intros Hs Ht. unfold score_pairs. apply in_flat_map.
  exists s. split; [apply in_zrange; lia |].
  apply in_map_iff. exists t. split; [reflexivity | apply in_zrange; lia].
Qed.

Lemma in_count_pairs (f u : Z) :
  0 <= f -> 0 <= u -> f + u <= Z.of_nat COUNT_RANGE -> In (f, u) count_pairs.
Proof.
  intros Hf Hu Hfu. unfold count_pairs. apply in_flat_map.
  exists f. split; [apply in_zrange; lia |].
  apply in_map_iff. exists u. split; [reflexivity | apply in_zrange; lia].
Qed.

Lemma heads_ok : forallb head_ok score_pairs = true.
Proof. vm_cast_no_check (@eq_refl bool true). Qed.

Lemma tails_ok : forallb tail_entry_ok head_table = true.
Proof. vm_cast_no_check (@eq_refl bool true). Qed.

Lemma confidences_ok : forallb confidence_ok (zrange 101) = true.
Proof. vm_cast_no_check (@eq_refl bool true). Qed.

Lemma splice_only_all_ok : forallb splice_only_ok (zrange 101) = true.
Proof. vm_cast_no_check (@eq_refl bool true). Qed.

Lemma round_half_even_integer (n : Z) : round_half_even (inject_Z n) = n.
Proof.
  unfold round_half_even, inject_Z. cbn [Qnum Qden].
  rewrite Z.mod_1_r, Z.div_1_r. reflexivity.
Qed.

Lemma round_half_even_scaled_exact (m e : Z) :
  round_half_even_scaled m e
  = round_half_even match e with
                    | Zneg p => m # (2 ^ p)
                    | _ => inject_Z (m * 2 ^ e)
                    end.
Proof.
  destruct e as [| p | p].
  - rewrite round_half_even_integer. cbn. lia.
  - rewrite round_half_even_integer. unfold round_half_even_scaled.
    rewrite Z.shiftl_mul_pow2 by lia. reflexivity.
  - unfold round_half_even_scaled, round_half_even. cbn [Qnum Qden].
    rewrite Pos2Z.inj_pow.
    assert (Hpos : 0 < 2 ^ Z.pos p) by (apply Z.pow_pos_nonneg; lia).
    rewrite Z.shiftr_div_pow2 by lia.
    rewrite !Z.shiftl_mul_pow2 by lia.
    rewrite Z.mul_1_l.
    replace (m - m / 2 ^ Z.pos p * 2 ^ Z.pos p) with (m mod 2 ^ Z.pos p)
      by (rewrite Z.mod_eq by lia; lia).
    reflexivity.
Qed.

(** Round-half-even is odd: the ties of negative numbers go to even too. *)
Lemma round_half_even_opp (q : Q) :
  round_half_even (- q) = - round_half_even q.
Proof.
  destruct q as [N d]. unfold round_half_even, Qopp. cbn [Qnum Qden].
  pose proof (Pos2Z.is_pos d) as Hd.
  pose proof (Z.div_mod N (Z.pos d) ltac:(lia)) as Hdm.
  pose proof (Z.mod_pos_bound N (Z.pos d) ltac:(lia)) as Hb.
  pose proof (Z.div_mod (- N) (Z.pos d) ltac:(lia)) as Hdm'.
  pose proof (Z.mod_pos_bound (- N) (Z.pos d) ltac:(lia)) as Hb'.
  set (k := N / Z.pos d) in *. set (r := N mod Z.pos d) in *.
  set (k' := - N / Z.pos d) in *. set (r' := - N mod Z.pos d) in *.
  assert (Hsum : Z.pos d * (k + k') + (r + r') = 0) by lia.
  assert (Hk : k + k' = 0 \/ k + k' = -1) by nia.
  assert (Hcases : (r = 0 /\ r' = 0 /\ k' = - k)
                   \/ (0 < r /\ r' = Z.pos d - r /\ k' = - k - 1)).
  { destruct Hk as [Hk | Hk]; rewrite Hk in Hsum; [left | right]; lia. }
  destruct Hcases as [[Hr [Hr' Hk']] | [Hr [Hr' Hk']]].
  - rewrite Hr, Hr', Hk'.
    replace (2 * 0 ?= Z.pos d) with Lt by (symmetry; apply Z.compare_lt_iff; lia).
    reflexivity.
  - destruct (Z.compare_spec (2 * r) (Z.pos d)) as [E | E | E];
      destruct (Z.compare_spec (2 * r') (Z.pos d)) as [E' | E' | E'];
      try lia.
    rewrite Hk'. replace (- k - 1) with (- (k + 1)) by lia.
    rewrite Z.even_opp, Z.even_add. cbn [Z.even].
    destruct (Z.even k); cbn; lia.
Qed.

(** [round] of a float is round-half-even of its exact value. *)
Lemma py_round_exact (x : float) (n : Z) :
  py_round x = inr n -> n = round_half_even (float_value x).
Proof.
  unfold py_round, float_value, raise, ok.
  destruct (is_nan x); [discriminate |].
  destruct (is_infinity x); [discriminate |].
  destruct (float_decompose x) as [m e].
  intros H. inversion H as [Hn]. clear H Hn.
  rewrite round_half_even_scaled_exact.
  destruct (get_sign x); [rewrite round_half_even_opp |]; reflexivity.
Qed.

Lemma risk_round_split (s t f u : Z) :
  risk_round s t f u = (r2 <- risk_head s t ;; risk_tail r2 f u)%result.
Proof.
  unfold risk_round, risk_sum, risk_head, risk_tail, rbind.
  destruct (int_mul_float s 0.25); [reflexivity |].
  destruct (float_of_int 0); [reflexivity |].
  destruct (int_mul_float t 0.35); [reflexivity |].
  unfold ok.
  destruct (float_add_int _ (f * 14)); [reflexivity |].
  destruct (float_add_int _ (u * 5)); reflexivity.
Qed.

(** Every pair of scores in range reaches a float of the table. *)
Lemma head_in_table (s t : Z) :
  0 <= s <= 100 -> 0 <= t <= 100 ->
  exists x, risk_head s t = inr x /\ In (x, 5 * s + 7 * t) head_table.
Proof.
  intros Hs Ht.
  pose proof (proj1 (forallb_forall head_ok score_pairs) heads_ok
                    (s, t) (in_score_pairs Hs Ht)) as Hh.
  unfold head_ok, head_entry in Hh. cbn [fst snd] in Hh.
  destruct (risk_head s t) as [err | x]; [discriminate |].
  apply existsb_exists in Hh. destruct Hh as [[x' X'] [Hin Hsame]].
  unfold same_entry in Hsame. cbn [fst snd] in Hsame.
  apply andb_true_iff in Hsame. destruct Hsame as [Hfl Hx].
  apply FloatAxioms.Leibniz.eqb_spec in Hfl. apply Z.eqb_eq in Hx.
  exists x. split; [reflexivity |]. rewrite Hfl, Hx. exact Hin.
Qed.

(** From a float of the table, the rounded sum is an integer nearest to
    the exact value. *)
Lemma tail_nearest (x : float) (X f u : Z) :
  In (x, X) head_table ->
  0 <= f -> 0 <= u -> f + u <= Z.of_nat COUNT_RANGE ->
  exists n, risk_tail x f u = inr n
            /\ Z.abs (20 * n - (X + 280 * f + 100 * u)) <= 10.
Proof.
  intros Hin Hf Hu Hfu.
  pose proof (proj1 (forallb_forall tail_entry_ok head_table) tails_ok
                    (x, X) Hin) as Ht.
  pose proof (proj1 (forallb_forall (tail_ok (x, X)) count_pairs) Ht
                    (f, u) (in_count_pairs Hf Hu Hfu)) as Hok.
  unfold tail_ok in Hok. cbn [fst snd] in Hok.
  destruct (risk_tail x f u) as [err | n]; [discriminate |].
  exists n. split; [reflexivity |].
  apply Z.leb_le in Hok. exact Hok.
Qed.

(** On the score range, and for up to twenty counted verdicts, the sum is
    computed without error and rounds to an integer nearest to the exact
    value. *)
Lemma risk_round_nearest (s t f u : Z) :
  0 <= s <= 100 -> 0 <= t <= 100 -> 0 <= f -> 0 <= u ->
  f + u <= Z.of_nat COUNT_RANGE ->
  exists n, risk_round s t f u = inr n
            /\ Z.abs (20 * n - exact20 s t f u) <= 10.
Proof.
  intros Hs Ht Hf Hu Hfu.
  destruct (head_in_table Hs Ht) as [x [Hhead Hin]].
  destruct (tail_nearest Hin Hf Hu Hfu) as [n [Htail Hn]].
  exists n. rewrite risk_round_split, Hhead. split; [exact Htail |].
  unfold exact20. exact Hn.
Qed.

(** Without a timeline score the rounding is the round-half-even of the
    exact value: [0.25 * 2 = 0.5] rounds to [0], [0.25 * 6 = 1.5] to [2]. *)
Lemma risk_round_splice_only (s f u : Z) :
  0 <= s <= 100 -> 0 <= f -> 0 <= u -> f + u <= Z.of_nat COUNT_RANGE ->
  risk_round s 0 f u = inr (round_half_even (risk_exact s 0 f u)).
Proof.
  intros Hs Hf Hu Hfu.
  pose proof (proj1 (forallb_forall splice_only_ok (zrange 101)) splice_only_all_ok
                    s (@in_zrange 101 s ltac:(lia))) as H.
  pose proof (proj1 (forallb_forall _ count_pairs) H
                    (f, u) (in_count_pairs Hf Hu Hfu)) as Hok.
  cbn [fst snd] in Hok.
  destruct (risk_round s 0 f u) as [err | n]; [discriminate |].
  apply Z.eqb_eq in Hok. rewrite Hok. reflexivity.
Qed.

(** The integer test of nearness is the rational one. *)
Lemma is_round_exact20 (n s t f u : Z) :
  Z.abs (20 * n - exact20 s t f u) <= 10 ->
  is_round n (risk_exact s t f u).
Proof.
  intros H. unfold is_round. apply Qabs_Qle_condition.
  unfold exact20 in H. unfold risk_exact, Qle, Qminus, Qplus, Qmult, Qopp, inject_Z.
  cbn -[Z.mul Z.add Z.opp]. split; lia.
Qed.

Lemma is_round_confidence (risk : Z) :
  is_round (round_half_even (confidence_exact risk)) (confidence_exact risk).
Proof.
  unfold is_round. apply Qabs_Qle_condition.
  unfold round_half_even, confidence_exact, Qle, Qminus, Qplus, Qmult, Qopp, inject_Z.
  cbn -[Z.mul Z.add Z.opp Z.div Z.modulo Z.compare Z.even].
  set (N := (90 * 10 + - (6 * risk) * 1)).
  pose proof (Z.div_mod N 10 ltac:(lia)) as Hdm.
  pose proof (Z.mod_pos_bound N 10 ltac:(lia)) as Hb.
  destruct (2 * (N mod 10) ?= 10) eqn:E.
  - apply Z.compare_eq in E. destruct (Z.even (N / 10)); split; lia.
  - change (2 * (N mod 10) < 10) in E. split; lia.
  - change (2 * (N mod 10) > 10) in E. split; lia.
Qed.

(** Away from a tie, the nearest integer is the round-half-even one. *)
Lemma is_round_off_tie (n s t f u : Z) :
  is_round n (risk_exact s t f u) ->
  ~ is_tie (risk_exact s t f u) ->
  n = round_half_even (risk_exact s t f u).
Proof.
  unfold is_round, is_tie. intros H Htie.
  apply Qabs_Qle_condition in H.
  unfold round_half_even.
  set (N := Qnum (risk_exact s t f u)) in *.
  assert (Hden : Z.pos (Qden (risk_exact s t f u)) = 10000) by reflexivity.
  rewrite Hden.
  assert (HN : -10000 <= (n * 10000 - N) * 2 <= 10000).
  { unfold Qle, Qminus, Qplus, Qopp, inject_Z in H.
    cbn -[Z.mul Z.add Z.opp risk_exact] in H. fold N in H. rewrite Hden in H.
    lia. }
  pose proof (Z.div_mod N 10000 ltac:(lia)) as Hdm.
  pose proof (Z.mod_pos_bound N 10000 ltac:(lia)) as Hb.
  destruct (2 * (N mod 10000) ?= 10000) eqn:E.
  - exfalso. apply Htie. exists (N / 10000).
    apply Z.compare_eq in E.
    unfold Qeq, Qplus, inject_Z. cbn -[Z.mul Z.add Z.div risk_exact].
    fold N. rewrite Hden. lia.
  - change (2 * (N mod 10000) < 10000) in E. lia.
  - change (2 * (N mod 10000) > 10000) in E. lia.
Qed.

Lemma count_where_cons (p : json -> bool) (r : json) (rest : list json) :
  count_where p (r :: rest)
  = if p r then 1 + count_where p rest else count_where p rest.
Proof.
  unfold count_where. cbn [filter]. destruct (p r); [| reflexivity].
  cbn [List.length]. lia.
Qed.

Lemma count_where_nonneg (p : json -> bool) (results : list json) :
  0 <= count_where p results.
Proof. unfold count_where. lia. Qed.

(** When the counting loop returns, it has counted the matching verdicts. *)
Lemma count_verdicts_counts (lits : list string) (results : list json) :
  forall n, count_verdicts lits results = inr n ->
            n = count_where (verdict_in lits) results.
Proof.
  induction results as [| r rest IH]; intros n H.
  - inversion H. reflexivity.
  - cbn [count_verdicts] in H. rewrite count_where_cons.
    destruct r as [| b | z | str | l | fields]; try discriminate.
    cbn [obj_get rbind ok] in H. unfold rbind in H.
    destruct (count_verdicts lits rest) as [e | m]; [discriminate |].
    specialize (IH m eq_refl). subst m.
    cbn [verdict_in]. inversion H. reflexivity.
Qed.

Lemma count_verdicts_wf (lits : list string) (results : list json) :
  forallb wf_result results = true ->
  count_verdicts lits results = inr (count_where (verdict_in lits) results).
Proof.
  induction results as [| r rest IH]; intros H; [reflexivity |].
  cbn [forallb] in H. apply andb_true_iff in H. destruct H as [Hr Hrest].
  cbn [count_verdicts]. rewrite count_where_cons.
  destruct r as [| b | z | str | l | fields]; try discriminate.
  cbn [obj_get]. unfold rbind, ok. rewrite (IH Hrest). reflexivity.
Qed.

Lemma sum_confidence_total (results : list json) :
  forallb wf_result results = true ->
  forall acc, sum_confidence acc results = inr (acc + confidence_total results).
Proof.
  induction results as [| r rest IH]; intros H acc.
  - cbn. unfold ok. f_equal. lia.
  - cbn [forallb] in H. apply andb_true_iff in H. destruct H as [Hr Hrest].
    cbn [sum_confidence confidence_total fold_right].
    fold (confidence_total rest).
    destruct r as [| b | z | str | l | fields]; try discriminate.
    cbn [obj_get wf_result confidence_value] in *. unfold rbind, ok.
    destruct (dict_get fields "confidence") as [[| b | z | str | l | fs] |];
      try discriminate; cbn [py_number]; unfold ok; rewrite (IH Hrest);
      try destruct b; f_equal; lia.
Qed.

Lemma sum_confidence_wf (results : list json) :
  forallb wf_result results = true ->
  forall acc, exists n, sum_confidence acc results = inr n.
Proof.
  intros H acc. eexists. apply (sum_confidence_total _ H).
Qed.

Lemma int_true_div_small (a : Z) (b : positive) :
  Z.abs a < 9007199254740992 -> Z.pos b < 9007199254740992 ->
  int_true_div a b = inr (exact_float a / exact_float (Z.pos b))%float.
Proof.
  intros Ha Hb. unfold int_true_div.
  apply Z.ltb_lt in Ha. apply Z.ltb_lt in Hb. rewrite Ha, Hb. reflexivity.
Qed.

(** The average of line 515 is defined when the sum and the length are
    below [2^53]. *)
Lemma average_confidence_wf (results : list json) :
  forallb wf_result results = true ->
  average_in_range results = true ->
  exists avg, average_confidence results = inr avg.
Proof.
  intros Hwf Hsmall. unfold average_confidence.
  rewrite (sum_confidence_total _ Hwf 0). cbn [rbind].
  unfold average_in_range in Hsmall. apply andb_true_iff in Hsmall.
  destruct Hsmall as [Hsum Hlen].
  apply Z.ltb_lt in Hsum. apply Z.ltb_lt in Hlen.
  eexists. apply int_true_div_small.
  - rewrite Z.add_0_l. exact Hsum.
  - rewrite Z2Pos.id by lia. lia.
Qed.

Lemma score_field_int_field (d : dict) (k : string) (n : Z) :
  int_field d k = Some n -> score_field d k = inr n.
Proof.
  unfold int_field, score_field, dict_get_default.
  destruct (dict_get d k) as [[| b | z | str | l | fs] |]; try discriminate;
    intros H; inversion H; subst; try reflexivity.
  unfold py_or. cbn [truthy].
  destruct (Z.eqb_spec n 0) as [-> | Hn]; reflexivity.
Qed.

Lemma py_iter_results_list (factcheck : dict) (results : list json) :
  results_list factcheck = Some results ->
  py_iter (dict_get_default factcheck "results" (JArr [])) = inr results.
Proof.
  unfold results_list, dict_get_default.
  destruct (dict_get factcheck "results") as [[| b | z | str | l | fs] |];
    try discriminate; intros H; inversion H; reflexivity.
Qed.

(** What a returned verdict was computed from. *)
Lemma compute_final_inv (factcheck splice timing : dict) (fv : final_verdict) :
  compute_final factcheck splice timing = inr fv ->
  exists results,
    py_iter (dict_get_default factcheck "results" (JArr [])) = inr results
    /\ false_or_mixed_claims fv = countFalseOrMixed results
    /\ unclear_claims fv = countUnclear results
    /\ score_field splice "splice_risk_score" = inr (splice_risk_score fv)
    /\ score_field timing "timeline_mismatch_risk_score"
       = inr (timeline_mismatch_risk_score fv)
    /\ risk_of (splice_risk_score fv) (timeline_mismatch_risk_score fv)
               (false_or_mixed_claims fv) (unclear_claims fv)
       = inr (misinformation_risk_score fv)
    /\ verdict fv = verdict_of (false_or_mixed_claims fv)
                               (timeline_mismatch_risk_score fv)
                               (misinformation_risk_score fv)
    /\ confidence_of (misinformation_risk_score fv) = inr (confidence_percent fv).
Proof.
  unfold compute_final, rbind, ok. intros H.
  destruct (py_iter _) as [e | results]; [discriminate |].
  destruct (count_verdicts ["false"; "mixed"] results) as [e | fm] eqn:Hfm;
    [discriminate |].
  destruct (count_verdicts ["unclear"] results) as [e | un] eqn:Hun;
    [discriminate |].
  destruct (average_confidence results) as [e | avg] eqn:Havg; [discriminate |].
  destruct (score_field splice "splice_risk_score") as [e | s]; [discriminate |].
  destruct (score_field timing "timeline_mismatch_risk_score") as [e | t];
    [discriminate |].
  destruct (risk_of s t fm un) as [e | risk] eqn:Hrisk; [discriminate |].
  destruct (confidence_of risk) as [e | conf] eqn:Hconf; [discriminate |].
  inversion H; subst fv; cbn.
  apply count_verdicts_counts in Hfm. apply count_verdicts_counts in Hun.
  exists results. repeat split; try assumption.
Qed.

(** A run that returns has computed the average of line 515. *)
Lemma compute_final_average (factcheck splice timing : dict) (fv : final_verdict) :
  compute_final factcheck splice timing = inr fv ->
  exists results avg,
    py_iter (dict_get_default factcheck "results" (JArr [])) = inr results
    /\ average_confidence results = inr avg.
Proof.
  unfold compute_final, rbind, ok. intros H.
  destruct (py_iter _) as [e | results]; [discriminate |].
  destruct (count_verdicts ["false"; "mixed"] results); [discriminate |].
  destruct (count_verdicts ["unclear"] results); [discriminate |].
  destruct (average_confidence results) as [e | avg] eqn:Havg; [discriminate |].
  exists results, avg. split; [reflexivity | exact Havg].
Qed.

(** On well-formed inputs only the arithmetic is left to do. *)
Lemma compute_final_wf (factcheck splice timing : dict) (results : list json)
    (s t : Z) :
  results_list factcheck = Some results ->
  forallb wf_result results = true ->
  average_in_range results = true ->
  int_field splice "splice_risk_score" = Some s ->
  int_field timing "timeline_mismatch_risk_score" = Some t ->
  compute_final factcheck splice timing =
  (risk <- risk_of s t (countFalseOrMixed results) (countUnclear results) ;;
   confidence <- confidence_of risk ;;
   ok {| verdict := verdict_of (countFalseOrMixed results) t risk;
         confidence_percent := confidence;
         misinformation_risk_score := risk;
         false_or_mixed_claims := countFalseOrMixed results;
         unclear_claims := countUnclear results;
         splice_risk_score := s;
         timeline_mismatch_risk_score := t;
         likely_event_year := dict_get timing "likely_event_year";
         posted_date := dict_get timing "posted_date" |})%result.
Proof.
  intros Hres Hwf Hsmall Hs Ht. unfold compute_final.
  rewrite (py_iter_results_list _ Hres). cbn [rbind].
  rewrite !(count_verdicts_wf _ _ Hwf). cbn [rbind].
  destruct (average_confidence_wf _ Hwf Hsmall) as [avg Havg]. rewrite Havg.
  cbn [rbind].
  rewrite (score_field_int_field _ _ Hs), (score_field_int_field _ _ Ht).
  reflexivity.
Qed.

Lemma risk_of_bounds (s t f u risk : Z) :
  risk_of s t f u = inr risk -> 0 <= risk <= 100.
Proof.
  unfold risk_of, rbind, ok. destruct (risk_round s t f u) as [e | n];
    [discriminate |].
  intros H. inversion H. unfold clamp. lia.
Qed.

(** Line 538 in exact arithmetic, for every risk score the clamp allows. *)
Lemma confidence_of_exact (risk : Z) :
  0 <= risk <= 100 ->
  confidence_of risk
  = inr (clamp 50 95 (round_half_even (confidence_exact risk))).
Proof.
  intros H.
  assert (Hin : In risk (zrange 101)) by (apply in_zrange; lia).
  pose proof (proj1 (forallb_forall confidence_ok (zrange 101)) confidences_ok
                    risk Hin) as Hok.
  unfold confidence_ok in Hok.
  destruct (confidence_of risk) as [e | c]; [discriminate |].
  apply Z.eqb_eq in Hok. rewrite Hok. reflexivity.
Qed.

(** C1 (amended): every score [compute_final] returns is the clamp to
    [0, 100] of the round-half-even of the exact value of the binary64 sum
    [((0 + s * 0.25) + t * 0.35) + 14 f + 5 u], where [s] and [t] are the two
    integer score fields and [f], [u] the two counts, and so lies in
    [0, 100].  For scores in [0, 100], at most twenty counted verdicts and a
    list of well-formed results whose confidences average within range,
    [compute_final] returns, and the rounded sum is an integer nearest to the
    exact value [0.25 s + 0.35 t + 14 f + 5 u]: it is the round-half-even of
    the exact value when that is no tie, and also when there is no timeline
    score, where the binary64 sum is exact. *)
Theorem compute_final_risk_score (factcheck splice timing : dict) :
  (forall fv,
      compute_final factcheck splice timing = inr fv ->
      exists results x,
        py_iter (dict_get_default factcheck "results" (JArr [])) = inr results
        /\ false_or_mixed_claims fv = countFalseOrMixed results
        /\ unclear_claims fv = countUnclear results
        /\ score_field splice "splice_risk_score" = inr (splice_risk_score fv)
        /\ score_field timing "timeline_mismatch_risk_score"
           = inr (timeline_mismatch_risk_score fv)
        /\ risk_sum (splice_risk_score fv) (timeline_mismatch_risk_score fv)
                    (false_or_mixed_claims fv) (unclear_claims fv) = inr x
        /\ misinformation_risk_score fv
           = clamp 0 100 (round_half_even (float_value x))
        /\ 0 <= misinformation_risk_score fv <= 100)
  /\ (forall results s t,
      results_list factcheck = Some results ->
      forallb wf_result results = true ->
      average_in_range results = true ->
      int_field splice "splice_risk_score" = Some s ->
      int_field timing "timeline_mismatch_risk_score" = Some t ->
      0 <= s <= 100 -> 0 <= t <= 100 ->
      countFalseOrMixed results + countUnclear results <= 20 ->
      let exact := risk_exact s t (countFalseOrMixed results) (countUnclear results) in
      exists fv n,
        compute_final factcheck splice timing = inr fv
        /\ is_round n exact
        /\ (~ is_tie exact -> n = round_half_even exact)
        /\ (t = 0 -> n = round_half_even exact)
        /\ misinformation_risk_score fv = clamp 0 100 n
        /\ 0 <= misinformation_risk_score fv <= 100
        /\ splice_risk_score fv = s
        /\ timeline_mismatch_risk_score fv = t
        /\ false_or_mixed_claims fv = countFalseOrMixed results
        /\ unclear_claims fv = countUnclear results).
Proof.
  split.
  - intros fv H. apply compute_final_inv in H.
    destruct H as [results [Hit [Hf [Hu [Hs [Ht [Hrisk _]]]]]]].
    pose proof (risk_of_bounds _ _ _ _ Hrisk) as Hb.
    unfold risk_of, risk_round, rbind, ok in Hrisk.
    destruct (risk_sum _ _ _ _) as [e | x]; [discriminate |].
    destruct (py_round x) as [e | n] eqn:Hn; [discriminate |].
    apply py_round_exact in Hn. inversion Hrisk as [Hscore].
    exists results, x. rewrite <- Hn.
    repeat match goal with |- _ /\ _ => split end;
      try assumption; try reflexivity; rewrite Hscore; apply Hb.
  - intros results s t Hres Hwf Hsmall Hs Ht Hsr Htr Hcount exact.
    assert (Hf := count_where_nonneg (verdict_in ["false"; "mixed"]) results).
    assert (Hu := count_where_nonneg (verdict_in ["unclear"]) results).
    fold countFalseOrMixed in Hf. fold countUnclear in Hu.
    destruct (risk_round_nearest Hsr Htr Hf Hu) as [n [Hn Hnear]];
      [exact Hcount |].
    assert (Hround : is_round n exact) by (apply is_round_exact20; exact Hnear).
    assert (Hrisk : risk_of s t (countFalseOrMixed results) (countUnclear results)
                    = inr (clamp 0 100 n)).
    { unfold risk_of. rewrite Hn. reflexivity. }
    assert (Hb : 0 <= clamp 0 100 n <= 100) by (unfold clamp; lia).
    rewrite (@compute_final_wf factcheck splice timing results s t
                               Hres Hwf Hsmall Hs Ht), Hrisk.
    cbn [rbind]. rewrite (confidence_of_exact Hb). cbn [rbind ok].
    eexists. exists n. split; [reflexivity |].
    cbn. repeat split; try lia; try assumption.
    + intros Htie. apply is_round_off_tie; assumption.
    + intros H0. subst t.
      rewrite (risk_round_splice_only Hsr Hf Hu Hcount) in Hn.
      inversion Hn. reflexivity.
Qed.

Lemma compute_final_risk_score_witness :
  exists fv n,
    compute_final example_factcheck
                  [("splice_risk_score", JInt 40)]
                  [("timeline_mismatch_risk_score", JNull)] = inr fv
    /\ is_round n (risk_exact 40 0 1 1)
    /\ n = round_half_even (risk_exact 40 0 1 1)
    /\ misinformation_risk_score fv = clamp 0 100 n.
Proof.
  pose proof (proj2 (compute_final_risk_score
                       example_factcheck
                       [("splice_risk_score", JInt 40)]
                       [("timeline_mismatch_risk_score", JNull)])
                    example_results 40 0 eq_refl eq_refl eq_refl eq_refl eq_refl)
    as H.
  assert (H40 : 0 <= 40 <= 100) by lia.
  assert (H0 : 0 <= 0 <= 100) by lia.
  assert (Hc : countFalseOrMixed example_results + countUnclear example_results <= 20)
    by (vm_compute; discriminate).
  destruct (H H40 H0 Hc) as [fv [n [Hfv [Hround [_ [Heven [Hrisk _]]]]]]].
  exists fv, n. split; [exact Hfv |]. split; [exact Hround |].
  split; [exact (Heven eq_refl) | exact Hrisk].
Defined.

(** The claim as stated fails at a timeline score of 90 with nothing else:
    the exact value is 31.5, which rounds to 32, and [compute_final] returns
    31, since the binary64 product [90 * 0.35] is just below 31.5. *)
Lemma compute_final_risk_score_counterexample :
  exists fv,
    compute_final [] [] [("timeline_mismatch_risk_score", JInt 90)] = inr fv
    /\ misinformation_risk_score fv = 31
    /\ (risk_exact 0 90 0 0 == 63 # 2)%Q
    /\ clamp 0 100 (round_half_even (risk_exact 0 90 0 0)) = 32.
Proof.
  eexists. split; [vm_compute; reflexivity |].
  split; [reflexivity |]. split; reflexivity.
Qed.

(** The two in-range score pairs without counted verdicts at which binary64
    moves an exact tie: [31.5] is computed as [31.499999999999996] and
    rounds to [31], where round-half-even of the exact value gives [32]. *)
Lemma risk_round_tie_below :
  risk_round 0 90 0 0 = inr 31
  /\ risk_round 7 85 0 0 = inr 31
  /\ round_half_even (risk_exact 0 90 0 0) = 32
  /\ round_half_even (risk_exact 7 85 0 0) = 32
  /\ is_round 31 (risk_exact 0 90 0 0)
  /\ is_round 31 (risk_exact 7 85 0 0).
Proof.
  repeat split; try (vm_compute; reflexivity);
    apply is_round_exact20; vm_compute; discriminate.
Qed.

Lemma verdict_of_cases (f t risk : Z) :
  let v := verdict_of f t risk in
  (f = 0 /\ t < 60 ->
     (risk < 70 -> v = "REAL") /\ (70 <= risk -> v = "MISLEADING"))
  /\ (~ (f = 0 /\ t < 60) ->
      ((2 <= f \/ 75 <= risk) -> v = "FAKE")
      /\ (~ (2 <= f \/ 75 <= risk) ->
          ((1 <= f \/ 50 <= risk \/ 60 <= t) -> v = "MISLEADING")
          /\ (~ (1 <= f \/ 50 <= risk \/ 60 <= t) -> v = "REAL"))).
Proof.
  intros v. subst v. unfold verdict_of.
  destruct (Z.eqb_spec f 0), (Z.ltb_spec t 60), (Z.ltb_spec risk 70),
    (Z.leb_spec 2 f), (Z.leb_spec 75 risk), (Z.leb_spec 1 f),
    (Z.leb_spec 50 risk), (Z.leb_spec 60 t);
    cbn [andb orb]; repeat split; intros; try reflexivity; exfalso; lia.
Qed.

(** C2: the categorical verdict is selected in this order: with no false
    or mixed verdict and a timeline score below 60 it is REAL when the risk
    is below 70 and MISLEADING otherwise; in the other case it is FAKE when
    two or more verdicts are false or mixed or the risk is at least 75,
    else MISLEADING when one verdict is false or mixed, or the risk is at
    least 50, or the timeline score is at least 60, else REAL.  This holds
    of every verdict returned.  Two false or mixed verdicts with everything
    else zero give risk 28 and FAKE; a timeline score of 65 with everything
    else zero gives MISLEADING: these are the values of every run that
    returns with these counts and scores, and the function does return when
    the results are dicts whose confidences are numbers with a sum and a
    count below [2^53], so that the average of line 515 is defined. *)
Theorem compute_final_verdict (factcheck splice timing : dict) :
  (forall fv,
      compute_final factcheck splice timing = inr fv ->
      let f := false_or_mixed_claims fv in
      let t := timeline_mismatch_risk_score fv in
      let risk := misinformation_risk_score fv in
      (f = 0 /\ t < 60 ->
         (risk < 70 -> verdict fv = "REAL")
         /\ (70 <= risk -> verdict fv = "MISLEADING"))
      /\ (~ (f = 0 /\ t < 60) ->
          ((2 <= f \/ 75 <= risk) -> verdict fv = "FAKE")
          /\ (~ (2 <= f \/ 75 <= risk) ->
              ((1 <= f \/ 50 <= risk \/ 60 <= t) -> verdict fv = "MISLEADING")
              /\ (~ (1 <= f \/ 50 <= risk \/ 60 <= t) -> verdict fv = "REAL"))))
  /\ (forall results,
      results_list factcheck = Some results ->
      forallb wf_result results = true ->
      average_in_range results = true ->
      countFalseOrMixed results = 2 -> countUnclear results = 0 ->
      int_field splice "splice_risk_score" = Some 0 ->
      int_field timing "timeline_mismatch_risk_score" = Some 0 ->
      exists fv,
        compute_final factcheck splice timing = inr fv
        /\ misinformation_risk_score fv = 28 /\ verdict fv = "FAKE")
  /\ (forall results,
      results_list factcheck = Some results ->
      forallb wf_result results = true ->
      average_in_range results = true ->
      countFalseOrMixed results = 0 -> countUnclear results = 0 ->
      int_field splice "splice_risk_score" = Some 0 ->
      int_field timing "timeline_mismatch_risk_score" = Some 65 ->
      exists fv,
        compute_final factcheck splice timing = inr fv
        /\ misinformation_risk_score fv = 23 /\ verdict fv = "MISLEADING")
  /\ (forall fv,
      compute_final factcheck splice timing = inr fv ->
      false_or_mixed_claims fv = 2 -> unclear_claims fv = 0 ->
      splice_risk_score fv = 0 -> timeline_mismatch_risk_score fv = 0 ->
      misinformation_risk_score fv = 28 /\ verdict fv = "FAKE")
  /\ (forall fv,
      compute_final factcheck splice timing = inr fv ->
      false_or_mixed_claims fv = 0 -> unclear_claims fv = 0 ->
      splice_risk_score fv = 0 -> timeline_mismatch_risk_score fv = 65 ->
      misinformation_risk_score fv = 23 /\ verdict fv = "MISLEADING").
Proof.
  split; [| split; [| split; [| split]]].
  - intros fv H f t risk. apply compute_final_inv in H.
    destruct H as [results [_ [_ [_ [_ [_ [_ [Hv _]]]]]]]].
    rewrite Hv. apply verdict_of_cases.
  - intros results Hres Hwf Hsmall Hf Hu Hs Ht.
    rewrite (@compute_final_wf factcheck splice timing results 0 0
                               Hres Hwf Hsmall Hs Ht).
    rewrite Hf, Hu. eexists. split; [vm_compute; reflexivity |].
    split; reflexivity.
  - intros results Hres Hwf Hsmall Hf Hu Hs Ht.
    rewrite (@compute_final_wf factcheck splice timing results 0 65
                               Hres Hwf Hsmall Hs Ht).
    rewrite Hf, Hu. eexists. split; [vm_compute; reflexivity |].
    split; reflexivity.
  - intros fv H Hf Hu Hs Ht. apply compute_final_inv in H.
    destruct H as [results [_ [_ [_ [_ [_ [Hrisk [Hv _]]]]]]]].
    rewrite Hf, Hu, Hs, Ht in Hrisk.
    assert (E : risk_of 0 0 2 0 = inr 28) by (vm_compute; reflexivity).
    rewrite E in Hrisk. injection Hrisk as Hr.
    rewrite Hv, Hf, Ht, <- Hr. split; reflexivity.
  - intros fv H Hf Hu Hs Ht. apply compute_final_inv in H.
    destruct H as [results [_ [_ [_ [_ [_ [Hrisk [Hv _]]]]]]]].
    rewrite Hf, Hu, Hs, Ht in Hrisk.
    assert (E : risk_of 0 65 0 0 = inr 23) by (vm_compute; reflexivity).
    rewrite E in Hrisk. injection Hrisk as Hr.
    rewrite Hv, Hf, Ht, <- Hr. split; reflexivity.
Qed.

Lemma compute_final_verdict_witness :
  exists fv,
    compute_final
      [("results", JArr [JObj [("verdict", JStr "false")];
                         JObj [("verdict", JStr "mixed")]])] [] [] = inr fv
    /\ misinformation_risk_score fv = 28 /\ verdict fv = "FAKE".
Proof.
  apply (proj1 (proj2 (compute_final_verdict
                         [("results", JArr [JObj [("verdict", JStr "false")];
                                            JObj [("verdict", JStr "mixed")]])]
                         [] []))
               [JObj [("verdict", JStr "false")]; JObj [("verdict", JStr "mixed")]]);
    reflexivity.
Defined.

(** C7: every confidence that [compute_final] returns is
    [round(90 - 0.6 risk)] clamped to [50, 95], in exact arithmetic, and so
    lies in [50, 95]; with no counted verdict and both scores zero the risk
    is 0, the verdict REAL and the confidence 90: these are the values of
    every run that returns with these counts and scores, and the function
    does return when the results are dicts whose confidences are numbers
    with a sum and a count below [2^53], so that the average of line 515 is
    defined. *)
Theorem compute_final_confidence (factcheck splice timing : dict) :
  (forall fv,
      compute_final factcheck splice timing = inr fv ->
      confidence_percent fv
      = clamp 50 95 (round_half_even
                       (confidence_exact (misinformation_risk_score fv)))
      /\ is_round (round_half_even (confidence_exact (misinformation_risk_score fv)))
                  (confidence_exact (misinformation_risk_score fv))
      /\ 50 <= confidence_percent fv <= 95)
  /\ (forall results,
      results_list factcheck = Some results ->
      forallb wf_result results = true ->
      average_in_range results = true ->
      countFalseOrMixed results = 0 -> countUnclear results = 0 ->
      int_field splice "splice_risk_score" = Some 0 ->
      int_field timing "timeline_mismatch_risk_score" = Some 0 ->
      exists fv,
        compute_final factcheck splice timing = inr fv
        /\ misinformation_risk_score fv = 0
        /\ verdict fv = "REAL"
        /\ confidence_percent fv = 90)
  /\ (forall fv,
      compute_final factcheck splice timing = inr fv ->
      false_or_mixed_claims fv = 0 -> unclear_claims fv = 0 ->
      splice_risk_score fv = 0 -> timeline_mismatch_risk_score fv = 0 ->
      misinformation_risk_score fv = 0
      /\ verdict fv = "REAL"
      /\ confidence_percent fv = 90).
Proof.
  split; [| split].
  - intros fv H. apply compute_final_inv in H.
    destruct H as [results [_ [_ [_ [_ [_ [Hrisk [_ Hconf]]]]]]]].
    apply risk_of_bounds in Hrisk.
    rewrite (confidence_of_exact Hrisk) in Hconf. inversion Hconf as [Hc].
    split; [reflexivity |]. split; [apply is_round_confidence |].
    unfold clamp. lia.
  - intros results Hres Hwf Hsmall Hf Hu Hs Ht.
    rewrite (@compute_final_wf factcheck splice timing results 0 0
                               Hres Hwf Hsmall Hs Ht).
    rewrite Hf, Hu. eexists. split; [vm_compute; reflexivity |].
    repeat split; reflexivity.
  - intros fv H Hf Hu Hs Ht. apply compute_final_inv in H.
    destruct H as [results [_ [_ [_ [_ [_ [Hrisk [Hv Hconf]]]]]]]].
    rewrite Hf, Hu, Hs, Ht in Hrisk.
    assert (E : risk_of 0 0 0 0 = inr 0) by (vm_compute; reflexivity).
    rewrite E in Hrisk. injection Hrisk as Hr.
    rewrite <- Hr in Hconf.
    assert (E' : confidence_of 0 = inr 90) by (vm_compute; reflexivity).
    rewrite E' in Hconf. injection Hconf as Hc.
    rewrite Hv, Hf, Ht, <- Hr, <- Hc. repeat split; reflexivity.
Qed.

Lemma compute_final_confidence_witness :
  exists fv,
    compute_final [("results", JArr [JObj [("verdict", JStr "true")]])] [] []
    = inr fv
    /\ misinformation_risk_score fv = 0
    /\ verdict fv = "REAL"
    /\ confidence_percent fv = 90.
Proof.
  apply (proj1 (proj2 (compute_final_confidence
                  [("results", JArr [JObj [("verdict", JStr "true")]])] [] []))
               [JObj [("verdict", JStr "true")]]);
    reflexivity.
Defined.

(** ** Strings: searching for one character *)

Local Notation "a +++ b" := (String.append a b)
  (at level 60, right associativity, only parsing).

(** The one-character string. *)
Local Notation "<< c >>" := (String c EmptyString) (only parsing).

Lemma sapp_assoc (a b c : string) : (a +++ b) +++ c = a +++ (b +++ c).
Proof. induction a as [| x a IH]; simpl; [reflexivity | rewrite IH; reflexivity]. Qed.

Lemma slength_app (a b : string) :
  String.length (a +++ b) = (String.length a + String.length b)%nat.
Proof. induction a as [| x a IH]; simpl; [reflexivity | rewrite IH; reflexivity]. Qed.

Lemma drop_app (a b : string) : drop (String.length a) (a +++ b) = b.
Proof. induction a as [| x a IH]; simpl; [reflexivity | exact IH]. Qed.

Lemma take_app (a b : string) : take (String.length a) (a +++ b) = a.
Proof.
  induction a as [| x a IH]; simpl; [destruct b; reflexivity | rewrite IH; reflexivity].
Qed.

Lemma starts_with_ch (c : ascii) (s : string) :
  starts_with <<c>> s
  = match s with String a _ => Ascii.eqb c a | EmptyString => false end.
Proof. destruct s as [| a s]; simpl; [reflexivity | apply andb_true_r]. Qed.

Lemma find_ch_cons (c a : ascii) (s : string) :
  find <<c>> (String a s)
  = if Ascii.eqb c a then Some O else option_map S (find <<c>> s).
Proof.
  change (find <<c>> (String a s))
    with (if starts_with <<c>> (String a s) then Some O
          else option_map S (find <<c>> s)).
  rewrite starts_with_ch. reflexivity.
Qed.

Lemma find_ch_nil (c : ascii) : find <<c>> EmptyString = None.
Proof. reflexivity. Qed.

Lemma rfind_ch_cons (c a : ascii) (s : string) :
  rfind <<c>> (String a s)
  = match rfind <<c>> s with
    | Some i => Some (S i)
    | None => if Ascii.eqb c a then Some O else None
    end.
Proof.
  change (rfind <<c>> (String a s))
    with (match rfind <<c>> s with
          | Some i => Some (S i)
          | None => if starts_with <<c>> (String a s) then Some O else None
          end).
  rewrite starts_with_ch. reflexivity.
Qed.

Lemma rfind_ch_nil (c : ascii) : rfind <<c>> EmptyString = None.
Proof. reflexivity. Qed.

(** A character that does not occur is found from neither end. *)
Lemma rfind_none_iff_find_none (c : ascii) (s : string) :
  rfind <<c>> s = None <-> find <<c>> s = None.
Proof.
  induction s as [| a s IH].
  - rewrite rfind_ch_nil, find_ch_nil. tauto.
  - rewrite rfind_ch_cons, find_ch_cons.
    destruct (rfind <<c>> s), (find <<c>> s), (Ascii.eqb c a); simpl;
      split; intros H; try discriminate; try reflexivity;
      destruct IH as [IH1 IH2];
      first [discriminate (IH1 eq_refl) | discriminate (IH2 eq_refl)].
Qed.

Lemma find_ch_app_none (c : ascii) (a b : string) :
  find <<c>> (a +++ b) = None
  <-> find <<c>> a = None /\ find <<c>> b = None.
Proof.
  induction a as [| x a IH]; simpl String.append.
  - rewrite find_ch_nil. tauto.
  - rewrite !find_ch_cons. destruct (Ascii.eqb c x).
    + split; [discriminate | intros [H _]; discriminate].
    + destruct (find <<c>> (a +++ b)), (find <<c>> a); simpl;
        split; intros H; try discriminate; try (destruct H; discriminate);
        try reflexivity; destruct IH as [IH1 IH2];
        first [ discriminate (IH2 H)
              | destruct (IH1 eq_refl); discriminate
              | split; [reflexivity | apply IH1; reflexivity] ].
Qed.

(** Past a prefix without the character, the search continues in the rest. *)
Lemma find_ch_app (c : ascii) (pre s : string) :
  find <<c>> pre = None ->
  find <<c>> (pre +++ s)
  = option_map (fun i => (String.length pre + i)%nat) (find <<c>> s).
Proof.
  induction pre as [| x pre IH]; simpl String.append; intros H.
  - destruct (find <<c>> s); reflexivity.
  - rewrite find_ch_cons in *. destruct (Ascii.eqb c x); [discriminate |].
    destruct (find <<c>> pre) eqn:E; [discriminate |].
    rewrite (IH eq_refl). destruct (find <<c>> s); reflexivity.
Qed.

(** Before a suffix without the character, its last occurrence is the one
    in front of the suffix. *)
Lemma rfind_ch_app (c : ascii) (x post : string) :
  rfind <<c>> post = None ->
  rfind <<c>> (x +++ String c post) = Some (String.length x).
Proof.
  intros H. induction x as [| a x IH]; simpl String.append.
  - rewrite rfind_ch_cons, H, Ascii.eqb_refl. reflexivity.
  - rewrite rfind_ch_cons, IH. reflexivity.
Qed.

Lemma find_ch_split (c : ascii) (t : string) :
  forall i, find <<c>> t = Some i ->
  exists pre rest, t = pre +++ String c rest
                   /\ find <<c>> pre = None /\ String.length pre = i.
Proof.
  induction t as [| a t IH]; intros i H.
  - discriminate.
  - rewrite find_ch_cons in H. destruct (Ascii.eqb_spec c a) as [-> | Hca].
    + inversion H. exists EmptyString, t. repeat split.
    + destruct (find <<c>> t) as [j |]; [| discriminate].
      inversion H; subst i.
      destruct (IH j eq_refl) as [pre [rest [Ht [Hpre Hlen]]]].
      exists (String a pre), rest. repeat split.
      * simpl. rewrite <- Ht. reflexivity.
      * rewrite find_ch_cons, Hpre.
        destruct (Ascii.eqb_spec c a); [contradiction | reflexivity].
      * simpl. rewrite Hlen. reflexivity.
Qed.

Lemma rfind_ch_split (c : ascii) (t : string) :
  forall j, rfind <<c>> t = Some j ->
  exists x post, t = x +++ String c post
                 /\ rfind <<c>> post = None /\ String.length x = j.
Proof.
  induction t as [| a t IH]; intros j H.
  - discriminate.
  - rewrite rfind_ch_cons in H.
    destruct (rfind <<c>> t) as [i |] eqn:E.
    + inversion H; subst j.
      destruct (IH i eq_refl) as [x [post [Ht [Hpost Hlen]]]].
      exists (String a x), post. repeat split.
      * simpl. rewrite <- Ht. reflexivity.
      * exact Hpost.
      * simpl. rewrite Hlen. reflexivity.
    + destruct (Ascii.eqb_spec c a) as [-> | Hca]; [| discriminate].
      inversion H. exists EmptyString, t. repeat split. exact E.
Qed.

(** The last occurrence lies inside a prefix behind which the character
    does not occur. *)
Lemma rfind_ch_app_none (c : ascii) (a b : string) :
  find <<c>> b = None ->
  rfind <<c>> (a +++ b) = rfind <<c>> a.
Proof.
  intros H. induction a as [| x a IH]; simpl String.append.
  - rewrite rfind_ch_nil. apply rfind_none_iff_find_none. exact H.
  - rewrite !rfind_ch_cons, IH. reflexivity.
Qed.

Lemma rfind_ch_lt (c : ascii) (a : string) :
  forall j, rfind <<c>> a = Some j -> (j < String.length a)%nat.
Proof.
  induction a as [| x a IH]; intros j H; [discriminate |].
  rewrite rfind_ch_cons in H. simpl.
  destruct (rfind <<c>> a) as [i |].
  - inversion H. specialize (IH i eq_refl). lia.
  - destruct (Ascii.eqb c x); [| discriminate]. inversion H. lia.
Qed.

(** ** JSON extraction *)

Lemma json_span_exact (pre body post : string) :
  find "{" pre = None -> find "}" post = None ->
  json_span (pre +++ "{" +++ body +++ "}" +++ post)
  = Some ("{" +++ body +++ "}")%string.
Proof.
  intros Hpre Hpost. unfold json_span.
  change (pre +++ "{" +++ body +++ "}" +++ post)
    with (pre +++ String lbrace (body +++ String rbrace post)).
  rewrite (find_ch_app lbrace pre _ Hpre).
  unfold lbrace at 2. rewrite find_ch_cons, Ascii.eqb_refl. cbn [option_map].
  replace (pre +++ String lbrace (body +++ String rbrace post))
    with ((pre +++ String lbrace body) +++ String rbrace post)
    by (rewrite sapp_assoc; reflexivity).
  apply rfind_none_iff_find_none in Hpost.
  rewrite (rfind_ch_app rbrace _ post Hpost).
  rewrite slength_app. cbn [String.length].
  replace (String.length pre + 0 <? String.length pre + S (String.length body))%nat
    with true by (symmetry; apply Nat.ltb_lt; lia).
  unfold slice.
  replace (String.length pre + S (String.length body) + 1 - (String.length pre + 0))%nat
    with (String.length (String lbrace (body +++ String rbrace EmptyString)))
    by (cbn [String.length]; rewrite slength_app; cbn [String.length]; lia).
  rewrite Nat.add_0_r, sapp_assoc, drop_app.
  replace (String lbrace body +++ String rbrace post)
    with (String lbrace (body +++ String rbrace EmptyString) +++ post)
    by (cbn [String.append]; rewrite sapp_assoc; reflexivity).
  rewrite take_app. reflexivity.
Qed.

(** A string without braces is balanced. *)
Lemma brace_free_balanced (s : string) :
  find "{" s = None -> find "}" s = None -> balanced s.
Proof.
  induction s as [| c s IH]; intros Hl Hr; [constructor |].
  change "{"%string with (String lbrace EmptyString) in *.
  change "}"%string with (String rbrace EmptyString) in *.
  rewrite find_ch_cons in Hl, Hr.
  destruct (Ascii.eqb_spec lbrace c) as [El | Hlc]; [discriminate |].
  destruct (Ascii.eqb_spec rbrace c) as [Er | Hrc]; [discriminate |].
  destruct (find (String lbrace "") s); [discriminate |].
  destruct (find (String rbrace "") s); [discriminate |].
  constructor; [congruence | congruence | apply IH; reflexivity].
Qed.

(** Where [json_span] finds a span, an innermost pair of braces encloses a
    balanced text. *)
Lemma json_span_balanced (text raw : string) :
  json_span text = Some raw -> has_balanced_span text.
Proof.
  unfold json_span.
  change "{"%string with (String lbrace EmptyString).
  change "}"%string with (String rbrace EmptyString).
  destruct (find (String lbrace "") text) as [i |] eqn:Hfind; [| discriminate].
  destruct (rfind (String rbrace "") text) as [j |] eqn:Hrfind; [| discriminate].
  destruct (Nat.ltb_spec i j) as [Hij |]; [| discriminate]. intros _.
  destruct (find_ch_split _ _ Hfind) as [pre [rest [Htext [Hpre Hi]]]].
  (* a closing brace lies behind the first opening one *)
  assert (Hclose : find (String rbrace "") rest <> None).
  { intros Hnone.
    assert (Hbehind : find (String rbrace "") (String lbrace rest) = None).
    { rewrite find_ch_cons, Hnone. reflexivity. }
    rewrite Htext, (rfind_ch_app_none rbrace pre _ Hbehind) in Hrfind.
    apply rfind_ch_lt in Hrfind. lia. }
  destruct (find (String rbrace "") rest) as [p |] eqn:Hp; [| contradiction].
  destruct (find_ch_split _ _ Hp) as [a [b [Hrest [Ha _]]]].
  (* the last opening brace in front of that closing brace *)
  assert (Hopen : rfind (String lbrace "") (String lbrace a) <> None).
  { rewrite rfind_ch_cons. destruct (rfind (String lbrace "") a);
      [discriminate | rewrite Ascii.eqb_refl; discriminate]. }
  destruct (rfind (String lbrace "") (String lbrace a)) as [q |] eqn:Hq;
    [| contradiction].
  destruct (rfind_ch_split _ _ Hq) as [x [mid [Hx [Hmid _]]]].
  exists (pre +++ x), mid, b. split.
  - rewrite Htext, Hrest.
    change (pre +++ String lbrace (a +++ String rbrace b))
      with (pre +++ (String lbrace a +++ String rbrace b)).
    rewrite Hx, !sapp_assoc. reflexivity.
  - apply brace_free_balanced.
    + change (find (String lbrace "") mid = None).
      apply rfind_none_iff_find_none. exact Hmid.
    + change (find (String rbrace "") mid = None).
      assert (Hla : find (String rbrace "") (String lbrace a) = None).
      { rewrite find_ch_cons, Ha. reflexivity. }
      rewrite Hx in Hla. apply find_ch_app_none in Hla.
      destruct Hla as [_ Hla]. rewrite find_ch_cons in Hla.
      destruct (Ascii.eqb rbrace lbrace); [discriminate |].
      destruct (find (String rbrace "") mid); [discriminate | reflexivity].
Qed.

Lemma unfence_plain (text : string) :
  contains fence text = false -> unfence text = text.
Proof. intros H. unfold unfence. rewrite H. reflexivity. Qed.

Lemma unfence_split (text before inner : string) (rest : list string) :
  split fence text = before :: inner :: rest ->
  unfence text = strip (replace_first "json" "" inner).
Proof.
  intros H. unfold unfence, contains.
  destruct (find fence text) eqn:E.
  - rewrite H. reflexivity.
  - exfalso. unfold split in H.
    destruct (String.length text); cbn [split_fuel] in H;
      [| rewrite E in H]; discriminate.
Qed.

Section Extraction.

Variable svc : services.

(** C4, as the extraction works: the span handed to [json.loads] runs from
    the first opening brace to the last closing brace of the text, after
    the text between the first two fence markers, if there are any, has
    been taken in its place.  So a JSON object comes back as parsing it
    directly when no opening brace precedes it and no closing brace follows
    it in that text; whatever is returned is [json.loads] of that span; and
    a text without any balanced span fails with the [ValueError] of line
    314, whose message ends with the first 1200 characters of that text. *)
Theorem extract_json_span (response : option string) :
  let text := strip (text_or_empty response) in
  (forall pre body post,
      contains fence text = false ->
      text = (pre ++ "{" ++ body ++ "}" ++ post)%string ->
      find "{" pre = None -> find "}" post = None ->
      extract_json svc response = json_loads svc ("{" ++ body ++ "}"))
  /\ (forall before inner rest pre body post,
      split fence text = before :: inner :: rest ->
      strip (replace_first "json" "" inner)
      = (pre ++ "{" ++ body ++ "}" ++ post)%string ->
      find "{" pre = None -> find "}" post = None ->
      extract_json svc response = json_loads svc ("{" ++ body ++ "}"))
  /\ (~ has_balanced_span (unfence text) ->
      extract_json svc response
      = raise ValueError ("Gemini did not return valid JSON." ++ nl ++ "Raw:"
                          ++ nl ++ take 1200 (unfence text))%string)
  /\ (forall v,
      extract_json svc response = inr v ->
      exists raw_json,
        json_span (unfence text) = Some raw_json
        /\ json_loads svc raw_json = inr v).
Proof.
  intros text. unfold extract_json. fold text.
  split; [| split; [| split]].
  - intros pre body post Hplain Htext Hpre Hpost.
    rewrite (unfence_plain _ Hplain), Htext, (json_span_exact pre body post Hpre Hpost).
    reflexivity.
  - intros before inner rest pre body post Hsplit Hinner Hpre Hpost.
    rewrite (unfence_split _ Hsplit), Hinner, (json_span_exact pre body post Hpre Hpost).
    reflexivity.
  - intros Hnone. destruct (json_span (unfence text)) as [raw |] eqn:E;
      [| reflexivity].
    exfalso. apply Hnone. eapply json_span_balanced. exact E.
  - intros v H. destruct (json_span (unfence text)) as [raw |];
      [| discriminate].
    exists raw. split; [reflexivity | exact H].
Qed.

End Extraction.

Lemma extract_json_span_witness :
  extract_json down_services (Some "Here it is: {} as asked. ")
  = json_loads down_services "{}".
Proof.
  apply (proj1 (extract_json_span down_services (Some "Here it is: {} as asked. "))
               "Here it is: " "" " as asked.");
    reflexivity.
Defined.

(** C4 as stated fails: a response that is exactly the JSON object
    [{"code": "```"}], and one that shows a fenced code block in the prose
    before the object [{"a": 1}], both make the extraction raise
    [ValueError], whatever [json.loads] would have parsed: what is left of
    the text after the fence markers holds no opening brace. *)
Lemma extract_json_round_trip_counterexample :
  (forall svc, extract_json svc (Some json_with_fence)
               = raise ValueError ("Gemini did not return valid JSON." ++ nl
                                   ++ "Raw:" ++ nl ++ dq ++ "}")%string)
  /\ (forall svc, extract_json svc (Some (fenced_prose ++ small_json)%string)
                  = raise ValueError ("Gemini did not return valid JSON." ++ nl
                                      ++ "Raw:" ++ nl ++ "python print(1)")%string).
Proof. split; intros svc; reflexivity. Qed.

(** ** Web evidence *)

Lemma take_length (n : nat) (s : string) :
  String.length (take n s) = Nat.min n (String.length s).
Proof.
  revert s. induction n as [| n IH]; intros s; [reflexivity |].
  destruct s as [| c s]; [reflexivity |]. simpl. rewrite IH. reflexivity.
Qed.

Lemma trimmed_length (s : string) :
  (WEB_CONTENT_TRIM_CHARS < String.length s)%nat ->
  String.length (take WEB_CONTENT_TRIM_CHARS s +++ "...")
  = (WEB_CONTENT_TRIM_CHARS + 3)%nat.
Proof.
  intros H. rewrite slength_app, take_length. cbn [String.length]. lia.
Qed.

Lemma dict_get_set (d : dict) (k : string) (v : json) :
  dict_get (dict_set d k v) k = Some v.
Proof.
  induction d as [| [k' v'] d IH]; cbn [dict_set dict_get].
  - rewrite String.eqb_refl. reflexivity.
  - destruct (String.eqb k' k) eqn:E; cbn [dict_get]; rewrite E;
      [reflexivity | exact IH].
Qed.

Lemma dict_get_set_other (d : dict) (k k' : string) (v : json) :
  k' <> k -> dict_get (dict_set d k v) k' = dict_get d k'.
Proof.
  intros Hne. induction d as [| [k0 v0] d IH]; cbn [dict_set dict_get].
  - destruct (String.eqb_spec k k') as [Heq | _]; [congruence | reflexivity].
  - destruct (String.eqb_spec k0 k) as [Heq | Hk]; cbn [dict_get].
    + subst k0. destruct (String.eqb_spec k k') as [Heq | _];
        [congruence | reflexivity].
    + destruct (String.eqb k0 k'); [reflexivity | exact IH].
Qed.

Lemma dict_setdefault_get (d : dict) (k k' : string) (v : json) :
  dict_get (dict_setdefault d k v) k'
  = match dict_get d k' with
    | Some x => Some x
    | None => if String.eqb k' k then Some v else None
    end.
Proof.
  unfold dict_setdefault. destruct (dict_get d k) as [x |] eqn:Hk.
  - destruct (dict_get d k') as [x' |] eqn:Hk'; [reflexivity |].
    destruct (String.eqb_spec k' k) as [Heq | Hne]; [| reflexivity].
    subst k'. congruence.
  - destruct (String.eqb_spec k' k) as [Heq | Hne].
    + subst k'. rewrite dict_get_set, Hk. reflexivity.
    + rewrite (dict_get_set_other d v Hne).
      destruct (dict_get d k'); reflexivity.
Qed.

(** The seven [setdefault] calls never replace a value of the answer and
    leave no key of a verdict missing. *)
Lemma backfill_keeps (claim claim_source : string) (answer v : json) :
  backfill claim claim_source answer = inr v ->
  exists d d',
    answer = JObj d /\ v = JObj d'
    /\ (forall k x, dict_get d k = Some x -> dict_get d' k = Some x)
    /\ verdict_complete v = true
    /\ (dict_get d "verdict" = None -> dict_get d' "verdict" = Some (JStr "unclear"))
    /\ (dict_get d "confidence" = None -> dict_get d' "confidence" = Some (JInt 0))
    /\ (dict_get d "claim" = None -> dict_get d' "claim" = Some (JStr claim)).
Proof.
  destruct answer as [| b | z | s | l | d]; try discriminate.
  cbn [backfill]. unfold ok. cbv zeta. intros H. injection H as <-.
  eexists d, _. split; [reflexivity |]. split; [reflexivity |].
  split; [| split; [| split; [| split]]].
  - intros k x Hk. rewrite !dict_setdefault_get, Hk. reflexivity.
  - cbn [verdict_complete VERDICT_KEYS forallb].
    rewrite !dict_setdefault_get.
    repeat match goal with
           | |- context [dict_get d ?k] => destruct (dict_get d k)
           end; reflexivity.
  - intros Hk. rewrite !dict_setdefault_get, Hk. reflexivity.
  - intros Hk. rewrite !dict_setdefault_get, Hk. reflexivity.
  - intros Hk. rewrite !dict_setdefault_get, Hk. reflexivity.
Qed.

(** What the loop body returns, when it returns. *)
Lemma trim_result_trimmed (d : dict) (r' : json) :
  trim_result (JObj d) = inr r' -> trimmed_item (JObj d) r'.
Proof.
  unfold trim_result, trimmed_item, content_of, rbind, ok, raise.
  cbn [dict_copy]. unfold ok. cbv beta iota.
  intros H. exists d. split; [reflexivity |]. revert H.
  destruct (py_or (dict_get_default d "content" JNull) (JStr ""))
    as [| b | z | s | l | f]; cbn [py_len]; unfold ok, raise; cbv beta iota;
    try discriminate; intros H.
  - destruct (Nat.ltb_spec WEB_CONTENT_TRIM_CHARS (String.length s)) as [Hlt | Hle].
    + replace (String.length s <=? WEB_CONTENT_TRIM_CHARS)%nat with false
        by (symmetry; apply Nat.leb_gt; exact Hlt).
      inversion H. reflexivity.
    + replace (String.length s <=? WEB_CONTENT_TRIM_CHARS)%nat with true
        by (symmetry; apply Nat.leb_le; exact Hle).
      inversion H. reflexivity.
  - destruct (WEB_CONTENT_TRIM_CHARS <? List.length l)%nat;
      [discriminate | inversion H; reflexivity].
  - destruct (WEB_CONTENT_TRIM_CHARS <? List.length f)%nat;
      [discriminate | inversion H; reflexivity].
Qed.

Lemma trim_results_trimmed (results : list json) :
  forallb wf_item results = true ->
  forall trimmed,
    trim_results results = inr trimmed -> Forall2 trimmed_item results trimmed.
Proof.
  induction results as [| r rest IH]; intros Hwf trimmed H.
  - inversion H. constructor.
  - cbn [forallb] in Hwf. apply andb_true_iff in Hwf.
    destruct Hwf as [Hr0 Hrest].
    cbn [trim_results] in H. unfold rbind, ok in H.
    destruct (trim_result r) as [e | r'] eqn:Hr; [discriminate |].
    destruct (trim_results rest) as [e | rest'] eqn:Hrest'; [discriminate |].
    inversion H. constructor.
    + destruct r as [| b | z | str | l | d]; try discriminate Hr0.
      apply trim_result_trimmed; exact Hr.
    + apply (IH Hrest). reflexivity.
Qed.

(** The content of a trimmed item, when it is a string, has at most
    [WEB_CONTENT_TRIM_CHARS + 3] characters. *)
Lemma trimmed_item_bound (r r' : json) (d' : dict) (s' : string) :
  trimmed_item r r' -> r' = JObj d' ->
  dict_get d' "content" = Some (JStr s') ->
  (String.length s' <= WEB_CONTENT_TRIM_CHARS + 3)%nat.
Proof.
  intros [d [Hr Hc]] Hr' Hget. subst r r'.
  unfold content_of, dict_get_default, py_or in Hc.
  destruct (dict_get d "content") as [v |] eqn:Hd.
  - destruct v as [| b | z | s | l | f]; cbn [truthy] in Hc.
    + inversion Hc; subst d'. rewrite Hd in Hget. discriminate.
    + destruct b; inversion Hc; subst d'; rewrite Hd in Hget; discriminate.
    + destruct (negb (z =? 0)); inversion Hc; subst d'; rewrite Hd in Hget;
        discriminate.
    + destruct (String.eqb_spec s "") as [-> | Hs]; cbn [negb] in Hc.
      * cbn in Hc. inversion Hc; subst d'. rewrite Hd in Hget.
        inversion Hget; subst. cbn [String.length]. lia.
      * destruct (Nat.leb_spec (String.length s) WEB_CONTENT_TRIM_CHARS).
        -- inversion Hc; subst d'. rewrite Hd in Hget. inversion Hget; subst.
           lia.
        -- assert (Ed : d' = dict_set d "content"
                            (JStr (take WEB_CONTENT_TRIM_CHARS s +++ "...")))
             by congruence.
           subst d'. rewrite dict_get_set in Hget.
           assert (Es : s' = take WEB_CONTENT_TRIM_CHARS s +++ "...")
             by congruence.
           rewrite Es, trimmed_length by assumption. lia.
    + destruct l; inversion Hc; subst d'; rewrite Hd in Hget; discriminate.
    + destruct f; inversion Hc; subst d'; rewrite Hd in Hget; discriminate.
  - cbn in Hc. inversion Hc; subst d'. rewrite Hd in Hget. discriminate.
Qed.

Lemma trim_result_wf (r : json) :
  wf_item r = true -> exists r', trim_result r = inr r'.
Proof.
  unfold wf_item, trim_result, content_of, rbind.
  destruct r as [| b | z | str | l | d]; try discriminate.
  cbn [dict_copy]. unfold ok. cbv beta iota.
  destruct (py_or (dict_get_default d "content" JNull) (JStr ""))
    as [| b | z | s | l | f]; try discriminate.
  intros _. cbn [py_len]. unfold ok. cbv beta iota.
  destruct (WEB_CONTENT_TRIM_CHARS <? String.length s)%nat; eexists; reflexivity.
Qed.

Lemma trim_results_wf (results : list json) :
  forallb wf_item results = true ->
  exists trimmed, trim_results results = inr trimmed.
Proof.
  induction results as [| r rest IH]; intros H; [eexists; reflexivity |].
  cbn [forallb] in H. apply andb_true_iff in H. destruct H as [Hr Hrest].
  destruct (trim_result_wf _ Hr) as [r' Hr'].
  destruct (IH Hrest) as [rest' Hrest'].
  exists (r' :: rest'). cbn [trim_results]. rewrite Hr', Hrest'. reflexivity.
Qed.

Lemma Forall2_bound (items trimmed : list json) :
  Forall2 trimmed_item items trimmed ->
  Forall (content_within (WEB_CONTENT_TRIM_CHARS + 3)) trimmed.
Proof.
  induction 1 as [| r r' items trimmed Hr _ IH]; constructor; [| exact IH].
  intros d s Hd Hget. eapply trimmed_item_bound; eauto.
Qed.

(** C8, as the code trims: every evidence item passed on is the search
    result itself when its content has at most [WEB_CONTENT_TRIM_CHARS]
    characters, and otherwise the result with its content replaced by the
    first [WEB_CONTENT_TRIM_CHARS] characters followed by ["..."]; so a
    content has at most [WEB_CONTENT_TRIM_CHARS + 3 = 3503] characters. *)
Theorem web_evidence_trimmed (debug : option (string -> M unit)) (svc : services)
    (claim : string) (tr : trace) (res : json) (items : list json) :
  tavily_search svc tr claim = inr res ->
  py_iter (search_results res) = inr items ->
  forallb wf_item items = true ->
  exists trimmed,
    web_evidence_for_claim debug svc claim tr
    = (inr [("results", JArr trimmed)], tr ++ [Searched claim])
    /\ Forall2 trimmed_item items trimmed
    /\ Forall (content_within (WEB_CONTENT_TRIM_CHARS + 3)) trimmed.
Proof.
  intros Hsearch Hiter Hwf.
  destruct (trim_results_wf _ Hwf) as [trimmed Htrim].
  exists trimmed.
  assert (Hfor : Forall2 trimmed_item items trimmed)
    by (apply (trim_results_trimmed _ Hwf); exact Htrim).
  split; [| split; [exact Hfor | apply (Forall2_bound Hfor)]].
  unfold web_evidence_for_claim, bind, with_retries.
  rewrite (@retry_loop_returns json debug _ 1 1 2 None tr (tr ++ [Searched claim]) res)
    by (unfold call; rewrite Hsearch; reflexivity).
  unfold lift. rewrite Hiter. cbn [rbind]. rewrite Htrim. reflexivity.
Qed.

Lemma web_evidence_trimmed_witness :
  exists trimmed,
    web_evidence_for_claim backend_debug long_item_services "claim" []
    = (inr [("results", JArr trimmed)], [Searched "claim"])
    /\ Forall2 trimmed_item [long_item] trimmed
    /\ Forall (content_within (WEB_CONTENT_TRIM_CHARS + 3)) trimmed.
Proof.
  apply (@web_evidence_trimmed backend_debug long_item_services "claim" []
           (JObj [("results", JArr [long_item])]) [long_item]);
    reflexivity.
Defined.

(** C8 as stated fails: a content of 3501 characters is passed on with
    3503 characters, the first 3500 and the three dots. *)
Lemma web_evidence_exceeds_cap :
  fst (web_evidence_for_claim backend_debug long_item_services "claim" [])
  = inr [("results",
          JArr [JObj [("url", JStr "https://example.org");
                      ("content", JStr (repeat_char "a" 3500 ++ "..."))]])]
  /\ String.length (repeat_char "a" 3500 ++ "...") = 3503%nat
  /\ (WEB_CONTENT_TRIM_CHARS <? String.length (repeat_char "a" 3500 ++ "..."))%nat
     = true.
Proof. repeat split; vm_compute; reflexivity. Qed.

(** ** Fact-checking *)

Section Factcheck.

Variable debug : option (string -> M unit).
Variable svc : services.

(** One iteration of the loop, step by step. *)
Lemma factcheck_claim_steps (c : json) (tr : trace) :
  factcheck_claim debug svc c tr
  = match claim_text c with
    | inl e => (inl e, tr)
    | inr claim =>
        match claim_source_of c with
        | inl e => (inl e, tr)
        | inr claim_source =>
            if String.eqb claim "" then (inr None, tr)
            else
              match web_evidence_for_claim debug svc claim tr with
              | (inl e, tr1) => (inl e, tr1)
              | (inr sources, tr1) =>
                  if negb (truthy (dict_get_default sources "results" JNull))
                  then (inr (Some (no_sources_verdict claim claim_source)), tr1)
                  else
                    match gemini_factcheck_one_claim debug svc claim claim_source
                            sources tr1 with
                    | (inl e, tr2) => (inl e, tr2)
                    | (inr verdict, tr2) =>
                        match backfill claim claim_source verdict with
                        | inl e => (inl e, tr2)
                        | inr filled => (inr (Some filled), tr2)
                        end
                    end
              end
        end
    end.
Proof.
  unfold factcheck_claim, claim_text, claim_source_of, bind, lift, ret.
  destruct (v <- obj_get c "claim" ;; stripped_or v "")%result as [e | claim];
    [reflexivity |].
  destruct (v <- obj_get c "claim_source" ;; stripped_or v "video")%result
    as [e | claim_source]; [reflexivity |].
  destruct (String.eqb claim ""); [reflexivity |].
  destruct (web_evidence_for_claim debug svc claim tr) as [[e | sources] tr1];
    [reflexivity |].
  destruct (negb (truthy (dict_get_default sources "results" JNull)));
    [reflexivity |].
  destruct (gemini_factcheck_one_claim debug svc claim claim_source sources tr1)
    as [[e | verdict] tr2]; [reflexivity |].
  destruct (backfill claim claim_source verdict); reflexivity.
Qed.

(** A search without results gives the verdict for it, and the iteration
    ends where the search ended: the reasoning stage is not called. *)
Lemma factcheck_claim_no_sources (c : json) (claim claim_source : string)
    (tr tr1 : trace) (sources : dict) :
  claim_text c = inr claim -> claim <> "" ->
  claim_source_of c = inr claim_source ->
  web_evidence_for_claim debug svc claim tr = (inr sources, tr1) ->
  truthy (dict_get_default sources "results" JNull) = false ->
  factcheck_claim debug svc c tr
  = (inr (Some (no_sources_verdict claim claim_source)), tr1).
Proof.
  intros Hc Hne Hs Hw Ht. rewrite factcheck_claim_steps, Hc, Hs.
  apply String.eqb_neq in Hne. rewrite Hne, Hw, Ht. reflexivity.
Qed.

(** A search that answers at once and finds nothing. *)
Lemma web_evidence_nothing_found (claim : string) (tr : trace) (res : json) :
  tavily_search svc tr claim = inr res ->
  py_iter (search_results res) = inr [] ->
  web_evidence_for_claim debug svc claim tr
  = (inr [("results", JArr [])], tr ++ [Searched claim]).
Proof.
  intros Hsearch Hiter. unfold web_evidence_for_claim, bind, with_retries.
  rewrite (@retry_loop_returns json debug _ 1 1 2 None tr (tr ++ [Searched claim]) res)
    by (unfold call; rewrite Hsearch; reflexivity).
  unfold lift. rewrite Hiter. reflexivity.
Qed.

(** A failed search ends the iteration with its exception. *)
Lemma factcheck_claim_search_raises (c : json) (claim claim_source : string)
    (tr tr1 : trace) (e : exn) :
  claim_text c = inr claim -> claim <> "" ->
  claim_source_of c = inr claim_source ->
  with_retries debug (call (fun t => tavily_search svc t claim) (Searched claim)) 3 1 tr
  = (inl e, tr1) ->
  factcheck_claim debug svc c tr = (inl e, tr1).
Proof.
  intros Hc Hne Hs Hw. rewrite factcheck_claim_steps, Hc, Hs.
  apply String.eqb_neq in Hne. rewrite Hne.
  unfold web_evidence_for_claim, bind. rewrite Hw. reflexivity.
Qed.

(** A failed reasoning call ends the iteration with its exception. *)
Lemma factcheck_claim_reasoning_raises (c : json) (claim claim_source : string)
    (tr tr1 tr2 : trace) (sources : dict) (e : exn) :
  claim_text c = inr claim -> claim <> "" ->
  claim_source_of c = inr claim_source ->
  web_evidence_for_claim debug svc claim tr = (inr sources, tr1) ->
  truthy (dict_get_default sources "results" JNull) = true ->
  gemini_json debug svc (factcheck_prompt svc claim claim_source sources) tr1
  = (inl e, tr2) ->
  factcheck_claim debug svc c tr = (inl e, tr2).
Proof.
  intros Hc Hne Hs Hw Ht Hg. rewrite factcheck_claim_steps, Hc, Hs.
  apply String.eqb_neq in Hne. rewrite Hne, Hw, Ht.
  unfold gemini_factcheck_one_claim. cbn [negb]. rewrite Hg. reflexivity.
Qed.

(** An answer that holds no JSON makes [gemini_json] raise, once the logger
    has returned and the model has answered. *)
Lemma gemini_json_no_json (f : string -> M unit) (prompt : string)
    (tr tr1 : trace) (resp : option string) (e : exn) :
  debug = Some f ->
  f "gemini_json() prompt length" tr = (inr tt, tr1) ->
  gemini_generate svc tr1 prompt = inr resp ->
  extract_json svc resp = inl e ->
  gemini_json debug svc prompt tr = (inl e, tr1 ++ [Generated prompt]).
Proof.
  intros Hd Hf Hg He. unfold gemini_json, bind, call_global, call, lift.
  rewrite Hd, Hf, Hg, He. reflexivity.
Qed.

(** What an iteration that returns has done. *)
Lemma factcheck_claim_inv (c : json) (tr tr' : trace) (v : option json) :
  factcheck_claim debug svc c tr = (inr v, tr') ->
  exists claim claim_source,
    claim_text c = inr claim /\ claim_source_of c = inr claim_source
    /\ ((claim = "" /\ v = None /\ tr' = tr)
        \/ (claim <> ""
            /\ exists sources tr1,
                web_evidence_for_claim debug svc claim tr = (inr sources, tr1)
                /\ ((truthy (dict_get_default sources "results" JNull) = false
                     /\ v = Some (no_sources_verdict claim claim_source)
                     /\ tr' = tr1)
                    \/ (truthy (dict_get_default sources "results" JNull) = true
                        /\ exists answer w,
                            gemini_factcheck_one_claim debug svc claim claim_source
                                                       sources tr1
                            = (inr answer, tr')
                            /\ backfill claim claim_source answer = inr w
                            /\ v = Some w)))).
Proof.
  rewrite factcheck_claim_steps.
  destruct (claim_text c) as [e | claim]; [discriminate |].
  destruct (claim_source_of c) as [e | claim_source]; [discriminate |].
  intros H. exists claim, claim_source. split; [reflexivity |].
  split; [reflexivity |].
  destruct (String.eqb_spec claim "") as [Heq | Hne].
  - left. split; [exact Heq |]. split; congruence.
  - right. split; [exact Hne |].
    destruct (web_evidence_for_claim debug svc claim tr) as [[e | sources] tr1];
      [discriminate |].
    exists sources, tr1. split; [reflexivity |].
    destruct (truthy (dict_get_default sources "results" JNull)); cbn [negb] in H.
    + right. split; [reflexivity |].
      destruct (gemini_factcheck_one_claim debug svc claim claim_source sources tr1)
        as [[e | answer] tr2]; [discriminate |].
      destruct (backfill claim claim_source answer) as [e | filled] eqn:Hb;
        [discriminate |].
      exists answer, filled. inversion H; subst.
      split; [reflexivity |]. split; [exact Hb | reflexivity].
    + left. inversion H; subst. repeat split; reflexivity.
Qed.

Lemma nonblank_claims_cons_blank (c : json) (rest : list json) (claim_source : string) :
  claim_text c = inr "" -> claim_source_of c = inr claim_source ->
  nonblank_claims (c :: rest) = nonblank_claims rest.
Proof. intros Hc Hs. cbn [nonblank_claims]. rewrite Hc, Hs. reflexivity. Qed.

Lemma nonblank_claims_cons (c : json) (rest : list json) (claim claim_source : string) :
  claim_text c = inr claim -> claim <> "" -> claim_source_of c = inr claim_source ->
  nonblank_claims (c :: rest) = (claim, claim_source) :: nonblank_claims rest.
Proof.
  intros Hc Hne Hs. cbn [nonblank_claims]. rewrite Hc, Hs.
  apply String.eqb_neq in Hne. rewrite Hne. reflexivity.
Qed.

(** The loop appends to what it has collected the verdicts of a run over
    its claims. *)
Lemma factcheck_loop_inv (claims : list json) :
  forall (out : list json) (tr : trace) (out' : list json) (tr' : trace),
    factcheck_loop debug svc claims out tr = (inr out', tr') ->
    exists verdicts,
      out' = out ++ verdicts
      /\ factcheck_run debug svc claims tr verdicts tr'.
Proof.
  induction claims as [| c rest IH]; intros out tr out' tr' H.
  - cbn in H. unfold ret in H. exists []. inversion H; subst.
    split; [rewrite app_nil_r; reflexivity | constructor].
  - cbn [factcheck_loop] in H. unfold bind in H.
    destruct (factcheck_claim debug svc c tr) as [[e | v] tr1] eqn:Hstep;
      [discriminate |].
    destruct (@factcheck_claim_inv _ _ _ _ Hstep)
      as (claim & claim_source & Hc & Hs
          & [(Hblank & Hv & Htr)
            | (Hne & sources & tr0 & Hw
               & [(Ht & Hv & Htr) | (Ht & answer & w & Hg & Hb & Hv)])]).
    + subst claim v tr1. destruct (IH _ _ _ _ H) as (verdicts & Hout & Hrun).
      exists verdicts. split; [exact Hout |].
      eapply run_blank; eassumption.
    + subst v tr1. destruct (IH _ _ _ _ H) as (verdicts & Hout & Hrun).
      exists (no_sources_verdict claim claim_source :: verdicts). split.
      * rewrite Hout, <- app_assoc. reflexivity.
      * eapply run_no_sources; eassumption.
    + subst v. destruct (IH _ _ _ _ H) as (verdicts & Hout & Hrun).
      exists (w :: verdicts). split.
      * rewrite Hout, <- app_assoc. reflexivity.
      * eapply run_reasoned; eassumption.
Qed.

(** A run over the claims is what the loop does. *)
Lemma factcheck_run_loop (claims : list json) (tr : trace)
    (verdicts : list json) (tr' : trace) :
  factcheck_run debug svc claims tr verdicts tr' ->
  forall out,
    factcheck_loop debug svc claims out tr = (inr (out ++ verdicts), tr').
Proof.
  induction 1 as [tr
                 | c claim_source rest tr verdicts tr' Hc Hs _ IH
                 | c claim claim_source sources rest tr tr1 verdicts tr'
                     Hc Hne Hs Hw Ht _ IH
                 | c claim claim_source sources answer v rest tr tr1 tr2
                     verdicts tr' Hc Hne Hs Hw Ht Hg Hb _ IH];
    intros out.
  - cbn. unfold ret. rewrite app_nil_r. reflexivity.
  - cbn [factcheck_loop]. unfold bind.
    rewrite factcheck_claim_steps, Hc, Hs. cbn [String.eqb]. apply IH.
  - cbn [factcheck_loop]. unfold bind.
    rewrite (@factcheck_claim_no_sources c claim claim_source tr tr1 sources
               Hc Hne Hs Hw Ht), IH, <- app_assoc.
    reflexivity.
  - cbn [factcheck_loop]. unfold bind.
    rewrite factcheck_claim_steps, Hc, Hs.
    apply String.eqb_neq in Hne. rewrite Hne, Hw, Ht. cbn [negb].
    rewrite Hg, Hb, IH, <- app_assoc. reflexivity.
Qed.

(** The verdicts of a run are the verdicts of the claims that are not
    blank, one for each, in claim order. *)
Lemma factcheck_run_verdicts (claims : list json) (tr : trace)
    (verdicts : list json) (tr' : trace) :
  factcheck_run debug svc claims tr verdicts tr' ->
  Forall2 (verdict_for debug svc) (nonblank_claims claims) verdicts.
Proof.
  induction 1 as [tr
                 | c claim_source rest tr verdicts tr' Hc Hs _ IH
                 | c claim claim_source sources rest tr tr1 verdicts tr'
                     Hc Hne Hs Hw Ht _ IH
                 | c claim claim_source sources answer v rest tr tr1 tr2
                     verdicts tr' Hc Hne Hs Hw Ht Hg Hb _ IH].
  - constructor.
  - rewrite (@nonblank_claims_cons_blank c rest _ Hc Hs). exact IH.
  - rewrite (@nonblank_claims_cons c rest _ _ Hc Hne Hs).
    constructor; [| exact IH]. left. exists tr, tr1, sources.
    repeat split; assumption.
  - rewrite (@nonblank_claims_cons c rest _ _ Hc Hne Hs).
    constructor; [| exact IH]. right. exists tr, tr1, tr2, sources, answer.
    repeat split; assumption.
Qed.

(** The loop over a list of claims, in two parts. *)
Lemma factcheck_loop_app (pre rest : list json) :
  forall (out : list json) (tr : trace) (out1 : list json) (tr1 : trace),
    factcheck_loop debug svc pre out tr = (inr out1, tr1) ->
    factcheck_loop debug svc (pre ++ rest) out tr
    = factcheck_loop debug svc rest out1 tr1.
Proof.
  induction pre as [| c pre IH]; intros out tr out1 tr1 H.
  - cbn in H. unfold ret in H. cbn [app]. congruence.
  - cbn [app factcheck_loop] in *. unfold bind in *.
    destruct (factcheck_claim debug svc c tr) as [[e | v] tr0]; [discriminate |].
    apply IH. exact H.
Qed.

(** An exception of one iteration leaves the loop, whatever the claims that
    precede it have yielded and whatever claims follow. *)
Lemma factcheck_loop_raises (pre post : list json) (c : json)
    (out out1 : list json) (tr tr1 tr2 : trace) (e : exn) :
  factcheck_loop debug svc pre out tr = (inr out1, tr1) ->
  factcheck_claim debug svc c tr1 = (inl e, tr2) ->
  factcheck_loop debug svc (pre ++ c :: post) out tr = (inl e, tr2).
Proof.
  intros Hpre Hc. rewrite (@factcheck_loop_app pre (c :: post) _ _ _ _ Hpre).
  cbn [factcheck_loop]. unfold bind. rewrite Hc. reflexivity.
Qed.

(** The loop returns when each of its iterations does. *)
Lemma factcheck_loop_returns (claims : list json) :
  (forall c tr, In c claims ->
     exists v tr', factcheck_claim debug svc c tr = (inr v, tr')) ->
  forall out tr, exists out' tr',
    factcheck_loop debug svc claims out tr = (inr out', tr').
Proof.
  induction claims as [| c rest IH]; intros Hall out tr.
  - exists out, tr. reflexivity.
  - destruct (Hall c tr (or_introl eq_refl)) as (v & tr1 & Hstep).
    cbn [factcheck_loop]. unfold bind. rewrite Hstep.
    apply IH. intros c' tr0 Hin. apply Hall. right. exact Hin.
Qed.

(** With a search that finds nothing, the loop returns the verdict for that
    case for each claim it does not skip, after one search for each. *)
Lemma factcheck_loop_nothing_found (claims : list json) :
  forallb wf_claim claims = true ->
  (forall tr q, exists res,
      tavily_search svc tr q = inr res /\ py_iter (search_results res) = inr []) ->
  forall out tr,
    factcheck_loop debug svc claims out tr
    = (inr (out ++ map (fun cs => no_sources_verdict (fst cs) (snd cs))
                       (nonblank_claims claims)),
       tr ++ map (fun cs => Searched (fst cs)) (nonblank_claims claims)).
Proof.
  intros Hwf Hsearch. induction claims as [| c rest IH]; intros out tr.
  - cbn. unfold ret. rewrite !app_nil_r. reflexivity.
  - cbn [forallb] in Hwf. apply andb_true_iff in Hwf. destruct Hwf as [Hc Hrest].
    unfold wf_claim in Hc.
    destruct (claim_text c) as [e | claim] eqn:Htext; [discriminate |].
    destruct (claim_source_of c) as [e | claim_source] eqn:Hsrc; [discriminate |].
    cbn [factcheck_loop]. unfold bind.
    destruct (String.eqb_spec claim "") as [Heq | Hne].
    + subst claim. rewrite factcheck_claim_steps, Htext, Hsrc. cbn [String.eqb].
      rewrite (@nonblank_claims_cons_blank c rest _ Htext Hsrc). apply IH. exact Hrest.
    + destruct (Hsearch tr claim) as (res & Hres & Hiter).
      rewrite (@factcheck_claim_no_sources c claim claim_source tr _ _ Htext Hne Hsrc
                 (@web_evidence_nothing_found claim tr res Hres Hiter) eq_refl).
      rewrite (@nonblank_claims_cons c rest _ _ Htext Hne Hsrc), (IH Hrest).
      cbn [map fst snd]. rewrite <- !app_assoc. reflexivity.
Qed.

(** A verdict made for a claim shows the text of that claim, or the
    ["claim"] of the answer it was filled from. *)
Lemma verdict_for_names_claim (cs : string * string) (v : json) :
  verdict_for debug svc cs v -> names_claim debug svc cs v.
Proof.
  intros [(tr & tr1 & sources & _ & _ & ->)
         | (tr & tr1 & tr2 & sources & answer & _ & _ & Hg & Hfill)].
  - eexists. split; [reflexivity |]. left. reflexivity.
  - destruct (backfill_keeps _ _ _ Hfill)
      as (d0 & d' & -> & -> & Hkeep & _ & _ & _ & Hclaim).
    exists d'. split; [reflexivity |].
    destruct (dict_get d0 "claim") as [x |] eqn:Hx.
    + right. exists sources, tr1, tr2, d0, x.
      split; [exact Hg |]. split; [exact Hx | exact (Hkeep _ _ Hx)].
    + left. exact (Hclaim eq_refl).
Qed.

End Factcheck.

(** C5, as the code has it: [gemini_factcheck] returns
    [{"results": verdicts}] exactly when the claims can be checked one after
    the other, in claim order, each claim starting where the one before it
    ended, and [verdicts] are the verdicts so obtained: none for a claim
    whose text is empty once stripped, and for every other claim the verdict
    made for the text of that very claim, at its place among them; it shows
    that text under ["claim"] unless the reasoning stage answered with a
    ["claim"] of its own.  So there is exactly one verdict for each claim
    that is not blank.  A claim whose
    search yields no result gets the verdict ["unclear"] with confidence 0,
    an empty correction and no citations, and the iteration ends where the
    search ended, without a call of the reasoning stage.  The function
    returns when each iteration returns; when every search finds nothing it
    returns these verdicts after one search for each claim it does not
    skip. *)
Theorem gemini_factcheck_one_verdict_per_claim
    (debug : option (string -> M unit)) (svc : services)
    (structured : dict) (claims : list json) :
  py_iter (py_or (dict_get_default structured "claims" (JArr [])) (JArr []))
  = inr claims ->
  (forall tr out tr',
      gemini_factcheck debug svc structured tr = (inr out, tr') <->
      exists verdicts,
        out = [("results", JArr verdicts)]
        /\ factcheck_run debug svc claims tr verdicts tr')
  /\ (forall tr verdicts tr',
      factcheck_run debug svc claims tr verdicts tr' ->
      Forall2 (verdict_for debug svc) (nonblank_claims claims) verdicts
      /\ Forall2 (names_claim debug svc) (nonblank_claims claims) verdicts
      /\ List.length verdicts = List.length (nonblank_claims claims))
  /\ (forall c claim claim_source tr sources tr1,
      claim_text c = inr claim -> claim <> "" ->
      claim_source_of c = inr claim_source ->
      web_evidence_for_claim debug svc claim tr = (inr sources, tr1) ->
      truthy (dict_get_default sources "results" JNull) = false ->
      factcheck_claim debug svc c tr
      = (inr (Some (JObj [("claim", JStr claim);
                          ("claim_source", JStr claim_source);
                          ("verdict", JStr "unclear");
                          ("confidence", JInt 0);
                          ("correct_information", JStr "");
                          ("explanation", JStr "No web sources found for this claim.");
                          ("citations", JArr [])])),
         tr1))
  /\ ((forall c tr, In c claims ->
         exists v tr', factcheck_claim debug svc c tr = (inr v, tr')) ->
      forall tr, exists out tr',
        gemini_factcheck debug svc structured tr = (inr out, tr'))
  /\ (forallb wf_claim claims = true ->
      (forall tr q, exists res,
          tavily_search svc tr q = inr res
          /\ py_iter (search_results res) = inr []) ->
      forall tr,
        gemini_factcheck debug svc structured tr
        = (inr [("results",
                 JArr (map (fun cs => no_sources_verdict (fst cs) (snd cs))
                           (nonblank_claims claims)))],
           tr ++ map (fun cs => Searched (fst cs)) (nonblank_claims claims))).
Proof.
  intros Hclaims. unfold gemini_factcheck, bind, lift. rewrite Hclaims.
  split; [| split; [| split; [| split]]].
  - intros tr out tr'. split.
    + intros H.
      destruct (factcheck_loop debug svc claims [] tr)
        as [[e | verdicts] tr1] eqn:Hloop; [discriminate |].
      destruct (@factcheck_loop_inv debug svc claims [] tr verdicts tr1 Hloop)
        as (vs & Hout & Hrun).
      cbn [app] in Hout. subst vs. unfold ret in H. inversion H; subst.
      exists verdicts. split; [reflexivity | exact Hrun].
    + intros (verdicts & -> & Hrun).
      rewrite (@factcheck_run_loop debug svc claims tr verdicts tr' Hrun []).
      reflexivity.
  - intros tr verdicts tr' Hrun.
    pose proof (@factcheck_run_verdicts debug svc claims tr verdicts tr' Hrun)
      as Hall.
    split; [exact Hall |].
    split; [| symmetry; exact (Forall2_length Hall)].
    eapply Forall2_impl; [| exact Hall].
    intros cs v Hv. exact (verdict_for_names_claim Hv).
  - intros c claim claim_source tr sources tr1 Hc Hne Hs Hw Ht.
    exact (@factcheck_claim_no_sources debug svc c claim claim_source tr tr1 sources
             Hc Hne Hs Hw Ht).
  - intros Hall tr.
    destruct (@factcheck_loop_returns debug svc claims Hall [] tr)
      as (out & tr' & Hloop).
    rewrite Hloop. eexists. eexists. reflexivity.
  - intros Hwf Hsearch tr.
    rewrite (@factcheck_loop_nothing_found debug svc claims Hwf Hsearch [] tr).
    reflexivity.
Qed.

Lemma gemini_factcheck_one_verdict_per_claim_witness :
  gemini_factcheck backend_debug no_results_services three_claims []
  = (inr [("results", JArr [no_sources_verdict "The sky is green" "video";
                            no_sources_verdict "Water is dry" "caption"])],
     [Searched "The sky is green"; Searched "Water is dry"]).
Proof.
  exact (proj2 (proj2 (proj2 (proj2
           (@gemini_factcheck_one_verdict_per_claim backend_debug
              no_results_services three_claims _ eq_refl))))
           eq_refl
           (fun _ _ => ex_intro _ no_results (conj eq_refl eq_refl))
           []).
Defined.

(** C5 as stated fails.  A claim whose text is three spaces has a
    non-empty text and yields no verdict: the list has length 0 for one
    such claim.  And the function does not return for every input: when
    the search service is down it raises, with the logger bound
    ([RuntimeError] once the attempts are used up) and with the module as
    it is ([NameError] in the handler of the first failure). *)
Lemma gemini_factcheck_length_counterexample :
  py_iter (py_or (dict_get_default blank_claim "claims" (JArr [])) (JArr []))
  = inr [JObj [("claim", JStr "   ")]]
  /\ List.length (filter nonempty_text [JObj [("claim", JStr "   ")]]) = 1%nat
  /\ gemini_factcheck backend_debug no_results_services blank_claim []
     = (inr [("results", JArr [])], [])
  /\ fst (gemini_factcheck silent_debug down_services one_claim [])
     = inl (Exn RuntimeError "Failed after retries: unavailable")
  /\ fst (gemini_factcheck backend_debug down_services one_claim [])
     = inl (Exn NameError "name 'debug' is not defined").
Proof. repeat split. Qed.

(** C3, as the code has it: [gemini_factcheck] has no handler, so a failure
    while one claim is checked ends the whole run with that exception and
    no list of verdicts.  This holds for a search whose attempts are used
    up, for a failing reasoning call, and for an answer of the model that
    holds no JSON; it holds whatever the claims before have yielded and
    whatever claims follow.  The one case that degrades to ["unclear"] with
    confidence 0 and a note is a search that returns and finds nothing. *)
Theorem gemini_factcheck_failure_propagates
    (debug : option (string -> M unit)) (svc : services) :
  (forall c claim claim_source tr e tr1,
      claim_text c = inr claim -> claim <> "" ->
      claim_source_of c = inr claim_source ->
      with_retries debug (call (fun t => tavily_search svc t claim) (Searched claim))
                   3 1 tr = (inl e, tr1) ->
      factcheck_claim debug svc c tr = (inl e, tr1))
  /\ (forall c claim claim_source tr sources tr1 e tr2,
      claim_text c = inr claim -> claim <> "" ->
      claim_source_of c = inr claim_source ->
      web_evidence_for_claim debug svc claim tr = (inr sources, tr1) ->
      truthy (dict_get_default sources "results" JNull) = true ->
      gemini_json debug svc (factcheck_prompt svc claim claim_source sources) tr1
      = (inl e, tr2) ->
      factcheck_claim debug svc c tr = (inl e, tr2))
  /\ (forall f prompt tr tr1 resp e,
      debug = Some f ->
      f "gemini_json() prompt length" tr = (inr tt, tr1) ->
      gemini_generate svc tr1 prompt = inr resp ->
      extract_json svc resp = inl e ->
      gemini_json debug svc prompt tr = (inl e, tr1 ++ [Generated prompt]))
  /\ (forall structured pre c post out1 tr tr1 tr2 e,
      py_iter (py_or (dict_get_default structured "claims" (JArr [])) (JArr []))
      = inr (pre ++ c :: post) ->
      factcheck_loop debug svc pre [] tr = (inr out1, tr1) ->
      factcheck_claim debug svc c tr1 = (inl e, tr2) ->
      gemini_factcheck debug svc structured tr = (inl e, tr2))
  /\ (forall c claim claim_source tr sources tr1,
      claim_text c = inr claim -> claim <> "" ->
      claim_source_of c = inr claim_source ->
      web_evidence_for_claim debug svc claim tr = (inr sources, tr1) ->
      truthy (dict_get_default sources "results" JNull) = false ->
      factcheck_claim debug svc c tr
      = (inr (Some (JObj [("claim", JStr claim);
                          ("claim_source", JStr claim_source);
                          ("verdict", JStr "unclear");
                          ("confidence", JInt 0);
                          ("correct_information", JStr "");
                          ("explanation", JStr "No web sources found for this claim.");
                          ("citations", JArr [])])),
         tr1)).
Proof.
  split; [| split; [| split; [| split]]].
  - intros c claim claim_source tr e tr1 Hc Hne Hs Hw.
    exact (@factcheck_claim_search_raises debug svc c claim claim_source tr tr1 e
             Hc Hne Hs Hw).
  - intros c claim claim_source tr sources tr1 e tr2 Hc Hne Hs Hw Ht Hg.
    exact (@factcheck_claim_reasoning_raises debug svc c claim claim_source
             tr tr1 tr2 sources e Hc Hne Hs Hw Ht Hg).
  - intros f prompt tr tr1 resp e Hd Hf Hg He.
    exact (@gemini_json_no_json debug svc f prompt tr tr1 resp e Hd Hf Hg He).
  - intros structured pre c post out1 tr tr1 tr2 e Hclaims Hpre Hc.
    unfold gemini_factcheck, bind, lift. rewrite Hclaims.
    rewrite (@factcheck_loop_raises debug svc pre post c [] out1 tr tr1 tr2 e Hpre Hc).
    reflexivity.
  - intros c claim claim_source tr sources tr1 Hc Hne Hs Hw Ht.
    exact (@factcheck_claim_no_sources debug svc c claim claim_source tr tr1 sources
             Hc Hne Hs Hw Ht).
Qed.

Lemma gemini_factcheck_failure_propagates_witness :
  gemini_factcheck silent_debug down_services one_claim []
  = (inl (Exn RuntimeError "Failed after retries: unavailable"),
     [Searched "The sky is green"; Slept 1;
      Searched "The sky is green"; Slept 2;
      Searched "The sky is green"; Slept 4]).
Proof.
  exact (proj1 (proj2 (proj2 (proj2
           (@gemini_factcheck_failure_propagates silent_debug down_services))))
           one_claim [] (JObj [("claim", JStr "The sky is green")]) []
           [] [] [] _ _ eq_refl eq_refl eq_refl).
Defined.

(** C3 as stated fails.  With one claim, a search service that is down ends
    the run with the [RuntimeError] of the retry helper, and an answer of
    the reasoning stage that holds no JSON ends it with [ValueError]; no
    verdict is produced.  That is so with the logger bound; the module as
    it is raises [NameError] in both runs. *)
Lemma gemini_factcheck_aborts_counterexample :
  fst (gemini_factcheck silent_debug down_services one_claim [])
  = inl (Exn RuntimeError "Failed after retries: unavailable")
  /\ fst (gemini_factcheck silent_debug chatty_services one_claim [])
     = inl (Exn ValueError ("Gemini did not return valid JSON." ++ nl ++ "Raw:"
                            ++ nl ++ "I cannot verify this claim.")%string)
  /\ fst (gemini_factcheck backend_debug down_services one_claim [])
     = inl (Exn NameError "name 'debug' is not defined")
  /\ fst (gemini_factcheck backend_debug chatty_services one_claim [])
     = inl (Exn NameError "name 'debug' is not defined").
Proof. repeat split. Qed.

(** ** Runs of the detector and of the retry helper *)

(** The upload service is down: the detector returns the neutral result
    with the message of the failure, after the one upload call. *)
Lemma check_video_synthid_neutral_on_failure_witness :
  check_video_synthid down_services 0 "clip.mp4" JNull "" []
  = Some (JObj [("is_ai", JBool false); ("trust_score", JInt 50);
                ("confidence", JInt 50); ("note", JStr "Error: unavailable")],
          [Uploaded "clip.mp4"]).
Proof.
  exact (proj1 (@check_video_synthid_neutral_on_failure down_services
                  "clip.mp4" JNull "")
           0%nat [] (Exn ServiceError "unavailable") eq_refl).
Defined.

(** A search that fails once and would succeed at its second call, run with
    a ceiling of four attempts: the module as it is raises [NameError] after
    the first call. *)
Lemma with_retries_unbound_debug_witness :
  with_retries backend_debug (flaky "q" 1 (Exn ServiceError "503") 7) 4 (3 # 2) []
  = (inl (Exn NameError "name 'debug' is not defined"), [Searched "q"]).
Proof.
  apply (@with_retries_unbound_debug Z (flaky "q" 1 (Exn ServiceError "503") 7)
           3 (3 # 2) [] [Searched "q"] (Exn ServiceError "503")).
  - reflexivity.
  - discriminate.
Defined.

(** With the logger bound, a search that fails twice under a ceiling of four
    attempts returns its value after two sleeps, of 1.5 and 3 seconds. *)
Lemma with_retries_with_logger_witness :
  with_retries silent_debug (flaky "q" 2 (Exn ServiceError "503") 7) 4 (3 # 2) []
  = (inr 7, [Searched "q"; Slept (backoff (3 # 2) 1);
             Searched "q"; Slept (backoff (3 # 2) 2);
             Searched "q"])
  /\ sleeps_of (retry_events "q" (3 # 2) 1 2)
     = [backoff (3 # 2) 1; backoff (3 # 2) 2].
Proof.
  apply (@with_retries_with_logger Z "q" 2 (Exn ServiceError "503") 7 (3 # 2)).
  - discriminate.
  - discriminate.
  - reflexivity.
  - lia.
Defined.

(** A [TypeError] of the first call leaves the helper at once. *)
Lemma with_retries_reraises_TypeError_witness :
  with_retries backend_debug
    (flaky "q" 1 (Exn TypeError "unexpected keyword argument") 7) 4 (3 # 2) []
  = (inl (Exn TypeError "unexpected keyword argument"), [Searched "q"]).
Proof.
  apply (@with_retries_reraises_TypeError Z backend_debug
           (flaky "q" 1 (Exn TypeError "unexpected keyword argument") 7)
           3 (3 # 2) [] [Searched "q"] (Exn TypeError "unexpected keyword argument")).
  - reflexivity.
  - reflexivity.
Defined.

(** The second sleep is longer than the first. *)
Lemma backoff_increasing_witness :
  (backoff (3 # 2) 1 < backoff (3 # 2) 2)%Q.
Proof.
  apply (@backoff_increasing (3 # 2) 1).
  - reflexivity.
  - lia.
Defined.

(** [gemini_json] as the module has it: its first statement calls the
    unbound name [debug], so every call raises [NameError] before the model
    is asked. *)
Lemma gemini_json_unbound_debug (svc : services) (prompt : string) (tr : trace) :
  gemini_json backend_debug svc prompt tr
  = (inl (Exn NameError "name 'debug' is not defined"), tr).
Proof. reflexivity. Qed.

(** ** More on the final scoring *)

(** The verdict as a function of its three inputs, for a count that is not
    negative: the last [else] of the cascade is never taken. *)
Lemma verdict_of_real_iff (f t risk : Z) :
  0 <= f ->
  (verdict_of f t risk = "REAL" <-> f = 0 /\ t < 60 /\ risk < 70)
  /\ (verdict_of f t risk = "FAKE" ->
      (1 <= f \/ 60 <= t) /\ (2 <= f \/ 75 <= risk))
  /\ (verdict_of f t risk = "REAL" \/ verdict_of f t risk = "MISLEADING"
      \/ verdict_of f t risk = "FAKE").
Proof.
  intros Hf. unfold verdict_of.
  destruct (Z.eqb_spec f 0) as [Hf0 | Hf0];
    destruct (Z.ltb_spec t 60) as [Ht | Ht];
    destruct (Z.ltb_spec risk 70) as [Hr | Hr];
    destruct (Z.leb_spec 2 f) as [Hf2 | Hf2];
    destruct (Z.leb_spec 75 risk) as [Hr75 | Hr75];
    destruct (Z.leb_spec 1 f) as [Hf1 | Hf1];
    destruct (Z.leb_spec 50 risk) as [Hr50 | Hr50];
    destruct (Z.leb_spec 60 t) as [Ht60 | Ht60];
    cbn [andb orb]; try (exfalso; lia);
    (split; [split; [intros H; try discriminate H; try lia
                    | intros H; try reflexivity; exfalso; lia]
            | split; [intros H; try discriminate H; lia
                     | auto]]).
Qed.

(** The verdict REAL is returned exactly when no verdict is false or mixed,
    the timeline score is below 60 and the risk is below 70; the final
    [else: verdict = "REAL"] of the cascade is never reached.  FAKE needs a
    false or mixed verdict or a timeline score of at least 60.  No other
    verdict than REAL, MISLEADING and FAKE is returned. *)
Theorem compute_final_real_iff (factcheck splice timing : dict) (fv : final_verdict) :
  compute_final factcheck splice timing = inr fv ->
  (verdict fv = "REAL" <->
     false_or_mixed_claims fv = 0
     /\ timeline_mismatch_risk_score fv < 60
     /\ misinformation_risk_score fv < 70)
  /\ (verdict fv = "FAKE" ->
      (1 <= false_or_mixed_claims fv \/ 60 <= timeline_mismatch_risk_score fv)
      /\ (2 <= false_or_mixed_claims fv \/ 75 <= misinformation_risk_score fv))
  /\ (verdict fv = "REAL" \/ verdict fv = "MISLEADING" \/ verdict fv = "FAKE").
Proof.
  intros H.
  destruct (compute_final_inv _ _ _ H)
    as (results & _ & Hfm & _ & _ & _ & _ & Hv & _).
  rewrite Hv. apply verdict_of_real_iff.
  rewrite Hfm. apply count_where_nonneg.
Qed.

Lemma compute_final_real_iff_witness :
  exists fv,
    compute_final [("results", JArr [JObj [("verdict", JStr "unclear")]])]
                  [("splice_risk_score", JInt 100)]
                  [("timeline_mismatch_risk_score", JInt 59)] = inr fv
    /\ verdict fv = "REAL"
    /\ false_or_mixed_claims fv = 0
    /\ timeline_mismatch_risk_score fv < 60
    /\ misinformation_risk_score fv < 70.
Proof.
  eexists. split; [reflexivity |].
  split; [reflexivity |].
  exact (proj1 (proj1 (@compute_final_real_iff
                         [("results", JArr [JObj [("verdict", JStr "unclear")]])]
                         [("splice_risk_score", JInt 100)]
                         [("timeline_mismatch_risk_score", JInt 59)] _ eq_refl))
           eq_refl).
Defined.

(** What [compute_final] does with well-formed results, as a function of
    the two counts. *)
Lemma compute_final_by_counts (factcheck splice timing : dict) (results : list json) :
  results_list factcheck = Some results ->
  forallb wf_result results = true ->
  average_in_range results = true ->
  compute_final factcheck splice timing =
  (splice_score <- score_field splice "splice_risk_score" ;;
   time_score <- score_field timing "timeline_mismatch_risk_score" ;;
   risk <- risk_of splice_score time_score
                   (countFalseOrMixed results) (countUnclear results) ;;
   confidence <- confidence_of risk ;;
   ok {| verdict := verdict_of (countFalseOrMixed results) time_score risk;
         confidence_percent := confidence;
         misinformation_risk_score := risk;
         false_or_mixed_claims := countFalseOrMixed results;
         unclear_claims := countUnclear results;
         splice_risk_score := splice_score;
         timeline_mismatch_risk_score := time_score;
         likely_event_year := dict_get timing "likely_event_year";
         posted_date := dict_get timing "posted_date" |})%result.
Proof.
  intros Hres Hwf Hsmall. unfold compute_final.
  rewrite (py_iter_results_list _ Hres). cbn [rbind].
  rewrite !(count_verdicts_wf _ _ Hwf). cbn [rbind].
  destruct (average_confidence_wf _ Hwf Hsmall) as [avg Havg]. rewrite Havg.
  reflexivity.
Qed.

(** The verdict, the confidence, the risk score and the counts and scores
    returned depend on the results only through the number of false or
    mixed verdicts and the number of unclear ones: two well-formed result
    lists with the same two counts, each with a confidence sum and a length
    below [2^53] so that the average of line 515 is defined, give the same
    values or the same exception, whatever their order, their other
    verdicts and their other fields. *)
Theorem compute_final_depends_on_counts (factcheck1 factcheck2 splice timing : dict)
    (results1 results2 : list json) :
  results_list factcheck1 = Some results1 ->
  results_list factcheck2 = Some results2 ->
  forallb wf_result results1 = true ->
  forallb wf_result results2 = true ->
  average_in_range results1 = true ->
  average_in_range results2 = true ->
  countFalseOrMixed results1 = countFalseOrMixed results2 ->
  countUnclear results1 = countUnclear results2 ->
  compute_final factcheck1 splice timing = compute_final factcheck2 splice timing.
Proof.
  intros H1 H2 Hwf1 Hwf2 Hs1 Hs2 Hfm Hun.
  rewrite (@compute_final_by_counts factcheck1 splice timing results1 H1 Hwf1 Hs1).
  rewrite (@compute_final_by_counts factcheck2 splice timing results2 H2 Hwf2 Hs2).
  rewrite Hfm, Hun. reflexivity.
Qed.

Lemma compute_final_depends_on_counts_witness :
  compute_final
    [("results", JArr [JObj [("verdict", JStr "false"); ("confidence", JInt 80)];
                       JObj [("verdict", JStr "unclear")]])]
    [("splice_risk_score", JInt 40)] []
  = compute_final
      [("results", JArr [JObj [("verdict", JStr "true"); ("confidence", JInt 95)];
                         JObj [("verdict", JStr "unclear"); ("claim", JStr "x")];
                         JObj [];
                         JObj [("verdict", JStr "mixed")]])]
      [("splice_risk_score", JInt 40)] [].
Proof.
  apply (@compute_final_depends_on_counts _ _ [("splice_risk_score", JInt 40)] []
           [JObj [("verdict", JStr "false"); ("confidence", JInt 80)];
            JObj [("verdict", JStr "unclear")]]
           [JObj [("verdict", JStr "true"); ("confidence", JInt 95)];
            JObj [("verdict", JStr "unclear"); ("claim", JStr "x")];
            JObj [];
            JObj [("verdict", JStr "mixed")]]);
    reflexivity.
Defined.

(** The average of line 515 is a true division of two [int]s: a confidence
    of [2^1024] in the only result is beyond the floats and makes
    [compute_final] raise [OverflowError], whatever the verdicts and the
    scores; with [2^1023] it returns.  With two results the same sum
    [2^1024] has an average within range, and the function returns. *)
Theorem compute_final_average_overflows :
  (forall splice timing,
      compute_final [("results", JArr [JObj [("verdict", JStr "true");
                                             ("confidence", JInt (2 ^ 1024))]])]
                    splice timing
      = raise OverflowError "integer division result too large for a float")
  /\ (exists fv,
        compute_final [("results", JArr [JObj [("verdict", JStr "true");
                                               ("confidence", JInt (2 ^ 1023))]])]
                      [] [] = inr fv
        /\ verdict fv = "REAL")
  /\ (exists fv,
        compute_final [("results", JArr [JObj [("confidence", JInt (2 ^ 1023))];
                                         JObj [("confidence", JInt (2 ^ 1023))]])]
                      [] [] = inr fv
        /\ verdict fv = "REAL").
Proof.
  split; [| split].
  - intros splice timing. unfold compute_final.
    cbn [py_iter dict_get_default dict_get String.eqb Ascii.eqb Bool.eqb rbind ok].
    replace (average_confidence
               [JObj [("verdict", JStr "true"); ("confidence", JInt (2 ^ 1024))]])
      with (@raise float OverflowError
              "integer division result too large for a float")
      by (vm_compute; reflexivity).
    reflexivity.
  - eexists. split; [vm_compute; reflexivity | reflexivity].
  - eexists. split; [vm_compute; reflexivity | reflexivity].
Qed.

Lemma confidence_ranges_ok : forallb confidence_range_ok (zrange 101) = true.
Proof. vm_compute. reflexivity. Qed.

Lemma confidence_steps_ok : forallb confidence_step_ok (zrange 100) = true.
Proof. vm_compute. reflexivity. Qed.

(** The confidence does not go up when the risk does, over the risk range. *)
Lemma confidence_of_antitone (d : nat) :
  forall r c c', 0 <= r -> r + Z.of_nat d <= 100 ->
    confidence_of r = inr c -> confidence_of (r + Z.of_nat d) = inr c' ->
    c' <= c.
Proof.
  induction d as [| d IH]; intros r c c' Hr Hd Hc Hc'.
  - replace (r + Z.of_nat 0) with r in Hc' by lia.
    rewrite Hc in Hc'. inversion Hc'. lia.
  - assert (Hin : In r (zrange 100)) by (apply in_zrange; lia).
    pose proof (proj1 (forallb_forall confidence_step_ok (zrange 100))
                      confidence_steps_ok r Hin) as Hstep.
    unfold confidence_step_ok in Hstep. rewrite Hc in Hstep.
    destruct (confidence_of (r + 1)) as [e | c1] eqn:Hc1; [discriminate |].
    apply Z.leb_le in Hstep.
    replace (r + Z.of_nat (S d)) with (r + 1 + Z.of_nat d) in Hc' by lia.
    pose proof (IH (r + 1) c1 c' ltac:(lia) ltac:(lia) Hc1 Hc'). lia.
Qed.

(** The confidence returned lies in [50, 90]: the upper bound 95 of the
    clamp is never reached.  It is 50 exactly when the risk score is at
    least 66.  Of two returned verdicts, the one with the higher risk score
    has no higher confidence. *)
Theorem compute_final_confidence_antitone (factcheck splice timing : dict)
    (fv : final_verdict) :
  compute_final factcheck splice timing = inr fv ->
  50 <= confidence_percent fv <= 90
  /\ (confidence_percent fv = 50 <-> 66 <= misinformation_risk_score fv)
  /\ (forall factcheck' splice' timing' fv',
        compute_final factcheck' splice' timing' = inr fv' ->
        misinformation_risk_score fv <= misinformation_risk_score fv' ->
        confidence_percent fv' <= confidence_percent fv).
Proof.
  intros H.
  destruct (compute_final_inv _ _ _ H)
    as (results & _ & _ & _ & _ & _ & Hrisk & _ & Hconf).
  pose proof (risk_of_bounds _ _ _ _ Hrisk) as Hb.
  assert (Hin : In (misinformation_risk_score fv) (zrange 101))
    by (apply in_zrange; lia).
  pose proof (proj1 (forallb_forall confidence_range_ok (zrange 101))
                    confidence_ranges_ok _ Hin) as Hok.
  unfold confidence_range_ok in Hok. rewrite Hconf in Hok.
  apply andb_true_iff in Hok. destruct Hok as [Hok Heq].
  apply andb_true_iff in Hok. destruct Hok as [Hlo Hhi].
  apply Z.leb_le in Hlo. apply Z.leb_le in Hhi. apply Bool.eqb_prop in Heq.
  split; [lia |]. split.
  - split; intros Hc.
    + apply Z.leb_le. rewrite <- Heq. apply Z.eqb_eq. exact Hc.
    + apply Z.eqb_eq. rewrite Heq. apply Z.leb_le. exact Hc.
  - intros factcheck' splice' timing' fv' H' Hle.
    destruct (compute_final_inv _ _ _ H')
      as (results' & _ & _ & _ & _ & _ & Hrisk' & _ & Hconf').
    pose proof (risk_of_bounds _ _ _ _ Hrisk') as Hb'.
    set (d := Z.to_nat (misinformation_risk_score fv' - misinformation_risk_score fv)).
    assert (Hd : misinformation_risk_score fv'
                 = misinformation_risk_score fv + Z.of_nat d) by (subst d; lia).
    rewrite Hd in Hconf'.
    apply (@confidence_of_antitone d (misinformation_risk_score fv)
             (confidence_percent fv) (confidence_percent fv'));
      try assumption; lia.
Qed.

Lemma compute_final_confidence_antitone_witness :
  exists fv,
    compute_final [("results", JArr [JObj [("verdict", JStr "false")];
                                     JObj [("verdict", JStr "mixed")];
                                     JObj [("verdict", JStr "false")];
                                     JObj [("verdict", JStr "false")];
                                     JObj [("verdict", JStr "false")]])] [] []
    = inr fv
    /\ misinformation_risk_score fv = 70
    /\ confidence_percent fv = 50.
Proof.
  eexists. split; [reflexivity |]. split; [reflexivity |].
  apply (proj1 (proj2 (@compute_final_confidence_antitone
                         [("results", JArr [JObj [("verdict", JStr "false")];
                                            JObj [("verdict", JStr "mixed")];
                                            JObj [("verdict", JStr "false")];
                                            JObj [("verdict", JStr "false")];
                                            JObj [("verdict", JStr "false")]])]
                         [] [] _ eq_refl))).
  vm_compute. discriminate.
Defined.

(** ** More on the trimming of web evidence *)

Lemma dict_set_keys (d : dict) (k : string) (v v0 : json) :
  dict_get d k = Some v0 -> map fst (dict_set d k v) = map fst d.
Proof.
  induction d as [| [k1 v1] d IH]; cbn [dict_set dict_get]; [discriminate |].
  destruct (String.eqb k1 k); intros H; cbn [map fst]; [reflexivity |].
  rewrite (IH H). reflexivity.
Qed.

Lemma dict_set_set (d : dict) (k : string) (v v' : json) :
  dict_set (dict_set d k v) k v' = dict_set d k v'.
Proof.
  induction d as [| [k1 v1] d IH]; cbn [dict_set].
  - rewrite String.eqb_refl. reflexivity.
  - destruct (String.eqb k1 k) eqn:E; cbn [dict_set]; rewrite E;
      [reflexivity | rewrite IH; reflexivity].
Qed.

Lemma take_trimmed (s : string) :
  (WEB_CONTENT_TRIM_CHARS < String.length s)%nat ->
  take WEB_CONTENT_TRIM_CHARS (take WEB_CONTENT_TRIM_CHARS s +++ "...")
  = take WEB_CONTENT_TRIM_CHARS s.
Proof.
  intros H.
  assert (Hlen : String.length (take WEB_CONTENT_TRIM_CHARS s) = WEB_CONTENT_TRIM_CHARS)
    by (rewrite take_length; lia).
  rewrite <- Hlen at 1. apply take_app.
Qed.

Lemma content_of_present (d : dict) (s : string) :
  content_of d = JStr s -> s <> ""%string ->
  exists v0, dict_get d "content" = Some v0.
Proof.
  unfold content_of, dict_get_default, py_or.
  destruct (dict_get d "content") as [v0 |]; [intros _ _; eexists; reflexivity |].
  cbn [truthy]. intros H Hne. inversion H. congruence.
Qed.

(** For a search result that is a dict, the loop body of
    [web_evidence_for_claim] changes nothing but the content: the trimmed
    result is a dict with the keys of the search result in their order and
    its value at every key other than ["content"]; and trimming a trimmed
    result leaves it as it is. *)
Theorem trim_result_frame (d : dict) (r' : json) :
  trim_result (JObj d) = inr r' ->
  (exists d',
      r' = JObj d'
      /\ map fst d' = map fst d
      /\ forall k, k <> "content"%string -> dict_get d' k = dict_get d k)
  /\ trim_result r' = inr r'.
Proof.
  intros H. destruct (trim_result_trimmed _ H) as (d0 & Hr & Hcase).
  inversion Hr; subst d0. clear Hr. unfold content_of in Hcase.
  assert (Hsame : r' = JObj d ->
            (exists d',
                r' = JObj d'
                /\ map fst d' = map fst d
                /\ forall k, k <> "content"%string -> dict_get d' k = dict_get d k)
            /\ trim_result r' = inr r').
  { intros ->. split; [| exact H]. exists d. repeat split; reflexivity. }
  destruct (py_or (dict_get_default d "content" JNull) (JStr "")) as
      [| b | z | s | l | f] eqn:Hcontent; try (apply Hsame; exact Hcase).
  destruct (Nat.leb_spec (String.length s) WEB_CONTENT_TRIM_CHARS) as [Hle | Hgt];
    [apply Hsame; exact Hcase |].
  clear Hsame H. subst r'.
  assert (Hne : s <> ""%string).
  { intros Heq. rewrite Heq in Hgt. cbn [String.length] in Hgt. lia. }
  destruct (content_of_present d Hcontent Hne) as [v0 Hv0].
  split.
  - eexists. split; [reflexivity |].
    split; [exact (dict_set_keys d "content" _ Hv0) |].
    intros k Hk. apply dict_get_set_other. exact Hk.
  - unfold trim_result. cbn [dict_copy]. unfold rbind, ok. cbv beta iota.
    unfold dict_get_default. rewrite dict_get_set.
    assert (Hlen : String.length (take WEB_CONTENT_TRIM_CHARS s +++ "...")
                   = (WEB_CONTENT_TRIM_CHARS + 3)%nat)
      by (apply trimmed_length; exact Hgt).
    assert (Htruthy : truthy (JStr (take WEB_CONTENT_TRIM_CHARS s +++ "...")) = true).
    { cbn [truthy]. apply negb_true_iff. apply String.eqb_neq.
      intros Heq. rewrite Heq in Hlen. cbn [String.length] in Hlen. lia. }
    unfold py_or. rewrite Htruthy. cbn [py_len]. unfold ok. cbv beta iota.
    rewrite Hlen.
    replace (WEB_CONTENT_TRIM_CHARS <? WEB_CONTENT_TRIM_CHARS + 3)%nat with true
      by (symmetry; apply Nat.ltb_lt; lia).
    rewrite (take_trimmed _ Hgt), dict_set_set. reflexivity.
Qed.

Lemma trim_result_frame_witness :
  trim_result (JObj [("url", JStr "https://example.org");
                      ("content", JStr (repeat_char "a" 3500 ++ "..."))])
  = inr (JObj [("url", JStr "https://example.org");
               ("content", JStr (repeat_char "a" 3500 ++ "..."))]).
Proof.
  apply (proj2 (@trim_result_frame
                  [("url", JStr "https://example.org");
                   ("content", JStr (repeat_char "a" 3501))]
                  _ ltac:(vm_compute; reflexivity))).
Defined.

(** A search result that is not a dict goes through [dict(r)] all the same:
    an empty list or an empty string is passed on as an empty dict, a list
    of pairs as the dict of these pairs, with its content trimmed like any
    other; a string that is not empty raises [ValueError], and [None], a
    number or a boolean raises [TypeError]. *)
Theorem trim_result_not_a_dict :
  trim_result (JArr []) = inr (JObj [])
  /\ trim_result (JStr "") = inr (JObj [])
  /\ trim_result (JArr [JStr "ab"; JObj [("x", JInt 1); ("y", JInt 2)]])
     = inr (JObj [("a", JStr "b"); ("x", JStr "y")])
  /\ trim_result (JArr [JArr [JStr "content"; JStr (repeat_char "a" 3501)];
                        JArr [JStr "url"; JStr "u"];
                        JArr [JStr "url"; JStr "v"]])
     = inr (JObj [("content", JStr (repeat_char "a" 3500 ++ "..."));
                  ("url", JStr "v")])
  /\ (forall c s, exists msg,
        trim_result (JStr (String c s)) = inl (Exn ValueError msg))
  /\ (exists msg, trim_result JNull = inl (Exn TypeError msg))
  /\ (forall n, exists msg, trim_result (JInt n) = inl (Exn TypeError msg))
  /\ (forall b, exists msg, trim_result (JBool b) = inl (Exn TypeError msg)).
Proof.
  repeat match goal with |- _ /\ _ => split end;
    try (vm_compute; reflexivity).
  - intros c s. eexists. unfold trim_result.
    cbn [dict_copy chars_of dict_of_pairs py_iter rbind]. reflexivity.
  - eexists; reflexivity.
  - intros n. eexists; reflexivity.
  - intros b. eexists; reflexivity.
Qed.

(** ** The user report *)

Lemma corrections_loop_inv (results : list json) :
  forall acc out,
    corrections_loop results acc = inr out ->
    out = acc ++ corrections_for results
    /\ Forall (fun r => exists d, r = JObj d) results.
Proof.
  induction results as [| r rest IH]; intros acc out H.
  - inversion H. cbn. rewrite app_nil_r. split; [reflexivity | constructor].
  - destruct r as [| b | z | str | l | d]; try discriminate H.
    cbn [corrections_loop] in H. cbn [corrections_for flat_map verdict_in].
    destruct (existsb (json_is_str (dict_get d "verdict")) ["false"; "mixed"]).
    + destruct (IH _ _ H) as [Hout Hall]. split.
      * rewrite Hout, <- app_assoc. reflexivity.
      * constructor; [eexists; reflexivity | exact Hall].
    + destruct (IH _ _ H) as [Hout Hall]. split; [exact Hout |].
      constructor; [eexists; reflexivity | exact Hall].
Qed.

Lemma corrections_loop_objects (results : list json) :
  Forall (fun r => exists d, r = JObj d) results ->
  forall acc, corrections_loop results acc = inr (acc ++ corrections_for results).
Proof.
  induction 1 as [| r rest [d Hr] _ IH]; intros acc.
  - cbn. rewrite app_nil_r. reflexivity.
  - subst r. cbn [corrections_loop corrections_for flat_map verdict_in].
    destruct (existsb (json_is_str (dict_get d "verdict")) ["false"; "mixed"]).
    + rewrite IH, <- app_assoc. reflexivity.
    + rewrite IH. reflexivity.
Qed.

Lemma corrections_for_length (results : list json) :
  Z.of_nat (List.length (corrections_for results)) = countFalseOrMixed results.
Proof.
  unfold countFalseOrMixed, count_where. f_equal.
  induction results as [| r rest IH]; [reflexivity |].
  cbn [corrections_for flat_map filter]. rewrite length_app.
  fold (corrections_for rest). rewrite IH.
  destruct r as [| b | z | str | l | d]; try reflexivity.
  destruct (verdict_in ["false"; "mixed"] (JObj d)); reflexivity.
Qed.

(** The counting loops of [compute_final] return only on a list of
    objects. *)
Lemma count_verdicts_objects (lits : list string) (results : list json) :
  forall n, count_verdicts lits results = inr n ->
            Forall (fun r => exists d, r = JObj d) results.
Proof.
  induction results as [| r rest IH]; intros n H; [constructor |].
  cbn [count_verdicts] in H.
  destruct r as [| b | z | str | l | d]; try discriminate H.
  cbn [obj_get] in H. unfold rbind, ok in H.
  destruct (count_verdicts lits rest) as [e | m] eqn:Hrest; [discriminate |].
  constructor; [eexists; reflexivity | exact (IH _ eq_refl)].
Qed.

Lemma reasons_of_length (s t f u : Z) (metadata synthid : dict) :
  (3 <= List.length (reasons_of s t f u metadata synthid) <= 5)%nat.
Proof.
  unfold reasons_of. rewrite !length_app.
  destruct (truthy (get_or_null metadata "c2pa_ai"));
    destruct (truthy (get_or_null synthid "is_ai")); cbn [List.length]; lia.
Qed.

(** What a returned report was built from. *)
Lemma make_user_report_inv (final : final_verdict)
    (structured splice timing factcheck metadata synthid : dict)
    (rep : user_report) :
  make_user_report final structured splice timing factcheck metadata synthid
  = inr rep ->
  exists results found,
    py_iter (dict_get_default factcheck "results" (JArr [])) = inr results
    /\ corrections_loop results [] = inr found
    /\ py_slice_to 900 (py_or (py_or (get_or_null structured "combined_summary")
                                     (get_or_null structured "video_summary"))
                              (JStr "")) = inr (summary rep)
    /\ top_reasons rep
       = firstn 5 (reasons_of (splice_risk_score final)
                              (timeline_mismatch_risk_score final)
                              (false_or_mixed_claims final) (unclear_claims final)
                              metadata synthid)
    /\ corrections rep = firstn 5 found
    /\ report_verdict rep = verdict final
    /\ report_confidence_percent rep = confidence_percent final
    /\ risk_score rep = misinformation_risk_score final.
Proof.
  unfold make_user_report, rbind, ok. cbv zeta. intros H.
  destruct (py_iter _) as [e | results]; [discriminate |].
  destruct (corrections_loop results []) as [e | found] eqn:Hfound;
    [discriminate |].
  destruct (py_slice_to 900 _) as [e | cut]; [discriminate |].
  exists results, found. injection H as <-.
  repeat split; try reflexivity. exact Hfound.
Qed.

Lemma reasons_of_in (s t f u : Z) (metadata synthid : dict) (x : string) :
  In x (reasons_of s t f u metadata synthid)
  <-> (truthy (get_or_null metadata "c2pa_ai") = true
       /\ x = "C2PA metadata indicates AI-generated content."%string)
      \/ (truthy (get_or_null synthid "is_ai") = true
          /\ x = "SynthID analysis detected AI generation patterns."%string)
      \/ x = (if (30 <=? s)%Z
              then "Normal editing/jump cuts detected (common in tutorials)."
              else "Little to no abrupt editing detected.")%string
      \/ x = (if (t <? 30)%Z then "Timeline looks consistent with posted date."
              else if (t <? 60)%Z then "Some timeline uncertainty."
              else "Posted date and event timing look inconsistent.")%string
      \/ x = (if ((f =? 0) && (u =? 0))%Z
              then "Key claims look consistent with web sources."
              else if (f =? 0)%Z
                   then "Some claims could not be confirmed from web sources."
                   else "One or more claims appear false or misleading based on web sources.")%string.
Proof.
  unfold reasons_of. rewrite !in_app_iff.
  destruct (truthy (get_or_null metadata "c2pa_ai"));
    destruct (truthy (get_or_null synthid "is_ai")); cbn [In];
    intuition (try discriminate; auto).
Qed.

(** The reasons of a returned report: between three and five, so the cut
    to five drops none; the reason about false or misleading claims is
    there exactly when a verdict is false or mixed, and the one about an
    inconsistent timing exactly when the timeline score is at least 60. *)
Theorem make_user_report_reasons (final : final_verdict)
    (structured splice timing factcheck metadata synthid : dict)
    (rep : user_report) :
  make_user_report final structured splice timing factcheck metadata synthid
  = inr rep ->
  top_reasons rep
  = reasons_of (splice_risk_score final) (timeline_mismatch_risk_score final)
               (false_or_mixed_claims final) (unclear_claims final)
               metadata synthid
  /\ (3 <= List.length (top_reasons rep) <= 5)%nat
  /\ (In "One or more claims appear false or misleading based on web sources."
         (top_reasons rep)
      <-> false_or_mixed_claims final <> 0)
  /\ (In "Key claims look consistent with web sources." (top_reasons rep)
      <-> false_or_mixed_claims final = 0 /\ unclear_claims final = 0)
  /\ (In "Posted date and event timing look inconsistent." (top_reasons rep)
      <-> 60 <= timeline_mismatch_risk_score final)
  /\ (In "C2PA metadata indicates AI-generated content." (top_reasons rep)
      <-> truthy (get_or_null metadata "c2pa_ai") = true).
Proof.
  intros H.
  destruct (make_user_report_inv _ _ _ _ _ _ _ H)
    as (results & found & _ & _ & _ & Htop & _).
  rewrite Htop. clear Htop H.
  set (s := splice_risk_score final). set (t := timeline_mismatch_risk_score final).
  set (f := false_or_mixed_claims final). set (u := unclear_claims final).
  pose proof (reasons_of_length s t f u metadata synthid) as Hlen.
  assert (Hcut : firstn 5 (reasons_of s t f u metadata synthid)
                 = reasons_of s t f u metadata synthid)
    by (apply firstn_all2; lia).
  rewrite Hcut. split; [reflexivity |]. split; [exact Hlen |].
  rewrite !reasons_of_in.
  destruct (Z.leb_spec 30 s);
    destruct (Z.ltb_spec t 30); destruct (Z.ltb_spec t 60);
    destruct (Z.eqb_spec f 0); destruct (Z.eqb_spec u 0);
    cbn [andb]; try (exfalso; lia);
    (split; [| split; [| split]]);
    (split;
     [ intros [[Ht Hx] | [[Ht Hx] | [Hx | [Hx | Hx]]]];
       try discriminate Hx; try lia; try tauto; try exact Ht
     | intros Hc; try (exfalso; lia); try tauto; auto 8 ]).
Qed.

Lemma make_user_report_reasons_witness :
  exists rep,
    make_user_report fake_final example_structured example_splice []
                     [("results", JArr many_false)] example_metadata [] = inr rep
    /\ top_reasons rep
       = ["C2PA metadata indicates AI-generated content.";
          "Little to no abrupt editing detected.";
          "Timeline looks consistent with posted date.";
          "One or more claims appear false or misleading based on web sources."]
    /\ (3 <= List.length (top_reasons rep) <= 5)%nat.
Proof.
  eexists. split; [reflexivity |]. split; [reflexivity |].
  exact (proj1 (proj2 (@make_user_report_reasons fake_final example_structured
                         example_splice [] [("results", JArr many_false)]
                         example_metadata [] _ eq_refl))).
Defined.

(** The corrections of a returned report are the corrections built from the
    first five false or mixed results, in the order of the results; there
    are as many as there are such results, and five when there are more.
    Each names the claim of its result. *)
Theorem make_user_report_corrections (final : final_verdict)
    (structured splice timing factcheck metadata synthid : dict)
    (rep : user_report) :
  make_user_report final structured splice timing factcheck metadata synthid
  = inr rep ->
  exists results,
    py_iter (dict_get_default factcheck "results" (JArr [])) = inr results
    /\ corrections rep = firstn 5 (corrections_for results)
    /\ Z.of_nat (List.length (corrections rep)) = Z.min 5 (countFalseOrMixed results)
    /\ (corrections rep = [] <-> countFalseOrMixed results = 0).
Proof.
  intros H.
  destruct (make_user_report_inv _ _ _ _ _ _ _ H)
    as (results & found & Hres & Hfound & _ & _ & Hcorr & _).
  destruct (corrections_loop_inv _ _ Hfound) as [Hout _]. cbn [app] in Hout.
  subst found. exists results. split; [exact Hres |]. split; [exact Hcorr |].
  pose proof (corrections_for_length results) as Hlen.
  rewrite Hcorr, length_firstn. split; [lia |].
  destruct (corrections_for results) as [| c rest] eqn:E.
  - cbn [List.length] in Hlen. split; [intros _; lia | reflexivity].
  - cbn [List.length] in Hlen. split; [discriminate | lia].
Qed.

Lemma make_user_report_corrections_witness :
  compute_final [("results", JArr many_false)] [] [] = inr fake_final
  /\ exists rep,
      make_user_report fake_final [] [] [] [("results", JArr many_false)] [] []
      = inr rep
      /\ map (fun c => match c with
                       | JObj d => get_or_null d "incorrect_claim"
                       | _ => JNull
                       end) (corrections rep)
         = [JStr "one"; JStr "two"; JStr "four"; JStr "five"; JStr "six"]
      /\ Z.of_nat (List.length (corrections rep))
         = Z.min 5 (countFalseOrMixed many_false).
Proof.
  split; [reflexivity |].
  eexists. split; [reflexivity |]. split; [reflexivity |].
  destruct (@make_user_report_corrections fake_final [] [] []
              [("results", JArr many_false)] [] [] _ eq_refl)
    as (results & Hres & _ & Hlen & _).
  injection Hres as <-. exact Hlen.
Defined.

Lemma py_or_truthy (a b : json) : truthy a = true -> py_or a b = a.
Proof. unfold py_or. intros ->. reflexivity. Qed.

Lemma py_or_falsy (a b : json) : truthy a = false -> py_or a b = b.
Proof. unfold py_or. intros ->. reflexivity. Qed.

Lemma truthy_nonempty (s : string) : s <> ""%string -> truthy (JStr s) = true.
Proof.
  intros H. cbn [truthy]. apply negb_true_iff. apply String.eqb_neq. exact H.
Qed.

(** The summary of the report is the combined summary when that is a
    non-empty string, else the video summary when that is one, else the
    empty string; it is cut to its first 900 characters. *)
Theorem make_user_report_summary (final : final_verdict)
    (structured splice timing factcheck metadata synthid : dict)
    (rep : user_report) :
  make_user_report final structured splice timing factcheck metadata synthid
  = inr rep ->
  (forall s, dict_get structured "combined_summary" = Some (JStr s) ->
             s <> ""%string -> summary rep = JStr (take 900 s))
  /\ (forall s, truthy (get_or_null structured "combined_summary") = false ->
                dict_get structured "video_summary" = Some (JStr s) ->
                summary rep = JStr (take 900 s))
  /\ (truthy (get_or_null structured "combined_summary") = false ->
      truthy (get_or_null structured "video_summary") = false ->
      summary rep = JStr "")
  /\ (forall s, summary rep = JStr s -> (String.length s <= 900)%nat).
Proof.
  intros H.
  destruct (make_user_report_inv _ _ _ _ _ _ _ H)
    as (results & found & _ & _ & Hsum & _).
  clear H. split; [| split; [| split]].
  - intros s Hc Hne.
    assert (Ha : get_or_null structured "combined_summary" = JStr s)
      by (unfold get_or_null, dict_get_default; rewrite Hc; reflexivity).
    rewrite Ha in Hsum.
    rewrite (@py_or_truthy (JStr s) _ (truthy_nonempty Hne)) in Hsum.
    rewrite (@py_or_truthy (JStr s) _ (truthy_nonempty Hne)) in Hsum.
    cbn [py_slice_to] in Hsum. unfold ok in Hsum. congruence.
  - intros s Hc Hv.
    assert (Hb : get_or_null structured "video_summary" = JStr s)
      by (unfold get_or_null, dict_get_default; rewrite Hv; reflexivity).
    rewrite (@py_or_falsy _ _ Hc), Hb in Hsum.
    destruct (String.eqb_spec s "") as [Heq | Hne].
    + subst s. rewrite (@py_or_falsy (JStr "") (JStr "") eq_refl) in Hsum.
      cbn [py_slice_to] in Hsum. unfold ok in Hsum. congruence.
    + rewrite (@py_or_truthy (JStr s) _ (truthy_nonempty Hne)) in Hsum.
      cbn [py_slice_to] in Hsum. unfold ok in Hsum. congruence.
  - intros Hc Hv.
    rewrite (@py_or_falsy _ _ Hc), (@py_or_falsy _ _ Hv) in Hsum.
    cbn [py_slice_to] in Hsum. unfold ok in Hsum.
    change (take 900 "") with ""%string in Hsum. congruence.
  - intros s Hs. rewrite Hs in Hsum.
    match type of Hsum with py_slice_to 900 ?w = _ => destruct w as [| b | z | s0 | l | d] end;
      cbn [py_slice_to] in Hsum; unfold ok, raise in Hsum; try discriminate Hsum.
    assert (Hs0 : s = take 900 s0) by congruence.
    rewrite Hs0, take_length. apply Nat.le_min_l.
Qed.

Lemma make_user_report_summary_witness :
  exists rep,
    make_user_report fake_final example_structured example_splice []
                     [("results", JArr many_false)] example_metadata [] = inr rep
    /\ summary rep = JStr "A clip of a flood.".
Proof.
  eexists. split; [reflexivity |].
  exact (proj1 (proj2 (@make_user_report_summary fake_final example_structured
                         example_splice [] [("results", JArr many_false)]
                         example_metadata [] _ eq_refl))
           "A clip of a flood."%string eq_refl eq_refl).
Defined.

(** A report can be made from whatever [compute_final] returns, when the
    summary is a string: the loop over the results cannot raise where the
    counting loops have returned.  The report has the risk score in
    [0, 100] and the confidence in [50, 90], as many corrections as the
    final verdict counts false or mixed claims, five at most, and none when
    the verdict is REAL. *)
Theorem make_user_report_of_compute_final
    (structured splice timing factcheck metadata synthid : dict)
    (fv : final_verdict) (s : string) :
  compute_final factcheck splice timing = inr fv ->
  py_or (py_or (get_or_null structured "combined_summary")
               (get_or_null structured "video_summary")) (JStr "") = JStr s ->
  exists rep,
    make_user_report fv structured splice timing factcheck metadata synthid
    = inr rep
    /\ summary rep = JStr (take 900 s)
    /\ report_verdict rep = verdict fv
    /\ 0 <= risk_score rep <= 100
    /\ 50 <= report_confidence_percent rep <= 90
    /\ Z.of_nat (List.length (corrections rep)) = Z.min 5 (false_or_mixed_claims fv)
    /\ (report_verdict rep = "REAL" -> corrections rep = []).
Proof.
  intros H Hsum.
  destruct (compute_final_inv _ _ _ H)
    as (results & Hres & Hfm & _ & _ & _ & Hrisk & Hv & Hconf).
  assert (Hobj : Forall (fun r => exists d, r = JObj d) results).
  { unfold compute_final, rbind in H. rewrite Hres in H.
    destruct (count_verdicts ["false"; "mixed"] results) as [e | n] eqn:Hn;
      [discriminate |].
    exact (count_verdicts_objects _ _ Hn). }
  pose proof (corrections_loop_objects Hobj []) as Hloop. cbn [app] in Hloop.
  pose proof (corrections_for_length results) as Hlen.
  pose proof (risk_of_bounds _ _ _ _ Hrisk) as Hb.
  assert (Hin : In (misinformation_risk_score fv) (zrange 101))
    by (apply in_zrange; lia).
  pose proof (proj1 (forallb_forall confidence_range_ok (zrange 101))
                    confidence_ranges_ok _ Hin) as Hok.
  unfold confidence_range_ok in Hok. rewrite Hconf in Hok.
  apply andb_true_iff in Hok. destruct Hok as [Hok _].
  apply andb_true_iff in Hok. destruct Hok as [Hlo Hhi].
  apply Z.leb_le in Hlo. apply Z.leb_le in Hhi.
  eexists. split.
  - unfold make_user_report. cbv zeta. rewrite Hres. cbn [rbind].
    rewrite Hloop. cbn [rbind]. rewrite Hsum. cbn [py_slice_to rbind ok].
    reflexivity.
  - cbn [summary report_verdict risk_score report_confidence_percent corrections].
    split; [reflexivity |]. split; [reflexivity |]. split; [exact Hb |].
    split; [lia |]. split.
    + rewrite length_firstn, Hfm. lia.
    + intros Hreal.
      assert (H0 : false_or_mixed_claims fv = 0).
      { assert (Hf : 0 <= false_or_mixed_claims fv)
          by (rewrite Hfm; apply count_where_nonneg).
        rewrite Hv in Hreal.
        exact (proj1 (proj1 (proj1 (verdict_of_real_iff _ _ Hf)) Hreal)). }
      rewrite Hfm, <- Hlen in H0.
      destruct (corrections_for results); [reflexivity | cbn in H0; lia].
Qed.

Lemma make_user_report_of_compute_final_witness :
  exists rep,
    make_user_report fake_final example_structured [] []
                     [("results", JArr many_false)] [] [] = inr rep
    /\ summary rep = JStr "A clip of a flood."
    /\ report_verdict rep = "FAKE"
    /\ 0 <= risk_score rep <= 100
    /\ 50 <= report_confidence_percent rep <= 90
    /\ Z.of_nat (List.length (corrections rep)) = Z.min 5 6
    /\ (report_verdict rep = "REAL" -> corrections rep = []).
Proof.
  apply (@make_user_report_of_compute_final example_structured [] []
           [("results", JArr many_false)] [] [] fake_final "A clip of a flood.");
    reflexivity.
Defined.

(** ** Metadata of a video file *)

Lemma first_created_wf (actions : list json) :
  forallb wf_action actions = true ->
  exists found, first_created actions = inr found.
Proof.
  induction actions as [| a rest IH]; intros H; [eexists; reflexivity |].
  cbn [forallb] in H. apply andb_true_iff in H. destruct H as [Ha Hrest].
  destruct a as [| b | z | s | l | d]; try discriminate Ha.
  cbn [first_created get_of sbind].
  destruct (json_is_str (Some (dict_get_default d "action" JNull)) "c2pa.created");
    [eexists; reflexivity | exact (IH Hrest)].
Qed.

(** On well-formed assertions the outer loop returns what the last
    assertion that assigns a source type has assigned. *)
Lemma scan_assertions_wf (assertions : list json) :
  forallb wf_assertion assertions = true ->
  forall dst, scan_assertions assertions dst = inr (last_assigned assertions dst).
Proof.
  unfold last_assigned.
  induction assertions as [| a rest IH]; intros H dst; [reflexivity |].
  cbn [forallb] in H. apply andb_true_iff in H. destruct H as [Ha Hrest].
  destruct a as [| b | z | s | l | d]; try discriminate Ha.
  cbn [scan_assertions get_of sbind fold_left assigned_by].
  cbn [wf_assertion] in Ha.
  destruct (json_is_str (Some (dict_get_default d "label" JNull)) "c2pa.actions.v2");
    [| exact (IH Hrest dst)].
  destruct (dict_get_default d "data" (JObj [])) as [| b | z | s | l | data];
    try discriminate Ha.
  cbn [get_of sbind].
  destruct (dict_get_default data "actions" (JArr [])) as [| b | z | s | actions | o];
    try discriminate Ha.
  unfold iter_of, py_iter, ok. cbn [sbind].
  destruct (first_created_wf _ Ha) as [found Hfound]. rewrite Hfound.
  cbn [sbind]. exact (IH Hrest _).
Qed.

Lemma last_assigned_app (xs ys : list json) (dst : json) :
  last_assigned (xs ++ ys) dst = last_assigned ys (last_assigned xs dst).
Proof. unfold last_assigned. apply fold_left_app. Qed.

Section MetadataProperties.

Variable svc : services.
Variable h : host.
Variable message_of : interp_error -> string.

(** [check_c2pa] on a manifest store whose active manifest has well-formed
    assertions: the source type tested is the one assigned by the last
    actions assertion that has a created action, whatever earlier
    assertions say, and within that assertion the one of its first created
    action.  The flag says whether that source type names
    [trainedAlgorithmicMedia], and the manifest store is returned with
    it. *)
Theorem check_c2pa_last_assertion_wins (path text : string)
    (manifest_store active_manifest_id manifests active_manifest : json)
    (assertions : list json) (is_ai : bool) :
  c2pa_reader h path = inr text ->
  json_loads svc text = inr manifest_store ->
  py_getitem manifest_store (JStr "active_manifest") = inr active_manifest_id ->
  py_getitem manifest_store (JStr "manifests") = inr manifests ->
  py_getitem manifests active_manifest_id = inr active_manifest ->
  get_of active_manifest "assertions" (JArr []) = inr (JArr assertions) ->
  forallb wf_assertion assertions = true ->
  names_ai (last_assigned assertions JNull) = inr is_ai ->
  check_c2pa svc h message_of path = (is_ai, manifest_store)
  /\ forall earlier a d,
       assertions = earlier ++ [a] -> assigned_by a = Some d ->
       last_assigned assertions JNull = d.
Proof.
  intros Hreader Hloads Hid Hms Hactive Hassertions Hwf Hai. split.
  - unfold check_c2pa, c2pa_try. rewrite Hreader, Hloads, Hid. cbn [sbind].
    rewrite Hms. cbn [sbind]. rewrite Hactive. cbn [sbind].
    rewrite Hassertions. cbn [sbind]. unfold iter_of, py_iter, ok. cbn [sbind].
    rewrite (scan_assertions_wf _ Hwf). cbn [sbind]. rewrite Hai. reflexivity.
  - intros earlier a d -> Ha. rewrite last_assigned_app.
    unfold last_assigned at 1. cbn [fold_left]. rewrite Ha. reflexivity.
Qed.

(** When anything in the [try] of [check_c2pa] fails, the flag is [False]:
    no exception leaves the function, and the data is the status
    ["No C2PA Manifest Found"] when the message of the failure holds
    ["ManifestNotFound"] or ["no JUMBF data"], and the message under
    ["error"] otherwise.  The flag is [True] only when the [try] ran to its
    end with it. *)
Theorem check_c2pa_on_failure (path : string) :
  (forall e,
      c2pa_try svc h path = inl e ->
      let msg := str_of_c2pa_error message_of e in
      (contains "ManifestNotFound" msg || contains "no JUMBF data" msg = true ->
       check_c2pa svc h message_of path
       = (false, JObj [("status", JStr "No C2PA Manifest Found")]))
      /\ (contains "ManifestNotFound" msg || contains "no JUMBF data" msg = false ->
          check_c2pa svc h message_of path = (false, JObj [("error", JStr msg)])))
  /\ (fst (check_c2pa svc h message_of path) = true ->
      exists manifest_store, c2pa_try svc h path = inr (true, manifest_store)).
Proof.
  unfold check_c2pa. split.
  - intros e He. rewrite He. cbv zeta. split; intros Hm; rewrite Hm; reflexivity.
  - destruct (c2pa_try svc h path) as [e | [b store]].
    + cbv zeta.
      destruct (contains "ManifestNotFound" (str_of_c2pa_error message_of e)
                || contains "no JUMBF data" (str_of_c2pa_error message_of e));
        discriminate.
    + cbn [fst]. intros ->. exists store. reflexivity.
Qed.

(** Without a usable [ffprobe] (none on the PATH, or a run that fails) the
    summary of an existing file holds the defaults: no format, the
    duration, encoder and device ["unknown"], the creation time
    ["missing"], with the two C2PA entries.  A path that does not exist
    gives [{"error": "File not found"}]. *)
Theorem summarize_metadata_defaults (path : string) :
  (path_exists h path = false ->
   summarize_metadata svc h message_of path = inr [("error", JStr "File not found")])
  /\ (path_exists h path = true ->
      ffprobe h path = None \/ ffprobe h path = Some ProbeFailed ->
      summarize_metadata svc h message_of path
      = inr [("format", JNull);
             ("duration", JStr "unknown");
             ("creation_time", JStr "missing");
             ("encoder", JStr "unknown");
             ("device", JStr "unknown");
             ("c2pa_ai", JBool (fst (check_c2pa svc h message_of path)));
             ("c2pa_data", snd (check_c2pa svc h message_of path))]).
Proof.
  unfold summarize_metadata. split.
  - intros ->. reflexivity.
  - intros -> Hprobe. cbn [negb].
    destruct (check_c2pa svc h message_of path) as [c2pa_ai c2pa_data].
    unfold check_metadata. destruct Hprobe as [-> | ->]; reflexivity.
Qed.

(** What [summarize_metadata] returns is the error entry of a missing file
    or a summary with its seven keys in their order, whose [c2pa_ai] is the
    flag of [check_c2pa]; the format entries are read from the ["format"]
    object of the probe, the creation time, encoder and device from its
    ["tags"]. *)
Theorem summarize_metadata_shape (path : string) (summary0 : dict) :
  summarize_metadata svc h message_of path = inr summary0 ->
  (path_exists h path = false /\ summary0 = [("error", JStr "File not found")])
  \/ (path_exists h path = true
      /\ map fst summary0
         = ["format"; "duration"; "creation_time"; "encoder"; "device";
            "c2pa_ai"; "c2pa_data"]
      /\ dict_get summary0 "c2pa_ai"
         = Some (JBool (fst (check_c2pa svc h message_of path)))
      /\ dict_get summary0 "c2pa_data"
         = Some (snd (check_c2pa svc h message_of path))
      /\ exists probe fmt tags,
           check_metadata svc h path = inr (JObj probe)
           /\ dict_get_default probe "format" (JObj []) = JObj fmt
           /\ dict_get_default fmt "tags" (JObj []) = JObj tags
           /\ dict_get summary0 "format" = Some (get_or_null fmt "format_name")
           /\ dict_get summary0 "duration"
              = Some (dict_get_default fmt "duration" (JStr "unknown"))
           /\ dict_get summary0 "creation_time"
              = Some (dict_get_default tags "creation_time" (JStr "missing"))
           /\ dict_get summary0 "encoder"
              = Some (dict_get_default tags "encoder" (JStr "unknown"))
           /\ dict_get summary0 "device"
              = Some (dict_get_default tags "com.apple.quicktime.make"
                                       (JStr "unknown"))).
Proof.
  unfold summarize_metadata.
  destruct (path_exists h path); cbn [negb].
  2: { intros H. left. split; [reflexivity |]. unfold ok in H. congruence. }
  destruct (check_c2pa svc h message_of path) as [c2pa_ai c2pa_data].
  unfold rbind, obj_get_default, rbind, ok.
  destruct (check_metadata svc h path) as [e | probe]; [discriminate |].
  destruct probe as [| b | z | s | l | probe]; try discriminate.
  cbn [obj_get]. unfold ok.
  destruct (match dict_get probe "format" with Some x => x | None => JObj [] end)
    as [| b | z | s | l | fmt] eqn:Hfmt; try discriminate.
  cbn [obj_get]. unfold ok.
  destruct (match dict_get fmt "tags" with Some x => x | None => JObj [] end)
    as [| b | z | s | l | tags] eqn:Htags; try discriminate.
  cbn [obj_get]. unfold ok.
  intros H. injection H as <-. right.
  split; [reflexivity |]. split; [reflexivity |].
  split; [reflexivity |]. split; [reflexivity |].
  exists probe, fmt, tags. split; [reflexivity |].
  split; [exact Hfmt |]. split; [exact Htags |].
  repeat split.
Qed.

End MetadataProperties.

Lemma check_c2pa_last_assertion_wins_witness :
  check_c2pa (loads_as (manifest_with [created_with AI_TYPE; created_with CAMERA_TYPE]))
             (host_with (inr "manifest") None) plain_message "clip.mp4"
  = (false, manifest_with [created_with AI_TYPE; created_with CAMERA_TYPE])
  /\ check_c2pa (loads_as (manifest_with [created_with CAMERA_TYPE; created_with AI_TYPE]))
                (host_with (inr "manifest") None) plain_message "clip.mp4"
     = (true, manifest_with [created_with CAMERA_TYPE; created_with AI_TYPE]).
Proof.
  split.
  - refine (proj1 (@check_c2pa_last_assertion_wins
                     (loads_as (manifest_with [created_with AI_TYPE;
                                               created_with CAMERA_TYPE]))
                     (host_with (inr "manifest") None) plain_message
                     "clip.mp4" "manifest" _ _ _ _
                     [created_with AI_TYPE; created_with CAMERA_TYPE] false
                     eq_refl eq_refl eq_refl eq_refl eq_refl eq_refl eq_refl eq_refl)).
  - refine (proj1 (@check_c2pa_last_assertion_wins
                     (loads_as (manifest_with [created_with CAMERA_TYPE;
                                               created_with AI_TYPE]))
                     (host_with (inr "manifest") None) plain_message
                     "clip.mp4" "manifest" _ _ _ _
                     [created_with CAMERA_TYPE; created_with AI_TYPE] true
                     eq_refl eq_refl eq_refl eq_refl eq_refl eq_refl eq_refl eq_refl)).
Defined.

Lemma check_c2pa_on_failure_witness :
  check_c2pa down_services
             (host_with (inl "ManifestNotFound: no manifest in asset") None)
             plain_message "clip.mp4"
  = (false, JObj [("status", JStr "No C2PA Manifest Found")]).
Proof.
  exact (proj1 (proj1 (@check_c2pa_on_failure down_services
                         (host_with (inl "ManifestNotFound: no manifest in asset") None)
                         plain_message "clip.mp4")
                      (ReaderFailed "ManifestNotFound: no manifest in asset") eq_refl)
           eq_refl).
Defined.

Lemma summarize_metadata_defaults_witness :
  summarize_metadata down_services (host_with (inl "No module named 'c2pa'") None)
                     plain_message "clip.mp4"
  = inr [("format", JNull);
         ("duration", JStr "unknown");
         ("creation_time", JStr "missing");
         ("encoder", JStr "unknown");
         ("device", JStr "unknown");
         ("c2pa_ai", JBool false);
         ("c2pa_data", JObj [("error", JStr "No module named 'c2pa'")])].
Proof.
  exact (proj2 (@summarize_metadata_defaults down_services
                  (host_with (inl "No module named 'c2pa'") None)
                  plain_message "clip.mp4")
           eq_refl (or_introl eq_refl)).
Defined.

Lemma summarize_metadata_shape_witness :
  summarize_metadata (loads_as example_probe)
    (host_with (inl "No module named 'c2pa'") (Some (ProbeOutput "{}")))
    plain_message "clip.mp4"
  = inr [("format", JStr "mov,mp4");
         ("duration", JStr "12.5");
         ("creation_time", JStr "missing");
         ("encoder", JStr "Lavf58");
         ("device", JStr "unknown");
         ("c2pa_ai", JBool false);
         ("c2pa_data", JObj [("error", JStr "No module named 'c2pa'")])]
  /\ map fst [("format", JStr "mov,mp4");
              ("duration", JStr "12.5");
              ("creation_time", JStr "missing");
              ("encoder", JStr "Lavf58");
              ("device", JStr "unknown");
              ("c2pa_ai", JBool false);
              ("c2pa_data", JObj [("error", JStr "No module named 'c2pa'")])]
     = ["format"; "duration"; "creation_time"; "encoder"; "device";
        "c2pa_ai"; "c2pa_data"].
Proof.
  split; [reflexivity |].
  destruct (@summarize_metadata_shape (loads_as example_probe)
              (host_with (inl "No module named 'c2pa'") (Some (ProbeOutput "{}")))
              plain_message "clip.mp4" _ eq_refl)
    as [[Hmissing _] | (_ & Hkeys & _)].
  - discriminate Hmissing.
  - exact Hkeys.
Defined.

(** ** The AI-detection endpoint *)

Lemma check_video_synthid_upload_fails (svc : services) (fuel : nat)
    (video_path : string) (video_metadata : json) (analysis : string)
    (tr : trace) (e : exn) :
  genai_upload_file svc tr video_path = inl e ->
  check_video_synthid svc fuel video_path video_metadata analysis tr
  = Some (neutral ("Error: " ++ exn_msg e), tr ++ [Uploaded video_path]).
Proof.
  intros H. unfold check_video_synthid, synthid_try, call. rewrite H. reflexivity.
Qed.

Lemma ai_report_object (metadata synthid : dict) :
  exists report,
    ai_report metadata (JObj synthid) = inr report
    /\ dict_get report "is_ai_generated"
       = Some (py_or (dict_get_default synthid "is_ai" (JBool false))
                     (dict_get_default metadata "c2pa_ai" (JBool false)))
    /\ dict_get report "trust_score"
       = Some (dict_get_default synthid "trust_score" (JInt 50))
    /\ dict_get report "confidence"
       = Some (dict_get_default synthid "confidence" (JInt 50))
    /\ dict_get report "note"
       = Some (dict_get_default synthid "note" (JStr "Analysis complete")).
Proof.
  eexists. split; [reflexivity |]. repeat split.
Qed.

(** When the upload to the detector fails, the endpoint still answers 200:
    the report says that the video is AI-generated exactly when the C2PA
    flag of the metadata says so, with trust score 50, confidence 50 and
    the message of the failure as its note. *)
Theorem analyze_ai_detector_failure (svc : services) (h : host)
    (message_of : interp_error -> string) (fuel : nat) (video_path : string)
    (tr : trace) (metadata : dict) (e : exn) :
  summarize_metadata svc h message_of video_path = inr metadata ->
  genai_upload_file svc tr video_path = inl e ->
  exists report,
    analyze_ai_saved svc h message_of fuel video_path tr
    = Some ({| status := 200; body := JObj report |}, tr ++ [Uploaded video_path])
    /\ dict_get report "is_ai_generated"
       = Some (dict_get_default metadata "c2pa_ai" (JBool false))
    /\ dict_get report "trust_score" = Some (JInt 50)
    /\ dict_get report "confidence" = Some (JInt 50)
    /\ dict_get report "note" = Some (JStr ("Error: " ++ exn_msg e)).
Proof.
  intros Hmeta Hup. unfold analyze_ai_saved. rewrite Hmeta.
  rewrite (check_video_synthid_upload_fails svc fuel video_path (JObj metadata) "" tr Hup).
  eexists. split; [reflexivity |]. repeat split.
Qed.

Lemma analyze_ai_detector_failure_witness :
  exists report,
    analyze_ai_saved down_services (host_with (inl "No module named 'c2pa'") None)
                     plain_message 0 "clip.mp4" []
    = Some ({| status := 200; body := JObj report |}, [Uploaded "clip.mp4"])
    /\ dict_get report "is_ai_generated" = Some (JBool false)
    /\ dict_get report "trust_score" = Some (JInt 50)
    /\ dict_get report "confidence" = Some (JInt 50)
    /\ dict_get report "note" = Some (JStr "Error: unavailable").
Proof.
  exact (@analyze_ai_detector_failure down_services
           (host_with (inl "No module named 'c2pa'") None) plain_message 0
           "clip.mp4" [] _ (Exn ServiceError "unavailable") eq_refl eq_refl).
Defined.

(** Whenever the endpoint answers, the status is 200 or 500.  It is 500
    with the message of the exception when the metadata cannot be
    summarized (the output of [ffprobe] is not JSON, or its format is not an
    object) and when the detector returned something that is not an object;
    no failure of the detector's own calls makes it 500.  In a 200 report
    the video is said to be AI-generated exactly when the detector's
    [is_ai] or the C2PA flag is truthy. *)
Theorem analyze_ai_saved_answers (svc : services) (h : host)
    (message_of : interp_error -> string) (fuel : nat) (video_path : string)
    (tr tr' : trace) (resp : response) :
  analyze_ai_saved svc h message_of fuel video_path tr = Some (resp, tr') ->
  (exists e, summarize_metadata svc h message_of video_path = inl e
             /\ resp = error_response 500 (exn_msg e) /\ tr' = tr)
  \/ (exists metadata synthid,
        summarize_metadata svc h message_of video_path = inr metadata
        /\ check_video_synthid svc fuel video_path (JObj metadata) "" tr
           = Some (synthid, tr')
        /\ ((status resp = 500 /\ forall d, synthid <> JObj d)
            \/ (exists d report,
                  synthid = JObj d
                  /\ resp = {| status := 200; body := JObj report |}
                  /\ forall v, dict_get report "is_ai_generated" = Some v ->
                       (truthy v = true <->
                          truthy (dict_get_default d "is_ai" (JBool false)) = true
                          \/ truthy (dict_get_default metadata "c2pa_ai" (JBool false))
                             = true)))).
Proof.
  unfold analyze_ai_saved. intros H.
  destruct (summarize_metadata svc h message_of video_path) as [e | metadata].
  { left. exists e. injection H as <- <-. repeat split. }
  right. exists metadata.
  destruct (check_video_synthid svc fuel video_path (JObj metadata) "" tr)
    as [[synthid tr1] |]; [| discriminate].
  exists synthid.
  destruct synthid as [| b | z | s | l | d];
    try (cbn in H; injection H as <- <-;
         split; [reflexivity |]; split; [reflexivity |];
         left; split; [reflexivity | intros d; discriminate]).
  destruct (ai_report_object metadata d) as (report & Hrep & His & _).
  rewrite Hrep in H. injection H as <- <-.
  split; [reflexivity |]. split; [reflexivity |].
  right. exists d, report. split; [reflexivity |]. split; [reflexivity |].
  intros v Hv. rewrite His in Hv. injection Hv as <-.
  unfold py_or.
  destruct (truthy (dict_get_default d "is_ai" (JBool false))) eqn:E.
  - rewrite E. split; [intros _; left; reflexivity | reflexivity].
  - split; [intros Hc; right; exact Hc | intros [Hc | Hc]; [discriminate | exact Hc]].
Qed.

Lemma analyze_ai_saved_answers_witness :
  exists metadata synthid,
    summarize_metadata down_services (host_with (inl "No module named 'c2pa'") None)
                       plain_message "clip.mp4" = inr metadata
    /\ check_video_synthid down_services 0 "clip.mp4" (JObj metadata) "" []
       = Some (synthid, [Uploaded "clip.mp4"])
    /\ synthid = neutral "Error: unavailable".
Proof.
  destruct (@analyze_ai_saved_answers down_services
              (host_with (inl "No module named 'c2pa'") None) plain_message 0
              "clip.mp4" [] _ _ eq_refl)
    as [(e & He & _) | (metadata & synthid & Hmeta & Hsynth & _)].
  - discriminate He.
  - exists metadata, synthid. split; [exact Hmeta |]. split; [exact Hsynth |].
    injection Hmeta as <-. injection Hsynth as <-. reflexivity.
Defined.

(** ** Polling the TwelveLabs client *)

(** What a polling loop has done when it returns: it has slept once after
    each poll whose status was neither ["ready"] nor ["failed"], and its
    last poll has answered ["ready"]. *)
Lemma poll_until_ready_returns (retrieve : trace -> result string)
    (failed_msg : string) (pause : Q) (fuel : nat) :
  forall tr tr',
    poll_until_ready fuel retrieve failed_msg pause tr = Some (inr tt, tr') ->
    exists n,
      (n < fuel)%nat
      /\ tr' = tr ++ repeat (Slept pause) n
      /\ retrieve tr' = inr "ready"%string
      /\ forall i, (i < n)%nat ->
           exists st, retrieve (tr ++ repeat (Slept pause) i) = inr st
                      /\ st <> "ready"%string /\ st <> "failed"%string.
Proof.
  induction fuel as [| fuel IH]; intros tr tr' H; [discriminate |].
  cbn [poll_until_ready] in H.
  destruct (retrieve tr) as [e | st] eqn:Hst; [discriminate |].
  destruct (String.eqb_spec st "ready") as [Hready | Hnot].
  - injection H as <-. exists O. cbn [repeat]. rewrite app_nil_r.
    split; [lia |]. split; [reflexivity |]. split; [congruence |].
    intros i Hi. lia.
  - destruct (String.eqb_spec st "failed") as [Hfailed | Hnf]; [discriminate |].
    unfold sleep in H. destruct (Qlt_le_dec pause 0); [discriminate |].
    unfold emit in H. destruct (IH _ _ H) as (n & Hn & Htr & Hlast & Hbefore).
    exists (S n). split; [lia |]. split.
    + rewrite Htr, <- app_assoc. cbn [app repeat]. reflexivity.
    + split; [exact Hlast |]. intros i Hi. destruct i as [| i].
      * cbn [repeat]. rewrite app_nil_r. exists st. repeat split; assumption.
      * destruct (Hbefore i ltac:(lia)) as (st' & Hst' & Hr & Hf).
        exists st'. rewrite <- app_assoc in Hst'. cbn [app repeat] in *.
        repeat split; assumption.
Qed.

(** A status that stays neither ["ready"] nor ["failed"] keeps the loop
    polling: no number of polls ends it. *)
Lemma poll_until_ready_stuck (retrieve : trace -> result string)
    (failed_msg : string) (pause : Q) (fuel : nat) :
  (0 <= pause)%Q ->
  (forall tr, exists st, retrieve tr = inr st
                         /\ st <> "ready"%string /\ st <> "failed"%string) ->
  forall tr, poll_until_ready fuel retrieve failed_msg pause tr = None.
Proof.
  intros Hpause Hstuck. induction fuel as [| fuel IH]; intros tr; [reflexivity |].
  cbn [poll_until_ready]. destruct (Hstuck tr) as (st & -> & Hr & Hf).
  apply String.eqb_neq in Hr. apply String.eqb_neq in Hf. rewrite Hr, Hf.
  unfold sleep. destruct (Qlt_le_dec pause 0) as [Hlt | _].
  - exfalso. exact (Qlt_not_le _ _ Hlt Hpause).
  - unfold emit. apply IH.
Qed.

(** The status ["failed"] ends the loop with its [RuntimeError]. *)
Lemma poll_until_ready_failed (retrieve : trace -> result string)
    (failed_msg : string) (pause : Q) (fuel : nat) (tr : trace) :
  retrieve tr = inr "failed"%string ->
  poll_until_ready (S fuel) retrieve failed_msg pause tr
  = Some (inl (Exn RuntimeError failed_msg), tr).
Proof. intros H. cbn [poll_until_ready]. rewrite H. reflexivity. Qed.

Section PipelineProperties.

Variable svc : services.
Variable tl : twelvelabs.

(** [upload_and_index] when it returns: the upload has returned an asset,
    the function has slept [ASSET_POLL_SEC] after each poll of the asset
    that was not yet ready and [INDEX_POLL_SEC] after each such poll of the
    indexed asset, and it returns the id of the indexed asset, whose last
    poll answered ["ready"]; every poll before the last, of the asset and
    of the indexed asset, answered a status that is neither ["ready"] nor
    ["failed"]. *)
Theorem upload_and_index_returns (debug : option (string -> M unit))
    (fuel : nat) (index_id video_path indexed_id : string) (tr tr' : trace) :
  upload_and_index debug tl fuel index_id video_path tr = Some (inr indexed_id, tr') ->
  exists asset_id tr1 n m,
    with_retries debug (ask (fun t => assets_create tl t video_path)) 4 (3 # 2) tr
    = (inr asset_id, tr1)
    /\ (n < fuel)%nat /\ (m < fuel)%nat
    /\ assets_retrieve tl (tr1 ++ repeat (Slept ASSET_POLL_SEC) n) asset_id
       = inr "ready"%string
    /\ indexed_assets_create tl (tr1 ++ repeat (Slept ASSET_POLL_SEC) n)
                             index_id asset_id = inr indexed_id
    /\ tr' = (tr1 ++ repeat (Slept ASSET_POLL_SEC) n)
             ++ repeat (Slept INDEX_POLL_SEC) m
    /\ indexed_assets_retrieve tl tr' index_id indexed_id = inr "ready"%string
    /\ (forall i, (i < n)%nat ->
          exists st,
            assets_retrieve tl (tr1 ++ repeat (Slept ASSET_POLL_SEC) i) asset_id
            = inr st
            /\ st <> "ready"%string /\ st <> "failed"%string)
    /\ (forall j, (j < m)%nat ->
          exists st,
            indexed_assets_retrieve tl
              ((tr1 ++ repeat (Slept ASSET_POLL_SEC) n)
               ++ repeat (Slept INDEX_POLL_SEC) j) index_id indexed_id
            = inr st
            /\ st <> "ready"%string /\ st <> "failed"%string).
Proof.
  unfold upload_and_index, pbind, of_M, ask, ret. intros H.
  destruct (with_retries debug _ 4 (3 # 2) tr) as [[e | asset_id] tr1] eqn:Hup;
    [discriminate |].
  destruct (poll_until_ready fuel (fun t => assets_retrieve tl t asset_id)
              "Asset processing failed" ASSET_POLL_SEC tr1)
    as [[[e | []] tr2] |] eqn:Hpoll1; try discriminate.
  destruct (indexed_assets_create tl tr2 index_id asset_id) as [e | id] eqn:Hidx;
    [discriminate |].
  destruct (poll_until_ready fuel
              (fun t => indexed_assets_retrieve tl t index_id id)
              "Indexing failed" INDEX_POLL_SEC tr2)
    as [[[e | []] tr3] |] eqn:Hpoll2; try discriminate.
  injection H as <- <-.
  destruct (poll_until_ready_returns _ _ _ _ _ Hpoll1)
    as (n & Hn & Htr2 & Hready1 & Hbefore1).
  destruct (poll_until_ready_returns _ _ _ _ _ Hpoll2)
    as (m & Hm & Htr3 & Hready2 & Hbefore2).
  subst tr2. exists asset_id, tr1, n, m.
  split; [reflexivity |]. split; [exact Hn |]. split; [exact Hm |].
  split; [exact Hready1 |]. split; [exact Hidx |]. split; [exact Htr3 |].
  split; [exact Hready2 |]. split; [exact Hbefore1 | exact Hbefore2].
Qed.

(** [upload_and_index] has no limit on its polling: when the upload has
    returned and the status of the asset stays neither ["ready"] nor
    ["failed"], no number of polls makes it return or raise.  The status
    ["failed"] at the first poll raises [RuntimeError] before anything is
    indexed. *)
Theorem upload_and_index_never_gives_up (debug : option (string -> M unit))
    (index_id video_path asset_id : string) (tr tr1 : trace) :
  with_retries debug (ask (fun t => assets_create tl t video_path)) 4 (3 # 2) tr
  = (inr asset_id, tr1) ->
  ((forall t, exists st, assets_retrieve tl t asset_id = inr st
                         /\ st <> "ready"%string /\ st <> "failed"%string) ->
   forall fuel, upload_and_index debug tl fuel index_id video_path tr = None)
  /\ (assets_retrieve tl tr1 asset_id = inr "failed"%string ->
      forall fuel,
        upload_and_index debug tl (S fuel) index_id video_path tr
        = Some (inl (Exn RuntimeError "Asset processing failed"), tr1)).
Proof.
  intros Hup. split.
  - intros Hstuck fuel. unfold upload_and_index, pbind, of_M. rewrite Hup.
    rewrite (@poll_until_ready_stuck (fun t => assets_retrieve tl t asset_id)
               "Asset processing failed" ASSET_POLL_SEC fuel
               ltac:(discriminate) Hstuck tr1).
    reflexivity.
  - intros Hfailed fuel. unfold upload_and_index, pbind, of_M. rewrite Hup.
    rewrite (@poll_until_ready_failed (fun t => assets_retrieve tl t asset_id)
               "Asset processing failed" ASSET_POLL_SEC fuel tr1 Hfailed).
    reflexivity.
Qed.

End PipelineProperties.

Lemma upload_and_index_returns_witness :
  upload_and_index backend_debug
    (steady_twelvelabs (ready_after 2 "processing") (ready_after 3 "pending") None)
    5 "idx1" "clip.mp4" []
  = Some (inr "vid1"%string,
          [Slept ASSET_POLL_SEC; Slept ASSET_POLL_SEC; Slept INDEX_POLL_SEC])
  /\ exists asset_id tr1 n m,
       with_retries backend_debug
         (ask (fun t => assets_create
                          (steady_twelvelabs (ready_after 2 "processing")
                                             (ready_after 3 "pending") None)
                          t "clip.mp4")) 4 (3 # 2) []
       = (inr asset_id, tr1)
       /\ (n < 5)%nat /\ (m < 5)%nat
       /\ tr1 ++ repeat (Slept ASSET_POLL_SEC) n ++ repeat (Slept INDEX_POLL_SEC) m
          = [Slept ASSET_POLL_SEC; Slept ASSET_POLL_SEC; Slept INDEX_POLL_SEC].
Proof.
  split; [reflexivity |].
  destruct (@upload_and_index_returns
              (steady_twelvelabs (ready_after 2 "processing")
                                 (ready_after 3 "pending") None)
              backend_debug 5 "idx1" "clip.mp4" "vid1" [] _ eq_refl)
    as (asset_id & tr1 & n & m & Hup & Hn & Hm & _ & _ & Htr & _).
  exists asset_id, tr1, n, m. rewrite app_assoc, <- Htr.
  repeat split; assumption.
Defined.

Lemma upload_and_index_never_gives_up_witness :
  (forall fuel,
      upload_and_index backend_debug
        (steady_twelvelabs (fun _ => "processing") (fun _ => "ready") None)
        fuel "idx1" "clip.mp4" [] = None)
  /\ upload_and_index backend_debug
       (steady_twelvelabs (fun _ => "failed") (fun _ => "ready") None)
       1 "idx1" "clip.mp4" []
     = Some (inl (Exn RuntimeError "Asset processing failed"), []).
Proof.
  split.
  - apply (proj1 (@upload_and_index_never_gives_up
                    (steady_twelvelabs (fun _ => "processing") (fun _ => "ready") None)
                    backend_debug "idx1" "clip.mp4" "asset1" [] [] eq_refl)).
    intros t. exists "processing"%string.
    split; [reflexivity |]. split; discriminate.
  - apply (proj2 (@upload_and_index_never_gives_up
                    (steady_twelvelabs (fun _ => "failed") (fun _ => "ready") None)
                    backend_debug "idx1" "clip.mp4" "asset1" [] [] eq_refl)).
    reflexivity.
Defined.

(** ** The stages and the endpoint *)

Lemma compute_final_on_objects (factcheck splice timing : dict) :
  compute_final_on factcheck (JObj splice) (JObj timing)
  = compute_final factcheck splice timing.
Proof.
  unfold compute_final_on, compute_final, score_field, obj_get_default, rbind.
  cbn [obj_get]. unfold ok.
  destruct (py_iter _) as [e | results]; [reflexivity |].
  destruct (count_verdicts ["false"; "mixed"] results) as [e | fm]; [reflexivity |].
  destruct (count_verdicts ["unclear"] results) as [e | un]; [reflexivity |].
  destruct (average_confidence results) as [e | avg]; [reflexivity |].
  unfold dict_get_default.
  destruct (py_int (py_or match dict_get splice "splice_risk_score" with
                          | Some x => x | None => JInt 0 end (JInt 0)))
    as [e | s]; [reflexivity |].
  destruct (py_int (py_or match dict_get timing "timeline_mismatch_risk_score" with
                          | Some x => x | None => JInt 0 end (JInt 0)))
    as [e | t]; [reflexivity |].
  destruct (risk_of s t fm un) as [e | risk]; [reflexivity |].
  destruct (confidence_of risk) as [e | c]; reflexivity.
Qed.

Lemma compute_final_on_inv (factcheck : dict) (splice timing : json)
    (fv : final_verdict) :
  compute_final_on factcheck splice timing = inr fv ->
  exists s t, splice = JObj s /\ timing = JObj t
              /\ compute_final factcheck s t = inr fv.
Proof.
  intros H.
  destruct splice as [| b | z | str | l | s];
    try (exfalso; revert H; unfold compute_final_on, rbind, obj_get_default, rbind;
         cbn [obj_get]; unfold raise;
         destruct (py_iter _); [discriminate |];
         destruct (count_verdicts ["false"; "mixed"] _); [discriminate |];
         destruct (count_verdicts ["unclear"] _); [discriminate |];
         destruct (average_confidence _); discriminate).
  destruct timing as [| b | z | str | l | t];
    try (exfalso; revert H; unfold compute_final_on, rbind, obj_get_default, rbind;
         cbn [obj_get]; unfold raise, ok;
         destruct (py_iter _); [discriminate |];
         destruct (count_verdicts ["false"; "mixed"] _); [discriminate |];
         destruct (count_verdicts ["unclear"] _); [discriminate |];
         destruct (average_confidence _); [discriminate |];
         destruct (py_int _); discriminate).
  exists s, t. rewrite compute_final_on_objects in H.
  split; [reflexivity |]. split; [reflexivity | exact H].
Qed.

Section EndpointProperties.

Variable svc : services.
Variable tl : twelvelabs.

(** [gemini_splice] returns the analysis of TwelveLabs parsed as JSON when
    it parses, without a call of the text model; when it does not parse,
    the function is [gemini_json] on the conversion prompt, which in the
    module as it is raises [NameError]. *)
Theorem gemini_splice_prefers_raw (debug : option (string -> M unit))
    (video_id : string) (tr : trace) (data : option string) :
  analyze tl tr video_id splice_prompt = inr data ->
  let raw := strip (text_or_empty data) in
  (forall v, json_loads svc raw = inr v ->
             gemini_splice debug svc tl video_id tr = (inr v, tr))
  /\ (forall e, json_loads svc raw = inl e ->
        gemini_splice debug svc tl video_id tr
        = gemini_json debug svc
            ("Convert to JSON with keys has_sudden_shifts, splice_risk_score, summary:"
             ++ nl ++ nl ++ raw) tr)
  /\ (forall e, json_loads svc raw = inl e ->
        gemini_splice backend_debug svc tl video_id tr
        = (inl (Exn NameError "name 'debug' is not defined"), tr)).
Proof.
  intros Hdata raw.
  assert (Hraw : analyze_video tl video_id splice_prompt tr = (inr raw, tr)).
  { unfold analyze_video, bind, ask, ret. rewrite Hdata. reflexivity. }
  split; [| split].
  - intros v Hv. unfold gemini_splice, bind. rewrite Hraw, Hv. reflexivity.
  - intros e He. unfold gemini_splice, bind. rewrite Hraw, He. reflexivity.
  - intros e He. unfold gemini_splice, bind. rewrite Hraw, He. reflexivity.
Qed.

(** The fact-checking endpoint of the module as it is never answers with a
    report: whenever it answers, the status is 500.  When the TwelveLabs
    stages have succeeded, the answer is the [NameError] that the first
    statement of [gemini_json] raises in [gemini_structure]:
    [{"error": "name 'debug' is not defined"}]. *)
Theorem analyze_factcheck_never_reports (fuel : nat)
    (video_path caption posted : string) (tr tr' : trace)
    (resp : factcheck_response) :
  analyze_factcheck_saved backend_debug svc tl fuel video_path caption posted tr
  = Some (resp, tr') ->
  (exists msg, resp = Failed 500 msg)
  /\ (forall idx_id video_id tr1 data,
        indexes_create tl tr = inr idx_id ->
        upload_and_index backend_debug tl fuel idx_id video_path tr
        = Some (inr video_id, tr1) ->
        analyze tl tr1 video_id base_prompt = inr data ->
        resp = Failed 500 "name 'debug' is not defined" /\ tr' = tr1).
Proof.
  unfold analyze_factcheck_saved, analyze_factcheck_try, pbind, of_M,
    create_index, ask.
  destruct (indexes_create tl tr) as [e | idx_id] eqn:Hcreate.
  { intros H. injection H as <- <-. split; [eexists; reflexivity |].
    intros idx_id video_id tr1 data Hidx. discriminate. }
  destruct (upload_and_index backend_debug tl fuel idx_id video_path tr)
    as [[[e | video_id] tr1] |] eqn:Hupload; [| | discriminate].
  { intros H. injection H as <- <-. split; [eexists; reflexivity |].
    intros idx_id' video_id tr2 data Hidx Hup. injection Hidx as <-.
    rewrite Hupload in Hup. discriminate. }
  unfold analyze_video, bind, ask, ret.
  destruct (analyze tl tr1 video_id base_prompt) as [e | data] eqn:Hanalyze.
  { intros H. injection H as <- <-. split; [eexists; reflexivity |].
    intros idx_id' video_id' tr2 data Hidx Hup Hdata.
    injection Hidx as <-. rewrite Hupload in Hup. injection Hup as <- <-.
    rewrite Hanalyze in Hdata. discriminate. }
  intros H. cbn in H. injection H as <- <-. split; [eexists; reflexivity |].
  intros idx_id' video_id' tr2 data' Hidx Hup _.
  injection Hidx as <-. rewrite Hupload in Hup. injection Hup as <- <-.
  split; reflexivity.
Qed.

End EndpointProperties.

Lemma gemini_splice_prefers_raw_witness :
  gemini_splice backend_debug (pipeline_services example_store)
    (steady_twelvelabs (fun _ => "ready") (fun _ => "ready") (Some " {} "))
    "vid1" []
  = (inr example_store, []).
Proof.
  exact (proj1 (@gemini_splice_prefers_raw (pipeline_services example_store)
                  (steady_twelvelabs (fun _ => "ready") (fun _ => "ready")
                                     (Some " {} "))
                  backend_debug "vid1" [] (Some " {} ") eq_refl)
           example_store eq_refl).
Defined.

Lemma analyze_factcheck_never_reports_witness :
  analyze_factcheck_saved backend_debug (pipeline_services example_store)
    (steady_twelvelabs (ready_after 1 "processing") (fun _ => "ready") (Some "{}"))
    3 "clip.mp4" "" "" []
  = Some (Failed 500 "name 'debug' is not defined", [Slept ASSET_POLL_SEC]).
Proof.
  destruct (proj2 (@analyze_factcheck_never_reports
                     (pipeline_services example_store)
                     (steady_twelvelabs (ready_after 1 "processing")
                                        (fun _ => "ready") (Some "{}"))
                     3 "clip.mp4" "" "" [] _ _ eq_refl)
                  "idx1"%string "vid1"%string [Slept ASSET_POLL_SEC] (Some "{}"%string)
                  eq_refl eq_refl eq_refl) as [_ _].
  reflexivity.
Defined.

Lemma compute_final_bounds (factcheck splice timing : dict) (fv : final_verdict) :
  compute_final factcheck splice timing = inr fv ->
  0 <= misinformation_risk_score fv <= 100
  /\ 50 <= confidence_percent fv <= 90
  /\ 0 <= false_or_mixed_claims fv.
Proof.
  intros H.
  destruct (compute_final_inv _ _ _ H)
    as (results & _ & Hfm & _ & _ & _ & Hrisk & _ & Hconf).
  pose proof (risk_of_bounds _ _ _ _ Hrisk) as Hb.
  assert (Hin : In (misinformation_risk_score fv) (zrange 101))
    by (apply in_zrange; lia).
  pose proof (proj1 (forallb_forall confidence_range_ok (zrange 101))
                    confidence_ranges_ok _ Hin) as Hok.
  unfold confidence_range_ok in Hok. rewrite Hconf in Hok.
  apply andb_true_iff in Hok. destruct Hok as [Hok _].
  apply andb_true_iff in Hok. destruct Hok as [Hlo Hhi].
  apply Z.leb_le in Hlo. apply Z.leb_le in Hhi.
  split; [exact Hb |]. split; [lia |].
  rewrite Hfm. apply count_where_nonneg.
Qed.

Lemma gemini_factcheck_inv (debug : option (string -> M unit)) (svc : services)
    (structured : dict) (tr tr' : trace) (factcheck : dict) :
  gemini_factcheck debug svc structured tr = (inr factcheck, tr') ->
  exists claims verdicts,
    py_iter (py_or (dict_get_default structured "claims" (JArr [])) (JArr []))
    = inr claims
    /\ factcheck = [("results", JArr verdicts)]
    /\ Forall2 (verdict_for debug svc) (nonblank_claims claims) verdicts.
Proof.
  unfold gemini_factcheck, bind, lift, ret. intros H.
  destruct (py_iter _) as [e | claims]; [discriminate |].
  destruct (factcheck_loop debug svc claims [] tr) as [[e | verdicts] tr1] eqn:Hloop;
    [discriminate |].
  destruct (@factcheck_loop_inv debug svc claims [] tr verdicts tr1 Hloop)
    as (vs & Hout & Hrun).
  cbn [app] in Hout. subst vs. exists claims, verdicts.
  split; [reflexivity |]. split; [congruence |].
  exact (factcheck_run_verdicts Hrun).
Qed.

(** ** The verdicts that the fact-check emits *)

(** Every verdict in the results of [gemini_factcheck] is an object with
    the seven keys of a verdict: the verdict for a search without results
    has them, and an answer of the reasoning stage gets the ones it lacks,
    ["unclear"] for a missing verdict and 0 for a missing confidence, while
    none of its own values is replaced. *)
Theorem gemini_factcheck_verdicts_complete (debug : option (string -> M unit))
    (svc : services) (structured : dict) (tr tr' : trace) (factcheck : dict) :
  gemini_factcheck debug svc structured tr = (inr factcheck, tr') ->
  (exists verdicts,
      factcheck = [("results", JArr verdicts)]
      /\ forallb verdict_complete verdicts = true)
  /\ (forall claim claim_source answer v,
        backfill claim claim_source answer = inr v ->
        exists d d',
          answer = JObj d /\ v = JObj d'
          /\ (forall k x, dict_get d k = Some x -> dict_get d' k = Some x)
          /\ (dict_get d "verdict" = None ->
              dict_get d' "verdict" = Some (JStr "unclear"))
          /\ (dict_get d "confidence" = None ->
              dict_get d' "confidence" = Some (JInt 0))).
Proof.
  intros H. split.
  - destruct (gemini_factcheck_inv _ _ _ _ H) as (claims & verdicts & _ & Hout & Hall).
    exists verdicts. split; [exact Hout |].
    clear Hout H. induction Hall as [| cs v css vs Hv _ IH]; [reflexivity |].
    cbn [forallb]. rewrite IH, andb_true_r.
    destruct Hv as [(_ & _ & _ & _ & _ & ->)
                   | (_ & _ & _ & _ & answer & _ & _ & _ & Hfill)];
      [reflexivity |].
    destruct (backfill_keeps _ _ _ Hfill) as (d & d' & _ & _ & _ & Hc & _).
    exact Hc.
  - intros claim claim_source answer v Hfill.
    destruct (backfill_keeps _ _ _ Hfill)
      as (d & d' & Ha & Hv & Hkeep & _ & Hverdict & Hconf & _).
    exists d, d'. repeat split; assumption.
Qed.

Lemma gemini_factcheck_verdicts_complete_witness :
  exists verdicts,
    [("results", JArr [no_sources_verdict "The sky is green" "video";
                       no_sources_verdict "Water is dry" "caption"])]
    = [("results", JArr verdicts)]
    /\ forallb verdict_complete verdicts = true.
Proof.
  exact (proj1 (@gemini_factcheck_verdicts_complete backend_debug
                  no_results_services three_claims [] _ _ eq_refl)).
Defined.

(** ** What the detectors never do *)

Lemma wait_while_processing_stuck (svc : services) (fuel : nat) :
  (forall t, genai_get_file svc t = inr "PROCESSING"%string) ->
  forall tr, wait_while_processing svc fuel "PROCESSING" tr = None.
Proof.
  intros Hstuck. induction fuel as [| fuel IH]; intros tr; [reflexivity |].
  cbn [wait_while_processing]. rewrite String.eqb_refl.
  unfold poll_file, bind, sleep, call.
  destruct (Qlt_le_dec 2 0) as [Hlt | _]; [discriminate Hlt |].
  unfold emit. rewrite Hstuck. apply IH.
Qed.

(** [check_video_synthid] has no limit on its polling: while the uploaded
    file stays in the state ["PROCESSING"], no number of polls makes it
    return, neither a result nor the neutral one. *)
Theorem check_video_synthid_never_gives_up (svc : services)
    (video_path : string) (video_metadata : json) (analysis : string) (tr : trace) :
  genai_upload_file svc tr video_path = inr "PROCESSING"%string ->
  (forall t, genai_get_file svc t = inr "PROCESSING"%string) ->
  forall fuel,
    check_video_synthid svc fuel video_path video_metadata analysis tr = None.
Proof.
  intros Hup Hstuck fuel. unfold check_video_synthid, synthid_try, call.
  rewrite Hup, (wait_while_processing_stuck svc fuel Hstuck). reflexivity.
Qed.

Lemma check_video_synthid_never_gives_up_witness :
  (forall fuel,
      check_video_synthid processing_services fuel "clip.mp4" JNull "" [] = None)
  /\ check_video_synthid processing_services 3 "clip.mp4" JNull "" [] = None.
Proof.
  split.
  - exact (@check_video_synthid_never_gives_up processing_services "clip.mp4"
             JNull "" [] eq_refl (fun _ => eq_refl)).
  - reflexivity.
Defined.

(** The standalone detector never uses TwelveLabs: whether the client can be
    built or not, [detect_ai_video] returns the same dict, and the
    [api_result] it holds, when it holds one, is [None]. *)
Theorem detect_ai_video_ignores_twelvelabs (probe : result pyobj)
    (client1 client2 : result unit) :
  detect_ai_video probe client1 = detect_ai_video probe client2
  /\ (api_result (detect_ai_video probe client1) = None
      \/ api_result (detect_ai_video probe client1) = Some None)
  /\ (api_result (detect_ai_video probe client1) = None
      <-> is_ai (detect_ai_video probe client1) = false).
Proof.
  unfold detect_ai_video.
  destruct (is_metadata_real (get_video_metadata probe)); cbn.
  - split; [reflexivity |]. split; [left; reflexivity |]. split; reflexivity.
  - destruct client1, client2; cbn;
      (split; [reflexivity |]; split; [right; reflexivity |];
       split; discriminate).
Qed.
